(** * IIDX ScoreBoard client: the store, fetch-hook and form logic

    A shallow embedding of the client-side logic of the repository
    (stores, REST modules, data-fetching hooks, the route guard, the
    CSV upload page and the signup page), followed by the properties
    the specification states about them.

    Conventions.
    - A JavaScript object used as a dictionary (filter criteria, query
      parameters, the per-field error object) is a [gmap string _].
    - A JavaScript string is a [string]; one [ascii] stands for one code
      unit, so [String.length] is the [.length] of the source.
    - Component state set through [useState] is a record; a handler is a
      computation in the [Act] monad below, which threads that record,
      collects the observable effects (requests, toasts, navigation) and
      carries a thrown value through [try/catch/finally].
    - A computation is a handler run from its call to its return, so
      the promise it awaits is one that has settled; what it leaves is
      the state once the request has been answered.  Calls of an [async]
      function that overlap are a timeline of its two halves, before
      and after the [await] ([ScoresTimeline]).
    - The backend is a parameter: a function from the request to the
      promise the HTTP client hands back. *)

From Stdlib Require Import ZArith String Ascii List Sorted Lia.
From stdpp Require Import base option list gmap strings pretty.

Local Open Scope string_scope.
Local Open Scope list_scope.
Local Open Scope Z_scope.

(* ===================================================================== *)
(** ** JavaScript values                                                  *)
(* ===================================================================== *)

Module JS.

(** The values that flow through the modelled code.  Objects carry
    their own properties; a function value only carries its name, since
    the code below at most tests one for truthiness. *)
Unset Elimination Schemes.
Inductive jsval : Type :=
| VUndefined
| VNull
| VBool (b : bool)
| VNum (n : Z)
| VStr (s : string)
| VArray (items : list jsval)
| VObject (props : list (string * jsval))
| VFunction (name : string).
Set Elimination Schemes.

(** ToBoolean: [undefined], [null], [false], [0] and [''] are falsy. *)
Definition truthy (v : jsval) : bool :=
  match v with
  | VUndefined | VNull => false
  | VBool b => b
  | VNum n => negb (n =? 0)
  | VStr s => negb (String.eqb s "")
  | VArray _ | VObject _ | VFunction _ => true
  end.

(** [a || b] *)
Definition or_else (a b : jsval) : jsval := if truthy a then a else b.

(** [v !== '' && v !== null && v !== undefined] *)
Definition is_set (v : jsval) : bool :=
  match v with
  | VStr s => negb (String.eqb s "")
  | VNull | VUndefined => false
  | _ => true
  end.

(** [{ ...a, ...b }]: own properties of [b] override those of [a]. *)
Definition spread {V} (a b : gmap string V) : gmap string V := b ∪ a.

(** [o.k] on a dictionary: a missing property reads [undefined]. *)
Definition prop (o : gmap string jsval) (k : string) : jsval :=
  default VUndefined (o !! k).

(** [s.endsWith(suffix)] *)
Definition endsWith (s suffix : string) : bool :=
  let n := String.length s in
  let k := String.length suffix in
  (k <=? n)%nat && String.eqb (substring (n - k) k s) suffix.

(** [s.includes(c)] for a one-character needle. *)
Fixpoint includes (s : string) (c : ascii) : bool :=
  match s with
  | EmptyString => false
  | String a s' => Ascii.eqb a c || includes s' c
  end.

(** White space as [trim] sees it among the code units below 256:
    TAB, LF, VT, FF, CR, SPACE and NBSP. *)
Definition is_space (c : ascii) : bool :=
  let n := nat_of_ascii c in
  ((9 <=? n) && (n <=? 13) || (n =? 32) || (n =? 160))%nat.

Fixpoint trimStart (s : string) : string :=
  match s with
  | EmptyString => EmptyString
  | String a s' => if is_space a then trimStart s' else s
  end.

(** [trimEnd]: a trailing run of white space is dropped. *)
Fixpoint trimEnd (s : string) : string :=
  match s with
  | EmptyString => EmptyString
  | String a s' =>
      match trimEnd s' with
      | EmptyString => if is_space a then EmptyString else String a EmptyString
      | t => String a t
      end
  end.

(** [s.trim()] *)
Definition trim (s : string) : string := trimEnd (trimStart s).

(** [Math.round(a / b)] for integers [a >= 0], [b > 0]: the nearest
    integer, a tie going up.  The quotient is taken exactly; the
    source computes it in double precision, which rounds to the same
    integer for [b] below 2^46 and [a] up to [100 * b], the range of a
    percentage of a byte count. *)
Definition round_div (a b : Z) : Z := (2 * a + b) / (2 * b).

End JS.
Export JS.

(* ===================================================================== *)
(** ** HTTP: requests, responses, errors, promises (api/client.js)        *)
(* ===================================================================== *)

Module Http.

(** A file picked in the browser. *)
Record File := { file_name : string; file_size : Z }.

Inductive FormEntry := FText (s : string) | FFile (f : File).

(** What leaves the client.  [apiClient] (api/client.js) adds the
    session cookie and the CSRF header to each request and leaves the
    method, path and query as the caller gave them; the body leaves as
    JSON, or as the multipart form it is when the call says so. *)
Inductive Request :=
| GET (url : string) (params : gmap string jsval)
| POST (url : string) (body : gmap string jsval)
| POST_form (url : string) (form : list (string * FormEntry)).

(** [error.response.data], reduced to what the callers read. *)
Record ErrorData := { message : jsval }.
Record ErrorResponse := { status : Z; data : option ErrorData }.

(** A thrown value.  An error raised by the HTTP client carries the
    backend response when there was one; any other thrown value (a
    [TypeError], a network failure) has no [response] property. *)
Record JsError := { response : option ErrorResponse }.

Definition TypeError : JsError := {| response := None |}.

(** [err.response?.data?.message] *)
Definition err_message (err : JsError) : jsval :=
  match response err with
  | None => VUndefined
  | Some r => match data r with
              | None => VUndefined
              | Some d => message d
              end
  end.

(** A promise that settles at time [settledAt], fulfilled with a
    value or rejected with a thrown value. *)
Record Promise (A : Type) := { settledAt : nat; outcome : A + JsError }.
Arguments settledAt {A} _.
Arguments outcome {A} _.

Definition rejected {A} (p : Promise A) : option (nat * JsError) :=
  match outcome p with
  | inr e => Some (settledAt p, e)
  | inl _ => None
  end.

(** The rejection that settles first in a list of promises; of two
    that settle at the same instant the one listed first counts. *)
Fixpoint first_rejection {A} (ps : list (Promise A)) : option (nat * JsError) :=
  match ps with
  | [] => None
  | p :: ps' =>
      match rejected p, first_rejection ps' with
      | Some (t, e), Some (t', e') => if (t <=? t')%nat then Some (t, e) else Some (t', e')
      | Some r, None => Some r
      | None, r => r
      end
  end.

Fixpoint values {A} (ps : list (Promise A)) : list A :=
  match ps with
  | [] => []
  | p :: ps' => match outcome p with
                | inl a => a :: values ps'
                | inr _ => values ps'
                end
  end.

Definition latest {A} (ps : list (Promise A)) : nat :=
  foldr (λ p t, Nat.max (settledAt p) t) 0%nat ps.

(** [Promise.all(ps)]: rejected with the first rejection to arrive,
    fulfilled with all the values, in the order of [ps], otherwise. *)
Definition Promise_all {A} (ps : list (Promise A)) : Promise (list A) :=
  match first_rejection ps with
  | Some (t, e) => {| settledAt := t; outcome := inr e |}
  | None => {| settledAt := latest ps; outcome := inl (values ps) |}
  end.

(** [p.then(f)], as an [async] function that returns [f (await p)]. *)
Definition then_ {A B} (f : A → B) (p : Promise A) : Promise B :=
  {| settledAt := settledAt p;
     outcome := match outcome p with inl a => inl (f a) | inr e => inr e end |}.

Record AxiosResponse (D : Type) := { resp_status : Z; resp_data : D }.
Arguments resp_status {D} _.
Arguments resp_data {D} _.

End Http.
Export Http.

(* ===================================================================== *)
(** ** Handlers as computations                                           *)
(* ===================================================================== *)

Module Effects.

Inductive Event :=
| Sent (r : Request)
| ToastError (msg : jsval)
| ToastSuccess (msg : string)
| Navigated (to : string).

Inductive Result (A : Type) := Returned (a : A) | Thrown (e : JsError).
Arguments Returned {A} _.
Arguments Thrown {A} _.

(** A computation over component state [S]: the result, the state it
    leaves, and the effects it performed, oldest first. *)
Definition Act (S A : Type) : Type := S → Result A * S * list Event.

Definition ret {S A} (a : A) : Act S A := λ s, (Returned a, s, []).

Definition bind {S A B} (m : Act S A) (k : A → Act S B) : Act S B :=
  λ s, match m s with
       | (Returned a, s1, t1) =>
           let '(r, s2, t2) := k a s1 in (r, s2, t1 ++ t2)
       | (Thrown e, s1, t1) => (Thrown e, s1, t1)
       end.

(** The sequencing of statements is stdpp's monad notation:
    [x ← m; k] and [m;; k]. *)
#[global] Instance Act_ret {S} : MRet (Act S) := λ A, ret.
#[global] Instance Act_bind {S} : MBind (Act S) := λ A B k m, bind m k.

Definition throw {S A} (e : JsError) : Act S A := λ s, (Thrown e, s, []).
Definition emit {S} (ev : Event) : Act S () := λ s, (Returned (), s, [ev]).
Definition modify {S} (f : S → S) : Act S () := λ s, (Returned (), f s, []).
Definition get {S} : Act S S := λ s, (Returned s, s, []).

(** [await p], for a promise that has settled *)
Definition await {S A} (p : Promise A) : Act S A :=
  match outcome p with
  | inl a => ret a
  | inr e => throw e
  end.

(** [try { body } catch (err) { handler } finally { final }] *)
Definition try_catch_finally {S A}
    (body : Act S A) (handler : JsError → Act S A) (final : Act S ()) : Act S A :=
  λ s,
    let '(r1, s1, t1) :=
      match body s with
      | (Returned a, s', t) => (Returned a, s', t)
      | (Thrown e, s', t) => let '(r, s'', t') := handler e s' in (r, s'', t ++ t')
      end in
    match final s1 with
    | (Returned _, s2, t2) => (r1, s2, t1 ++ t2)
    | (Thrown e, s2, t2) => (Thrown e, s2, t1 ++ t2)
    end.

(** [try { body } catch (err) { handler }] *)
Definition try_catch {S A} (body : Act S A) (handler : JsError → Act S A) : Act S A :=
  try_catch_finally body handler (ret ()).

(** A call into a module that has no access to the component's state. *)
Definition stateless {S A} (m : Act () A) : Act S A :=
  λ s, let '(r, _, t) := m () in (r, s, t).

(** [for (const x of xs) f(x)] *)
Fixpoint for_each {S A} (xs : list A) (f : A → Act S ()) : Act S () :=
  match xs with
  | [] => ret ()
  | x :: xs' => f x;; for_each xs' f
  end.

Definition state_of {S A} (r : Result A * S * list Event) : S := r.1.2.
Definition trace_of {S A} (r : Result A * S * list Event) : list Event := r.2.
Definition result_of {S A} (r : Result A * S * list Event) : Result A := r.1.1.

(** The requests among the effects, in the order they were sent. *)
Definition requests (t : list Event) : list Request :=
  omap (λ ev, match ev with Sent r => Some r | _ => None end) t.

Definition toast_errors (t : list Event) : list jsval :=
  omap (λ ev, match ev with ToastError m => Some m | _ => None end) t.

End Effects.
Export Effects.


(* ===================================================================== *)
(** ** REST modules (api/scores.js, api/import.js, api/auth.js)           *)
(* ===================================================================== *)

(** The list envelope of the backend.  A score is passed through to the
    table as it came. *)
Record PageResponse := {
  content : list jsval;
  totalElements : Z;
  totalPages : Z;
  number : Z;
}.

(** [apiClient.get(url, { params })]: the request leaves, the promise of
    the response comes back.  The response interceptor of api/client.js
    hands a failure on unchanged. *)
Definition apiClient_get {S D} (backend : Request → Promise (AxiosResponse D))
    (url : string) (params : gmap string jsval) : Act S (Promise (AxiosResponse D)) :=
  emit (Sent (GET url params));;
  mret (backend (GET url params)).

(** The progress events the transport raises while a body goes out. *)
Record ProgressEvent := {
  loaded : Z;
  total : option Z;     (* [undefined] when the length is not computable *)
}.

(** The [Content-Type] of a request. *)
Inductive ContentType := application_json | multipart_form_data.

(** The default of the instance, [headers: { 'Content-Type':
    'application/json' }] in [axios.create] (api/client.js): the content
    type of every call that gives none in its [headers] option. *)
Definition default_content_type : ContentType := application_json.

(** What the HTTP client makes of a [FormData] body under a JSON content
    type, [JSON.stringify(formDataToJSON(data))]: a text field is a
    string, and a [File], which has no enumerable property of its own,
    is the empty object.  The forms of this client have no two fields of
    one name. *)
Definition formDataToJSON (form : list (string * FormEntry)) : gmap string jsval :=
  list_to_map
    (map (λ field, (field.1, match field.2 with
                             | FText s => VStr s
                             | FFile _ => VObject []
                             end)) form).

(** The body as it leaves: under a JSON content type the form is
    serialised to JSON, under [multipart/form-data] it goes out as the
    form it is. *)
Definition transformRequest (contentType : ContentType) (url : string)
    (form : list (string * FormEntry)) : Request :=
  match contentType with
  | application_json => POST url (formDataToJSON form)
  | multipart_form_data => POST_form url form
  end.

(** [apiClient.post(url, formData, { headers, onUploadProgress })];
    [contentType] is the [Content-Type] of the [headers] option, [None]
    when the call has none.  Besides the promise, the progress events of
    the body. *)
Definition apiClient_post_form {S D}
    (backend : Request → list ProgressEvent * Promise (AxiosResponse D))
    (url : string) (form : list (string * FormEntry)) (contentType : option ContentType)
    : Act S (list ProgressEvent * Promise (AxiosResponse D)) :=
  let request := transformRequest (default default_content_type contentType) url form in
  emit (Sent request);;
  mret (backend request).

(** [apiClient.post(url, body)] with a JSON body. *)
Definition apiClient_post {S D} (backend : Request → Promise (AxiosResponse D))
    (url : string) (body : gmap string jsval) : Act S (Promise (AxiosResponse D)) :=
  emit (Sent (POST url body));;
  mret (backend (POST url body)).

Module authApi.

Section api.
Context {S : Type}.
Variable backend : Request → Promise (AxiosResponse jsval).

Definition login (username password : string) : Act S jsval :=
  pending ← apiClient_post backend "/auth/login"
              {[ "username" := VStr username; "password" := VStr password ]};
  response ← await pending;
  mret (resp_data response).

Definition logout : Act S () :=
  pending ← apiClient_post backend "/auth/logout" ∅;
  _ ← await pending;
  mret ().

Definition getCurrentUser : Act S jsval :=
  pending ← apiClient_get backend "/users/me" ∅;
  response ← await pending;
  mret (resp_data response).

(** Modelled from the spec: a [signup] member of [authApi], which the
    signup page calls and api/auth.js does not define.  The spec has
    the page issue one signup request to the backend's signup
    endpoint; the request is shaped like [login]'s, and the path, which
    the spec does not give, is left open. *)
Definition signup_by_spec (endpoint : string) (payload : gmap string jsval) : Act S () :=
  pending ← apiClient_post backend endpoint payload;
  _ ← await pending;
  mret ().
End api.

End authApi.

Module scoresApi.

(** [Object.fromEntries(Object.entries(params).filter(([, v]) =>
      v !== '' && v !== null && v !== undefined))] *)
Definition cleanParams (params : gmap string jsval) : gmap string jsval :=
  filter (λ kv, is_set kv.2 = true) params.

(** [getScores], an [async] function: called, it runs up to its
    [await], so the request is out when the call returns, and what it
    returns is the promise of [response.data]. *)
Definition getScores {S} (backend : Request → Promise (AxiosResponse PageResponse))
    (params : gmap string jsval) : Act S (Promise PageResponse) :=
  response ← apiClient_get backend "/scores" (cleanParams params);
  mret (then_ resp_data response).

(** An earlier revision of the same function hands [params] to the
    client as they are. *)
Definition getScores_unfiltered {S} (backend : Request → Promise (AxiosResponse PageResponse))
    (params : gmap string jsval) : Act S (Promise PageResponse) :=
  response ← apiClient_get backend "/scores" params;
  mret (then_ resp_data response).

End scoresApi.

(** What the import endpoint answers. *)
Record ImportResult := {
  songsImported : Z;
  chartsImported : Z;
  scoresImported : Z;
  scoresUpdated : Z;
}.

Module importApi.

(** [Math.round((progressEvent.loaded * 100) / progressEvent.total)] *)
Definition percent (loaded total : Z) : Z := round_div (loaded * 100) total.

(** The body of the [onUploadProgress] handler:
    [if (onProgress && progressEvent.total) onProgress(percent)]. *)
Definition onUploadProgress {S} (onProgress : option (Z → Act S ()))
    (progressEvent : ProgressEvent) : Act S () :=
  match onProgress, total progressEvent with
  | Some cb, Some t =>
      if truthy (VNum t) then cb (percent (loaded progressEvent) t) else mret ()
  | _, _ => mret ()
  end.

(** [uploadCsv(file, playStyle, onProgress)] of the revision with the
    progress callback; [onProgress] is optional.  The call gives no
    [headers], so the form is posted under the content type of the
    instance.  The progress events arrive while the request is awaited. *)
Definition uploadCsv {S}
    (backend : Request → list ProgressEvent * Promise (AxiosResponse ImportResult))
    (file : File) (playStyle : string) (onProgress : option (Z → Act S ()))
    : Act S ImportResult :=
  let formData := [("file", FFile file); ("playStyle", FText playStyle)] in
  '(events, pending) ← apiClient_post_form backend "/import/iidx/score" formData None;
  for_each events (onUploadProgress onProgress);;
  response ← await pending;
  mret (resp_data response).

(** [uploadCsv(file, playStyle)] of api/import.js as named: no callback,
    and the form posted with [headers: { 'Content-Type':
    'multipart/form-data' }]. *)
Definition uploadCsv_silent {S}
    (backend : Request → list ProgressEvent * Promise (AxiosResponse ImportResult))
    (file : File) (playStyle : string) : Act S ImportResult :=
  let formData := [("file", FFile file); ("playStyle", FText playStyle)] in
  '(_, pending) ← apiClient_post_form backend "/import/iidx/score" formData
                    (Some multipart_form_data);
  response ← await pending;
  mret (resp_data response).

(** The two revisions of api/import.js in the repository: the file as
    named, and the one with the progress callback. *)
Inductive Revision := named | with_progress.

(** [importApi.uploadCsv(file, playStyle, onProgress)] as the upload
    page calls it, over one revision or the other; the two-parameter
    function of the named file ignores the third argument. *)
Definition uploadCsv_rev {S} (rev : Revision)
    (backend : Request → list ProgressEvent * Promise (AxiosResponse ImportResult))
    (file : File) (playStyle : string) (onProgress : option (Z → Act S ()))
    : Act S ImportResult :=
  match rev with
  | named => uploadCsv_silent backend file playStyle
  | with_progress => uploadCsv backend file playStyle onProgress
  end.

(** The request of one upload as it leaves, by revision. *)
Definition request_sent (rev : Revision) (file : File) (playStyle : string) : Request :=
  transformRequest
    (match rev with
     | named => multipart_form_data
     | with_progress => default_content_type
     end)
    "/import/iidx/score" [("file", FFile file); ("playStyle", FText playStyle)].

(** The percentages a run of progress events hands to the callback. *)
Definition percentages (events : list ProgressEvent) : list Z :=
  omap (λ ev, match total ev with
              | Some t => if truthy (VNum t) then Some (percent (loaded ev) t) else None
              | None => None
              end) events.

(** The percentages the callback of the page gets to see, by revision. *)
Definition reported (rev : Revision) (events : list ProgressEvent) : list Z :=
  match rev with
  | named => []
  | with_progress => percentages events
  end.

(** What the transport promises about the progress events of one
    upload of [size] bytes: the count of bytes sent starts at or above
    zero and never goes back, and [total], when the event has one, is
    [size]. *)
Definition upload_progress (size : Z) (events : list ProgressEvent) : Prop :=
  0 < size
  ∧ Sorted Z.le (map loaded events)
  ∧ Forall (λ ev, 0 ≤ loaded ev ∧ (total ev = Some size ∨ total ev = None)) events.

(** A callback that notes down each percentage it is handed. *)
Definition note (percent : Z) : Act (list Z) () :=
  modify (λ seen, seen ++ [percent]).

End importApi.

(* ===================================================================== *)
(** ** The percentage in the numbers of the source                        *)
(* ===================================================================== *)

(** The numbers of the source are binary64 floating-point numbers: a
    product and a quotient are the exact result rounded to 53
    significant bits, to the nearest, a tie going to the even one.  The
    operands here are byte counts: integers that are not negative and
    below 2^53, which such a number holds exactly; the results stay in
    the range of the normal numbers. *)
Module Binary64.

(** The integer nearest to [n / d], for [d > 0]; a tie goes to the even
    one. *)
Definition nearest_even (n d : Z) : Z :=
  let q := n / d in
  let r := n mod d in
  if 2 * r <? d then q
  else if d <? 2 * r then q + 1
  else if Z.even q then q else q + 1.

(** [x * y] for integers that are not negative: exact below 2^53, a
    multiple of [2 ^ e] from there on, [e] being what the product has
    above 53 bits. *)
Definition multiply (x y : Z) : Z :=
  let p := x * y in
  let e := Z.log2 p - 52 in
  if e <=? 0 then p else nearest_even p (2 ^ e) * 2 ^ e.

(** The [b] with [2 ^ b <= n / d < 2 ^ (b + 1)], for [n, d > 0]. *)
Definition binade (n d : Z) : Z :=
  let k := Z.log2 n - Z.log2 d in
  if (if 0 <=? k then d * 2 ^ k <=? n else d <=? n * 2 ^ (- k)) then k else k - 1.

(** [n / d] for integers [n >= 0] and [d > 0], as the pair [(m, e)] of
    the number [m * 2 ^ e]: 53 bits of the quotient, rounded. *)
Definition divide (n d : Z) : Z * Z :=
  if n =? 0 then (0, 0)
  else
    let e := binade n d - 52 in
    (if 0 <=? e then nearest_even n (d * 2 ^ e) else nearest_even (n * 2 ^ (- e)) d, e).

(** [Math.round(x)] for [x = m * 2 ^ e]: the nearest integer, a tie
    going up, which is the floor of [x + 1/2]. *)
Definition Math_round (x : Z * Z) : Z :=
  let '(m, e) := x in
  if 0 <=? e then m * 2 ^ e else (2 * m + 2 ^ (- e)) / 2 ^ (1 - e).

(** [Math.round((progressEvent.loaded * 100) / progressEvent.total)] *)
Definition percent (loaded total : Z) : Z :=
  Math_round (divide (multiply loaded 100) total).

End Binary64.

(* ===================================================================== *)
(** ** The stores (store/scoresStore.js, store/authStore.js)              *)
(* ===================================================================== *)

Module useScoresStore.

Record state := {
  filters : gmap string jsval;
  pagination : gmap string jsval;
}.

(** What an action hands to [set]: the top-level keys it names. *)
Record partial := {
  set_filters : option (gmap string jsval);
  set_pagination : option (gmap string jsval);
}.

(** zustand's [set]: the named keys replace the old ones, the others stay. *)
Definition set (f : state → partial) (st : state) : state :=
  let p := f st in
  {| filters := default (filters st) (set_filters p);
     pagination := default (pagination st) (set_pagination p) |}.

Definition initial : state :=
  {| filters := {[ "playStyle" := VStr ""; "level" := VStr "";
                   "chartType" := VStr ""; "clearType" := VStr "" ]};
     pagination := {[ "page" := VNum 0; "size" := VNum 20 ]} |}.

Definition setFilters (newFilters : gmap string jsval) : state → state :=
  set (λ state,
    {| set_filters := Some (spread (filters state) newFilters);
       set_pagination := Some (spread (pagination state) {[ "page" := VNum 0 ]}) |}).

Definition setPage (page : jsval) : state → state :=
  set (λ state,
    {| set_filters := None;
       set_pagination := Some (spread (pagination state) {[ "page" := page ]}) |}).

Definition resetFilters : state → state :=
  set (λ _,
    {| set_filters := Some {[ "playStyle" := VStr ""; "level" := VStr "";
                              "chartType" := VStr ""; "clearType" := VStr "" ]};
       set_pagination := Some {[ "page" := VNum 0; "size" := VNum 20 ]} |}).

End useScoresStore.

Module useAuthStore.

Record User := { id : Z; username : string }.

Record state := {
  user : option User;          (* [null] when logged out *)
  isLoading : bool;
  error : jsval;
}.

Definition initial : state := {| user := None; isLoading := true; error := VNull |}.

Definition setUser (u : option User) (st : state) : state :=
  {| user := u; isLoading := isLoading st; error := VNull |}.
Definition setLoading (b : bool) (st : state) : state :=
  {| user := user st; isLoading := b; error := error st |}.
Definition setError (e : jsval) (st : state) : state :=
  {| user := user st; isLoading := isLoading st; error := e |}.
Definition logout (st : state) : state :=
  {| user := None; isLoading := isLoading st; error := VNull |}.
Definition clearError (st : state) : state :=
  {| user := user st; isLoading := isLoading st; error := VNull |}.

(** The action [isAuthenticated: () => get().user !== null], called. *)
Definition isAuthenticated (st : state) : bool :=
  match user st with Some _ => true | None => false end.

Definition user_value (u : User) : jsval :=
  VObject [("id", VNum (id u)); ("username", VStr (username u))].

(** The object [useAuthStore()] returns, read property by property, as
    a destructuring [const { k } = useAuthStore()] does.  The actions
    are members of that object like the data. *)
Definition member (st : state) (k : string) : jsval :=
  if String.eqb k "user" then
    match user st with Some u => user_value u | None => VNull end
  else if String.eqb k "isLoading" then VBool (isLoading st)
  else if String.eqb k "error" then error st
  else if bool_decide (k ∈ ["setUser"; "setLoading"; "setError"; "logout";
                            "clearError"; "isAuthenticated"])
  then VFunction k
  else VUndefined.

End useAuthStore.

(* ===================================================================== *)
(** ** The score query hook (hooks/useScores.js)                          *)
(* ===================================================================== *)

Module useScores.

Record hook := {
  data : option PageResponse;       (* [null] until a page arrived *)
  isLoading : bool;
  error : jsval;
}.

Definition initial : hook := {| data := None; isLoading := true; error := VNull |}.

Definition setData (d : option PageResponse) : Act hook () :=
  modify (λ h, {| data := d; isLoading := isLoading h; error := error h |}).
Definition setIsLoading (b : bool) : Act hook () :=
  modify (λ h, {| data := data h; isLoading := b; error := error h |}).
Definition setError (e : jsval) : Act hook () :=
  modify (λ h, {| data := data h; isLoading := isLoading h; error := e |}).

Definition fallback : string := "스코어를 불러오는 데 실패했습니다.".

Section fetch.
Variable backend : Request → Promise (AxiosResponse PageResponse).
Variable store : useScoresStore.state.

Let filters := useScoresStore.filters store.
Let pagination := useScoresStore.pagination store.

Definition fetchScores : Act hook () :=
  setIsLoading true;;
  setError VNull;;
  try_catch_finally
    (pending ← scoresApi.getScores backend
                 (spread filters {[ "page" := prop pagination "page";
                                    "size" := prop pagination "size" ]});
     result ← await pending;
     setData (Some result))
    (λ err, setError (or_else (err_message err) (VStr fallback)))
    (setIsLoading false).
End fetch.

(** The request one fetch of the score list sends. *)
Definition request_of (store : useScoresStore.state) : Request :=
  GET "/scores"
    (scoresApi.cleanParams
       (spread (useScoresStore.filters store)
          {[ "page" := prop (useScoresStore.pagination store) "page";
             "size" := prop (useScoresStore.pagination store) "size" ]})).

End useScores.

(* ===================================================================== *)
(** ** The dashboard hook (hooks/useDashboard.js)                         *)
(* ===================================================================== *)

Module useDashboard.

Record Stats := { total : Z; fullCombo : Z; exHard : Z; hard : Z; clear : Z }.

Record hook := {
  stats : Stats;
  recentScores : list jsval;
  isLoading : bool;
  error : jsval;
}.

Definition initial : hook :=
  {| stats := {| total := 0; fullCombo := 0; exHard := 0; hard := 0; clear := 0 |};
     recentScores := [];
     isLoading := true;
     error := VNull |}.

Definition setStats (s : Stats) : Act hook () :=
  modify (λ h, {| stats := s; recentScores := recentScores h;
                  isLoading := isLoading h; error := error h |}).
Definition setRecentScores (l : list jsval) : Act hook () :=
  modify (λ h, {| stats := stats h; recentScores := l;
                  isLoading := isLoading h; error := error h |}).
Definition setIsLoading (b : bool) : Act hook () :=
  modify (λ h, {| stats := stats h; recentScores := recentScores h;
                  isLoading := b; error := error h |}).
Definition setError (e : jsval) : Act hook () :=
  modify (λ h, {| stats := stats h; recentScores := recentScores h;
                  isLoading := isLoading h; error := e |}).

Definition fallback : string := "대시보드 데이터를 불러오는데 실패했습니다.".

Section fetch.
Variable backend : Request → Promise (AxiosResponse PageResponse).
Variable auth : useAuthStore.state.

(** [const { isAuthenticated } = useAuthStore();] binds the member
    of the store object under that name.  The array destructuring of
    the six results is the [match]: with fewer than six, a name would
    be [undefined] and reading [totalElements] off it a [TypeError]. *)
Let isAuthenticated : jsval := useAuthStore.member auth "isAuthenticated".

Definition fetchDashboardData : Act hook () :=
  if negb (truthy isAuthenticated) then
    setIsLoading false
  else
    setIsLoading true;;
    setError VNull;;
    try_catch_finally
      (p1 ← scoresApi.getScores backend {[ "size" := VNum 1 ]};
       p2 ← scoresApi.getScores backend {[ "clearType" := VStr "FULL_COMBO"; "size" := VNum 1 ]};
       p3 ← scoresApi.getScores backend {[ "clearType" := VStr "EX_HARD_CLEAR"; "size" := VNum 1 ]};
       p4 ← scoresApi.getScores backend {[ "clearType" := VStr "HARD_CLEAR"; "size" := VNum 1 ]};
       p5 ← scoresApi.getScores backend {[ "clearType" := VStr "CLEAR"; "size" := VNum 1 ]};
       p6 ← scoresApi.getScores backend {[ "page" := VNum 0; "size" := VNum 5 ]};
       results ← await (Promise_all [p1; p2; p3; p4; p5; p6]);
       match results with
       | [totalRes; fcRes; exHardRes; hardRes; clearRes; recentRes] =>
           setStats {| total := totalElements totalRes;
                       fullCombo := totalElements fcRes;
                       exHard := totalElements exHardRes;
                       hard := totalElements hardRes;
                       clear := totalElements clearRes |};;
           setRecentScores (content recentRes)
       | _ => throw TypeError
       end)
      (λ err, setError (or_else (err_message err) (VStr fallback)))
      (setIsLoading false).
End fetch.

(** The six queries of one aggregation, as they leave. *)
Definition count_query (clearType : string) : Request :=
  GET "/scores" {[ "clearType" := VStr clearType; "size" := VNum 1 ]}.

Definition queries : list Request :=
  [ GET "/scores" {[ "size" := VNum 1 ]};
    count_query "FULL_COMBO";
    count_query "EX_HARD_CLEAR";
    count_query "HARD_CLEAR";
    count_query "CLEAR";
    GET "/scores" {[ "page" := VNum 0; "size" := VNum 5 ]} ].

(** The promises the six calls return, in the order of the calls. *)
Definition promises (backend : Request → Promise (AxiosResponse PageResponse))
    : list (Promise PageResponse) :=
  map (λ q, then_ resp_data (backend q)) queries.

End useDashboard.

(* ===================================================================== *)
(** ** The route guard (components/guards/ProtectedRoute.jsx)             *)
(* ===================================================================== *)

Module Guard.

(** What the guard renders. *)
Inductive Rendered (C : Type) :=
| LoadingScreen                             (* the neutral "Loading..." block *)
| Navigate (to : string) (replace : bool)   (* [<Navigate to=... replace />] *)
| Children (children : C).
Arguments LoadingScreen {C}.
Arguments Navigate {C} _ _.
Arguments Children {C} _.

Definition ProtectedRoute {C} (auth : useAuthStore.state) (children : C) : Rendered C :=
  let user := useAuthStore.member auth "user" in
  let isLoading := useAuthStore.member auth "isLoading" in
  if truthy isLoading then LoadingScreen
  else if negb (truthy user) then Navigate "/login" true
  else Children children.

End Guard.

(* ===================================================================== *)
(** ** The CSV upload page (pages/CsvUpload.jsx)                          *)
(* ===================================================================== *)

Module CsvUpload.

Inductive UploadState := idle | uploading | success | error.

Record page := {
  file : option File;
  playStyle : string;
  isDragging : bool;
  uploadState : UploadState;
  progress : Z;
  result : option ImportResult;
}.

Definition initial : page :=
  {| file := None; playStyle := "SP"; isDragging := false;
     uploadState := idle; progress := 0; result := None |}.

Definition setFile (f : option File) : Act page () :=
  modify (λ p, {| file := f; playStyle := playStyle p; isDragging := isDragging p;
                  uploadState := uploadState p; progress := progress p; result := result p |}).
Definition setPlayStyle (s : string) : Act page () :=
  modify (λ p, {| file := file p; playStyle := s; isDragging := isDragging p;
                  uploadState := uploadState p; progress := progress p; result := result p |}).
Definition setIsDragging (b : bool) : Act page () :=
  modify (λ p, {| file := file p; playStyle := playStyle p; isDragging := b;
                  uploadState := uploadState p; progress := progress p; result := result p |}).
Definition setUploadState (u : UploadState) : Act page () :=
  modify (λ p, {| file := file p; playStyle := playStyle p; isDragging := isDragging p;
                  uploadState := u; progress := progress p; result := result p |}).
Definition with_progress (n : Z) (p : page) : page :=
  {| file := file p; playStyle := playStyle p; isDragging := isDragging p;
     uploadState := uploadState p; progress := n; result := result p |}.
Definition setProgress (n : Z) : Act page () := modify (with_progress n).
Definition setResult (r : option ImportResult) : Act page () :=
  modify (λ p, {| file := file p; playStyle := playStyle p; isDragging := isDragging p;
                  uploadState := uploadState p; progress := progress p; result := r |}).

Definition NOT_CSV : string := "CSV 파일만 업로드 가능합니다.".
Definition TOO_LARGE : string := "파일 크기는 10MB 이하만 가능합니다.".
Definition UPLOAD_FAILED : string := "업로드 중 오류가 발생했습니다.".

Definition validateFile (selectedFile : option File) : Act page bool :=
  match selectedFile with
  | None => mret false
  | Some f =>
      if negb (endsWith (file_name f) ".csv") then
        emit (ToastError (VStr NOT_CSV));; mret false
      else if 10 * 1024 * 1024 <? file_size f then
        emit (ToastError (VStr TOO_LARGE));; mret false
      else mret true
  end.

Definition handleFileSelect (selectedFile : option File) : Act page () :=
  ok ← validateFile selectedFile;
  if ok : bool then
    setFile selectedFile;;
    setUploadState idle;;
    setResult None
  else mret ().

Definition handleDragOver : Act page () := setIsDragging true.
Definition handleDragLeave : Act page () := setIsDragging false.

Definition handleDrop (dropped : option File) : Act page () :=
  setIsDragging false;;
  handleFileSelect dropped.

(** The click on the X next to the chosen file. *)
Definition removeFile : Act page () :=
  setFile None;;
  setUploadState idle.

Section upload.
(** The revision of api/import.js the page is built with. *)
Variable api : importApi.Revision.
Variable backend : Request → list ProgressEvent * Promise (AxiosResponse ImportResult).

Definition handleUpload : Act page () :=
  p ← get;
  match file p with
  | None => mret ()
  | Some f =>
      setUploadState uploading;;
      setProgress 0;;
      try_catch
        (data ← importApi.uploadCsv_rev api backend f (playStyle p) (Some setProgress);
         setResult (Some data);;
         setUploadState success;;
         emit (ToastSuccess (pretty (scoresImported data + scoresUpdated data)
                             +:+ "개 스코어 처리 완료!")))
        (λ err,
           setUploadState error;;
           let msg := or_else (err_message err) (VStr UPLOAD_FAILED) in
           emit (ToastError msg))
  end.

(** What the user can do on the page. *)
Inductive Action :=
| Pick (f : option File)            (* the file input changed *)
| Drop (f : option File)
| DragOver
| DragLeave
| ChoosePlayStyle (style : string)
| RemoveFile
| Upload.

Definition perform (a : Action) : Act page () :=
  match a with
  | Pick f => handleFileSelect f
  | Drop f => handleDrop f
  | DragOver => handleDragOver
  | DragLeave => handleDragLeave
  | ChoosePlayStyle style => setPlayStyle style
  | RemoveFile => removeFile
  | Upload => handleUpload
  end.

Definition session (actions : list Action) : Act page () := for_each actions perform.
End upload.

(** The two checks of [validateFile], without the toasts. *)
Definition acceptable (f : File) : bool :=
  endsWith (file_name f) ".csv" && (file_size f <=? 10 * 1024 * 1024).

Definition upload_request (f : File) (style : string) : Request :=
  POST_form "/import/iidx/score" [("file", FFile f); ("playStyle", FText style)].

(** The page never holds a file that failed validation. *)
Definition file_ok (p : page) : Prop :=
  match file p with
  | Some f => acceptable f = true
  | None => True
  end.

(** An upload request for a file that passed validation. *)
Definition sent_ok (api : importApi.Revision) (r : Request) : Prop :=
  ∃ (f : File) (style : string),
    r = importApi.request_sent api f style ∧ acceptable f = true.

End CsvUpload.

(* ===================================================================== *)
(** ** The signup page (pages/Signup.jsx)                                 *)
(* ===================================================================== *)

Module Signup.

Record Form := {
  username : string;
  email : string;
  password : string;
  passwordConfirm : string;
}.

(** The [name] attributes of the four inputs. *)
Inductive Field := Username | Email | Password | PasswordConfirm.

Definition name_of (f : Field) : string :=
  match f with
  | Username => "username"
  | Email => "email"
  | Password => "password"
  | PasswordConfirm => "passwordConfirm"
  end.

Record page := {
  form : Form;
  errors : gmap string string;
  isSubmitting : bool;
}.

Definition initial : page :=
  {| form := {| username := ""; email := ""; password := ""; passwordConfirm := "" |};
     errors := ∅;
     isSubmitting := false |}.

Definition setForm (f : Form → Form) : Act page () :=
  modify (λ p, {| form := f (form p); errors := errors p; isSubmitting := isSubmitting p |}).
Definition setErrors (f : gmap string string → gmap string string) : Act page () :=
  modify (λ p, {| form := form p; errors := f (errors p); isSubmitting := isSubmitting p |}).
Definition setIsSubmitting (b : bool) : Act page () :=
  modify (λ p, {| form := form p; errors := errors p; isSubmitting := b |}).

(** [{ ...prev, [name]: value }] on the form. *)
Definition with_field (name : Field) (value : string) (prev : Form) : Form :=
  match name with
  | Username => {| username := value; email := email prev;
                   password := password prev; passwordConfirm := passwordConfirm prev |}
  | Email => {| username := username prev; email := value;
                password := password prev; passwordConfirm := passwordConfirm prev |}
  | Password => {| username := username prev; email := email prev;
                   password := value; passwordConfirm := passwordConfirm prev |}
  | PasswordConfirm => {| username := username prev; email := email prev;
                          password := password prev; passwordConfirm := value |}
  end.

(** [errors[name]] as a condition: set and not the empty string. *)
Definition has_error (errs : gmap string string) (name : string) : bool :=
  match errs !! name with
  | Some m => negb (String.eqb m "")
  | None => false
  end.

Definition handleChange (name : Field) (value : string) : Act page () :=
  p ← get;
  setForm (with_field name value);;
  if has_error (errors p) (name_of name) then
    setErrors (λ prev, spread prev {[ name_of name := "" ]})
  else mret ().

Definition USERNAME_REQUIRED : string := "아이디를 입력해주세요.".
Definition USERNAME_SHORT : string := "아이디는 3자 이상이어야 합니다.".
Definition EMAIL_INVALID : string := "올바른 이메일 형식이 아닙니다.".
Definition PASSWORD_SHORT : string := "비밀번호는 8자 이상이어야 합니다.".
Definition PASSWORD_MISMATCH : string := "비밀번호가 일치하지 않습니다.".
Definition SIGNUP_DONE : string := "회원가입 완료! 로그인 해주세요.".
Definition SIGNUP_FAILED : string := "회원가입 중 오류가 발생했습니다.".

(** [if (c) newErrors[k] = m] *)
Definition set_if (c : bool) (k m : string) (newErrors : gmap string string)
    : gmap string string :=
  if c then <[ k := m ]> newErrors else newErrors.

Definition validate (form : Form) : gmap string string :=
  let newErrors : gmap string string := ∅ in
  let newErrors :=
    if String.eqb (trim (username form)) "" then
      <[ "username" := USERNAME_REQUIRED ]> newErrors
    else if (String.length (username form) <? 3)%nat then
      <[ "username" := USERNAME_SHORT ]> newErrors
    else newErrors in
  let newErrors :=
    set_if (negb (includes (email form) "@"%char)) "email" EMAIL_INVALID newErrors in
  let newErrors :=
    set_if (String.length (password form) <? 8)%nat "password" PASSWORD_SHORT newErrors in
  let newErrors :=
    set_if (negb (String.eqb (password form) (passwordConfirm form)))
           "passwordConfirm" PASSWORD_MISMATCH newErrors in
  newErrors.

Section submit.
(** The [signup] member of the imported [authApi] object: [None]
    when the object has no such member, in which case the call
    expression throws a [TypeError]. *)
Variable signup : option (gmap string jsval → Act () ()).

Definition authApi_signup (payload : gmap string jsval) : Act page () :=
  match signup with
  | Some f => stateless (f payload)
  | None => throw TypeError
  end.

Definition handleSubmit : Act page () :=
  p ← get;
  let validationErrors := validate (form p) in
  if (0 <? size validationErrors)%nat then
    setErrors (λ _, validationErrors)
  else
    setIsSubmitting true;;
    try_catch_finally
      (authApi_signup {[ "username" := VStr (username (form p));
                         "email" := VStr (email (form p));
                         "password" := VStr (password (form p)) ]};;
       emit (ToastSuccess SIGNUP_DONE);;
       emit (Navigated "/login"))
      (λ err,
         let message := or_else (err_message err) (VStr SIGNUP_FAILED) in
         emit (ToastError message))
      (setIsSubmitting false).

(** What the user can do on the page. *)
Inductive Action :=
| Input (name : Field) (value : string)
| Submit.

Definition perform (a : Action) : Act page () :=
  match a with
  | Input name value => handleChange name value
  | Submit => handleSubmit
  end.

Definition session (actions : list Action) : Act page () := for_each actions perform.
End submit.

(** The four checks of [validate], without the messages. *)
Definition all_valid (f : Form) : bool :=
  negb (String.eqb (trim (username f)) "")
  && (3 <=? String.length (username f))%nat
  && includes (email f) "@"%char
  && (8 <=? String.length (password f))%nat
  && String.eqb (password f) (passwordConfirm f).

(** The body of the signup call. *)
Definition payload_of (f : Form) : gmap string jsval :=
  {[ "username" := VStr (username f);
     "email" := VStr (email f);
     "password" := VStr (password f) ]}.

End Signup.

(* ===================================================================== *)
(** ** The score-query store under its actions                            *)
(* ===================================================================== *)

Module ScoresStoreRun.

(** The three actions of the store, as the components call them. *)
Inductive Action :=
| SetFilters (newFilters : gmap string jsval)
| SetPage (page : jsval)
| ResetFilters.

Definition step (st : useScoresStore.state) (a : Action) : useScoresStore.state :=
  match a with
  | SetFilters newFilters => useScoresStore.setFilters newFilters st
  | SetPage page => useScoresStore.setPage page st
  | ResetFilters => useScoresStore.resetFilters st
  end.

Definition run (actions : list Action) (st : useScoresStore.state) : useScoresStore.state :=
  foldl step st actions.

End ScoresStoreRun.

(* ===================================================================== *)
(** ** The filter bar (components/scores/ScoreFilter.jsx)                 *)
(* ===================================================================== *)

Module ScoreFilter.

(** [v !== ''] *)
Definition differs_from_empty (v : jsval) : bool :=
  match v with
  | VStr s => negb (String.eqb s "")
  | _ => true
  end.

(** [Object.values(filters).some((v) => v !== '')] *)
Definition hasActiveFilter (filters : gmap string jsval) : bool :=
  existsb differs_from_empty (map_to_list filters).*2.

(** The four dropdowns: [onChange={(v) => setFilters({ field: v })}],
    [v] being the [value] of the chosen option, a string. *)
Definition choose (field value : string) : useScoresStore.state → useScoresStore.state :=
  useScoresStore.setFilters {[ field := VStr value ]}.

(** The reset button is there when a filter is active. *)
Definition resetButton (st : useScoresStore.state) : bool :=
  hasActiveFilter (useScoresStore.filters st).

End ScoreFilter.

(* ===================================================================== *)
(** ** The score page (pages/Scores.jsx over hooks/useScores.js)          *)
(* ===================================================================== *)

Module Scores.

(** The fields of the envelope, under names the view's own do not hide. *)
Definition data_totalElements (d : PageResponse) : Z := totalElements d.
Definition data_totalPages (d : PageResponse) : Z := totalPages d.

(** What [useScores] returns, [refetch] apart. *)
Record View := {
  scores : list jsval;
  totalElements : Z;
  totalPages : Z;
  currentPage : Z;
  isLoading : bool;
  error : jsval;
}.

(** [data?.content ?? []], [data?.totalElements ?? 0], ... *)
Definition view (h : useScores.hook) : View :=
  {| scores := from_option content [] (useScores.data h);
     totalElements := from_option data_totalElements 0 (useScores.data h);
     totalPages := from_option data_totalPages 0 (useScores.data h);
     currentPage := from_option number 0 (useScores.data h);
     isLoading := useScores.isLoading h;
     error := useScores.error h |}.

(** A button of the pager; a click calls [setPage target]. *)
Record Button := {
  label : string;
  disabled : bool;
  target : Z;
}.

(** The pager: previous, one button per page
    ([Array.from({ length: totalPages }, (_, i) => ...)]), next. *)
Definition pager (currentPage totalPages : Z) : list Button :=
  [ {| label := "← 이전"; disabled := currentPage =? 0; target := currentPage - 1 |} ]
  ++ map (λ i, {| label := pretty (i + 1); disabled := false; target := i |})
         (seqZ 0 totalPages)
  ++ [ {| label := "다음 →"; disabled := totalPages - 1 <=? currentPage;
          target := currentPage + 1 |} ].

(** The body of the page under the filter bar. *)
Inductive Body :=
| Spinner
| ErrorBlock (message : jsval)
| Table (rows : list jsval) (buttons : list Button).

Definition render (v : View) : Body :=
  if isLoading v then Spinner
  else if truthy (error v) then ErrorBlock (error v)
  else Table (scores v) (if 1 <? totalPages v then pager (currentPage v) (totalPages v) else []).

End Scores.

(* ===================================================================== *)
(** ** Fetches of the score list that overlap (hooks/useScores.js)        *)
(* ===================================================================== *)

Module ScoresTimeline.

Section timeline.
Variable backend : Request → Promise (AxiosResponse PageResponse).

(** [fetchScores] from its call to its [await]: the two flags are set
    and the request is out; the function is suspended on the promise
    returned here. *)
Definition begin (store : useScoresStore.state) : Act useScores.hook (Promise PageResponse) :=
  useScores.setIsLoading true;;
  useScores.setError VNull;;
  scoresApi.getScores backend
    (spread (useScoresStore.filters store)
       {[ "page" := prop (useScoresStore.pagination store) "page";
          "size" := prop (useScoresStore.pagination store) "size" ]}).

(** [fetchScores] from its [await] on, run when the promise has
    settled. *)
Definition resume (pending : Promise PageResponse) : Act useScores.hook () :=
  try_catch_finally
    (result ← await pending;
     useScores.setData (Some result))
    (λ err, useScores.setError (or_else (err_message err) (VStr useScores.fallback)))
    (useScores.setIsLoading false).

(** [useEffect(() => { fetchScores(); }, [fetchScores])] calls
    [fetchScores] at each change of the filters or of the cursor, and
    nothing cancels a call that is suspended: it resumes when its
    promise settles, in whatever order the promises settle. *)
Inductive Tick :=
| Call (store : useScoresStore.state)     (* the store changed: [fetchScores()] *)
| Settle (n : nat).                        (* the promise of call number [n] settled *)

(** The hook, the promise each call so far is suspended on ([None] once
    the call has resumed), and the requests sent. *)
Record world := {
  hook : useScores.hook;
  suspended : list (option (Promise PageResponse));
  sent : list Request;
}.

Definition start (h : useScores.hook) : world :=
  {| hook := h; suspended := []; sent := [] |}.

Definition step (w : world) (t : Tick) : world :=
  match t with
  | Call store =>
      let r := begin store (hook w) in
      {| hook := state_of r;
         suspended := suspended w
                      ++ [match result_of r with
                          | Returned pending => Some pending
                          | Thrown _ => None
                          end];
         sent := sent w ++ requests (trace_of r) |}
  | Settle n =>
      match suspended w !! n with
      | Some (Some pending) =>
          {| hook := state_of (resume pending (hook w));
             suspended := <[ n := None ]> (suspended w);
             sent := sent w |}
      | _ => w
      end
  end.

Definition run (ticks : list Tick) (w : world) : world := foldl step w ticks.
End timeline.

Definition is_settle (t : Tick) : Prop :=
  match t with Settle _ => True | Call _ => False end.

(** The requests of the calls of a timeline, in their order. *)
Definition called (ticks : list Tick) : list Request :=
  omap (λ t, match t with
             | Call store => Some (useScores.request_of store)
             | Settle _ => None
             end) ticks.

End ScoresTimeline.

(* ===================================================================== *)
(** ** The auth calls with a typed body, session restore and login        *)
(* ===================================================================== *)

(** [authApi.login] and [authApi.getCurrentUser] again, statement for
    statement, with [response.data] read as the type the caller stores
    it at. *)
Module authClient.

Section api.
Context {S D : Type}.
Variable backend : Request → Promise (AxiosResponse D).

Definition login (username password : string) : Act S D :=
  pending ← apiClient_post backend "/auth/login"
              {[ "username" := VStr username; "password" := VStr password ]};
  response ← await pending;
  mret (resp_data response).

Definition getCurrentUser : Act S D :=
  pending ← apiClient_get backend "/users/me" ∅;
  response ← await pending;
  mret (resp_data response).
End api.

End authClient.

Module App.

Section session.
Variable backend : Request → Promise (AxiosResponse useAuthStore.User).

(** [restoreSession] of App.jsx, run once when the app mounts. *)
Definition restoreSession : Act useAuthStore.state () :=
  try_catch_finally
    (user ← authClient.getCurrentUser backend;
     modify (useAuthStore.setUser (Some user)))
    (λ _, mret ())
    (modify (useAuthStore.setLoading false)).
End session.

End App.

Module Login.

Record page := {
  username : string;
  password : string;
  isSubmitting : bool;
}.

(** The page's own state and the auth store it writes to. *)
Record world := {
  local : page;
  auth : useAuthStore.state;
}.

Definition initial : page := {| username := ""; password := ""; isSubmitting := false |}.

Definition setUsername (v : string) : Act world () :=
  modify (λ w, {| local := {| username := v; password := password (local w);
                              isSubmitting := isSubmitting (local w) |};
                  auth := auth w |}).
Definition setPassword (v : string) : Act world () :=
  modify (λ w, {| local := {| username := username (local w); password := v;
                              isSubmitting := isSubmitting (local w) |};
                  auth := auth w |}).
Definition setIsSubmitting (b : bool) : Act world () :=
  modify (λ w, {| local := {| username := username (local w);
                              password := password (local w);
                              isSubmitting := b |};
                  auth := auth w |}).
Definition setUser (u : useAuthStore.User) : Act world () :=
  modify (λ w, {| local := local w; auth := useAuthStore.setUser (Some u) (auth w) |}).

Definition LOGIN_DONE : string := "로그인 성공! 환영합니다 🎵".
Definition LOGIN_FAILED : string := "아이디 또는 비밀번호를 확인해주세요.".

Section submit.
Variable backend : Request → Promise (AxiosResponse useAuthStore.User).

Definition handleSubmit : Act world () :=
  w ← get;
  setIsSubmitting true;;
  try_catch_finally
    (user ← authClient.login backend (username (local w)) (password (local w));
     setUser user;;
     emit (ToastSuccess LOGIN_DONE);;
     emit (Navigated "/"))
    (λ err,
       let message := or_else (err_message err) (VStr LOGIN_FAILED) in
       emit (ToastError message))
    (setIsSubmitting false).
End submit.

End Login.

(* ===================================================================== *)
(** ** The header (components/layout/Header.jsx)                          *)
(* ===================================================================== *)

Module Header.

(** The [to] and [label] of the navigation items. *)
Definition NAV_ITEMS : list (string * string) :=
  [ ("/", "대시보드");
    ("/scores", "스코어");
    ("/tier-table/12", "서열표");
    ("/import/csv", "가져오기") ].

(** [to === '/' ? pathname === '/' : pathname.startsWith(to)] *)
Definition isActive (pathname to : string) : bool :=
  if String.eqb to "/" then String.eqb pathname "/" else String.prefix to pathname.

Definition LOGGED_OUT : string := "로그아웃 되었습니다.".

Section logout.
Variable backend : Request → Promise (AxiosResponse jsval).

Definition handleLogout : Act useAuthStore.state () :=
  try_catch
    (authApi.logout backend;;
     modify useAuthStore.logout;;
     emit (ToastSuccess LOGGED_OUT);;
     emit (Navigated "/login"))
    (λ _,
       modify useAuthStore.logout;;
       emit (Navigated "/login")).
End logout.

End Header.
(* ===================================================================== *)
(** ** The request interceptor (api/client.js)                            *)
(* ===================================================================== *)

Module apiClient.

(** [s.split(sep)] for a separator of one character or more.  [skip]
    counts the characters of a separator just matched that are still
    to be passed over; [piece] is the piece being read. *)
Fixpoint split_from (sep : string) (skip : nat) (piece s : string) : list string :=
  match s with
  | EmptyString => [piece]
  | String c s' =>
      match skip with
      | S k => split_from sep k piece s'
      | O =>
          if String.prefix sep s
          then piece :: split_from sep (String.length sep - 1) "" s'
          else split_from sep 0 (piece +:+ String c "") s'
      end
  end.

Definition split (sep s : string) : list string := split_from sep 0 "" s.

(** [document.cookie.split('; ').find((row) =>
      row.startsWith('XSRF-TOKEN='))?.split('=')[1]];
    [None] stands for [undefined]. *)
Definition csrfToken (cookie : string) : option string :=
  match List.find (String.prefix "XSRF-TOKEN=") (split "; " cookie) with
  | Some row => split "=" row !! 1%nat
  | None => None
  end.

(** The part of a request configuration the interceptor can touch. *)
Record Config := {
  request : Request;
  withCredentials : bool;
  headers : gmap string string;
}.

(** [axios.create({ withCredentials: true, headers: { 'Content-Type':
    'application/json' } })] around a request. *)
Definition create (r : Request) : Config :=
  {| request := r; withCredentials := true;
     headers := {[ "Content-Type" := "application/json" ]} |}.

(** The request interceptor, over the cookie string of the document. *)
Definition attachCsrf (cookie : string) (config : Config) : Config :=
  match csrfToken cookie with
  | Some token =>
      if truthy (VStr token)
      then {| request := request config; withCredentials := withCredentials config;
              headers := <[ "X-XSRF-TOKEN" := token ]> (headers config) |}
      else config
  | None => config
  end.

(** How the browser renders its cookie jar in [document.cookie]: the
    [name=value] rows joined by a semicolon and a space. *)
Fixpoint cookie_of (rows : list string) : string :=
  match rows with
  | [] => ""
  | [row] => row
  | row :: rest => row +:+ "; " +:+ cookie_of rest
  end.

(** The text up to the first occurrence of a character. *)
Fixpoint before (c : ascii) (s : string) : string :=
  match s with
  | EmptyString => EmptyString
  | String a s' => if Ascii.eqb a c then EmptyString else String a (before c s')
  end.

End apiClient.

(* ===================================================================== *)
(** ** What the CSV upload page shows (pages/CsvUpload.jsx, render)       *)
(* ===================================================================== *)

Module CsvUploadView.

(** [common/Button]: [disabled={disabled || isLoading}]. *)
Definition Button_disabled (disabled isLoading : bool) : bool := disabled || isLoading.

Definition is_uploading (u : CsvUpload.UploadState) : bool :=
  match u with CsvUpload.uploading => true | _ => false end.

Definition is_success (u : CsvUpload.UploadState) : bool :=
  match u with CsvUpload.success => true | _ => false end.

(** The upload button: [None] when it is not rendered
    ([uploadState !== 'success' && ...]), else whether it is disabled
    ([disabled={!file || uploadState === 'uploading'}]). *)
Definition uploadButton (p : CsvUpload.page) : option bool :=
  if negb (is_success (CsvUpload.uploadState p)) then
    Some (Button_disabled
            (negb (bool_decide (is_Some (CsvUpload.file p)))
             || is_uploading (CsvUpload.uploadState p))
            (is_uploading (CsvUpload.uploadState p)))
  else None.

(** The progress bar, rendered while uploading, with its percentage. *)
Definition progressBar (p : CsvUpload.page) : option Z :=
  if is_uploading (CsvUpload.uploadState p) then Some (CsvUpload.progress p) else None.

(** The four result cards: [uploadState === 'success' && result && ...]. *)
Definition resultCards (p : CsvUpload.page) : option (Z * Z * Z * Z) :=
  if is_success (CsvUpload.uploadState p) then
    match CsvUpload.result p with
    | Some r => Some (songsImported r, chartsImported r, scoresImported r, scoresUpdated r)
    | None => None
    end
  else None.

End CsvUploadView.

(* ===================================================================== *)
(** ** Reading the signup form by field                                   *)
(* ===================================================================== *)

Module SignupView.

(** [form[name]] *)
Definition read (name : Signup.Field) (f : Signup.Form) : string :=
  match name with
  | Signup.Username => Signup.username f
  | Signup.Email => Signup.email f
  | Signup.Password => Signup.password f
  | Signup.PasswordConfirm => Signup.passwordConfirm f
  end.

End SignupView.

(* ===================================================================== *)
(** ** Sample inputs                                                      *)
(* ===================================================================== *)

Module Samples.

Definition doc_example_params : gmap string jsval :=
  {[ "level" := VNum 12; "playStyle" := VStr ""; "clearType" := VStr "" ]}.

Definition silent_backend : Request → Promise (AxiosResponse PageResponse) :=
  λ _, {| settledAt := 1;
          outcome := inl {| resp_status := 200;
                            resp_data := {| content := []; totalElements := 0;
                                            totalPages := 0; number := 0 |} |} |}.

(** The rejection [{ response: { data: { message: msg } } }]. *)
Definition backend_error (msg : jsval) : JsError :=
  {| response := Some {| status := 500; data := Some {| message := msg |} |} |}.

(** A backend that rejects every request with that payload. *)
Definition rejecting_backend (msg : jsval) : Request → Promise (AxiosResponse PageResponse) :=
  λ _, {| settledAt := 1; outcome := inr (backend_error msg) |}.

Definition page_of (n : Z) (items : list jsval) : AxiosResponse PageResponse :=
  {| resp_status := 200;
     resp_data := {| content := items; totalElements := n; totalPages := n; number := 0 |} |}.

(** A backend that answers 401 to every request: nobody is logged in. *)
Definition unauthorized_backend : Request → Promise (AxiosResponse PageResponse) :=
  λ _, {| settledAt := 1;
          outcome := inr {| response := Some {| status := 401; data := None |} |} |}.

(** A backend on which only the HARD_CLEAR count fails. *)
Definition hard_clear_failing_backend : Request → Promise (AxiosResponse PageResponse) :=
  λ r, match r with
       | GET _ params =>
           match params !! "clearType" with
           | Some (VStr c) =>
               if String.eqb c "HARD_CLEAR"
               then {| settledAt := 2; outcome := inr (backend_error (VStr "boom")) |}
               else {| settledAt := 3; outcome := inl (page_of 7 []) |}
           | _ => {| settledAt := 1; outcome := inl (page_of 40 [VObject [("id", VNum 1)]]) |}
           end
       | _ => {| settledAt := 1; outcome := inl (page_of 0 []) |}
       end.

Definition data_csv : File := {| file_name := "data.csv"; file_size := 1024 |}.

(** An import endpoint that reports progress three times on the way. *)
Definition import_backend
    : Request → list ProgressEvent * Promise (AxiosResponse ImportResult) :=
  λ _, ([ {| loaded := 300; total := Some 1200 |};
          {| loaded := 900; total := Some 1200 |};
          {| loaded := 1200; total := Some 1200 |} ],
        {| settledAt := 4;
           outcome := inl {| resp_status := 200;
                             resp_data := {| songsImported := 1; chartsImported := 2;
                                             scoresImported := 3; scoresUpdated := 4 |} |} |}).

(** A backend that accepts whatever is posted. *)
Definition accepting_backend : Request → Promise (AxiosResponse jsval) :=
  λ _, {| settledAt := 1; outcome := inl {| resp_status := 200; resp_data := VNull |} |}.

(** A [signup] member as the spec has it; the path stands for the
    backend's signup endpoint, whatever it is. *)
Definition signup_member : option (gmap string jsval → Act () ()) :=
  Some (authApi.signup_by_spec accepting_backend "/auth/signup").

(** Fill the form with a confirmation that does not match, submit,
    then correct the password field. *)
Definition mistyped_then_fixed : list Signup.Action :=
  [ Signup.Input Signup.Username "abc";
    Signup.Input Signup.Email "a@b";
    Signup.Input Signup.Password "abcdefghi";
    Signup.Input Signup.PasswordConfirm "abcdefgh";
    Signup.Submit;
    Signup.Input Signup.Password "abcdefgh" ].

Definition valid_form : Signup.Form :=
  {| Signup.username := "abc"; Signup.email := "a@b";
     Signup.password := "abcdefgh"; Signup.passwordConfirm := "abcdefgh" |}.

Definition faulty_form : Signup.Form :=
  {| Signup.username := "ab"; Signup.email := "ab.example";
     Signup.password := "short"; Signup.passwordConfirm := "other" |}.

Definition page_with (f : Signup.Form) : Signup.page :=
  {| Signup.form := f; Signup.errors := ∅; Signup.isSubmitting := false |}.

(** A store the user has filtered and paged. *)
Definition browsed_store : useScoresStore.state :=
  ScoresStoreRun.run
    [ ScoresStoreRun.SetFilters {[ "level" := VStr "12" ]};
      ScoresStoreRun.SetPage (VNum 3) ]
    useScoresStore.initial.

Definition dj : useAuthStore.User := {| useAuthStore.id := 7; useAuthStore.username := "dj" |}.

(** The store once the session probe has settled with nobody logged in. *)
Definition anonymous_store : useAuthStore.state :=
  {| useAuthStore.user := None; useAuthStore.isLoading := false;
     useAuthStore.error := VNull |}.

(** A backend that knows the user [dj]. *)
Definition user_backend : Request → Promise (AxiosResponse useAuthStore.User) :=
  λ _, {| settledAt := 1; outcome := inl {| resp_status := 200; resp_data := dj |} |}.

(** A cookie jar with a session cookie and a CSRF token. *)
Definition jar : list string := ["JSESSIONID=abc123"; "XSRF-TOKEN=tok-42"; "theme=dark"].

(** An import endpoint that refuses the file. *)
Definition refusing_import_backend
    : Request → list ProgressEvent * Promise (AxiosResponse ImportResult) :=
  λ _, ([ {| loaded := 600; total := Some 1200 |} ],
        {| settledAt := 2; outcome := inr (backend_error (VStr "bad header")) |}).

(** A form whose name is four spaces and whose other fields are fine. *)
Definition blank_name_form : Signup.Form :=
  {| Signup.username := "    "; Signup.email := "a@b";
     Signup.password := "abcdefgh"; Signup.passwordConfirm := "abcdefgh" |}.

(** A backend on which all six dashboard queries succeed: 40 scores
    in all, 7 in each clear bucket. *)
Definition counting_backend : Request → Promise (AxiosResponse PageResponse) :=
  λ r, match r with
       | GET _ params =>
           match params !! "clearType" with
           | Some _ => {| settledAt := 2; outcome := inl (page_of 7 []) |}
           | None => {| settledAt := 1;
                        outcome := inl (page_of 40 [VObject [("id", VNum 1)]]) |}
           end
       | _ => {| settledAt := 1; outcome := inl (page_of 0 []) |}
       end.

(** A backend on which the second page of the list is down. *)
Definition second_page_down : Request → Promise (AxiosResponse PageResponse) :=
  λ r, match r with
       | GET _ params =>
           match params !! "page" with
           | Some (VNum 1) =>
               {| settledAt := 2; outcome := inr (backend_error (VStr "page 2 is down")) |}
           | _ => {| settledAt := 3; outcome := inl (page_of 40 [VObject [("id", VNum 1)]]) |}
           end
       | _ => {| settledAt := 1; outcome := inl (page_of 0 []) |}
       end.

(** The user went to the second page and straight back to the first. *)
Definition there_and_back : list ScoresTimeline.Tick :=
  [ ScoresTimeline.Call (useScoresStore.setPage (VNum 1) useScoresStore.initial);
    ScoresTimeline.Call (useScoresStore.setPage (VNum 0) useScoresStore.initial) ].

End Samples.

(* ===================================================================== *)
(** * Properties                                                          *)
(* ===================================================================== *)

(** ** Values and dictionaries *)

Lemma is_set_false (v : jsval) :
  is_set v = false ↔ v = VStr "" ∨ v = VNull ∨ v = VUndefined.
Proof.
  split.
  - destruct v as [| |b|n|s|l|l|f]; simpl; try discriminate; auto.
    destruct s; simpl; [auto | discriminate].
  - intros [-> | [-> | ->]]; reflexivity.
Qed.

Lemma lookup_spread {V} (a b : gmap string V) (k : string) :
  spread a b !! k = match b !! k with Some v => Some v | None => a !! k end.
Proof.
  unfold spread. rewrite lookup_union.
  destruct (b !! k), (a !! k); reflexivity.
Qed.

Lemma lookup_spread_singleton {V} (a : gmap string V) (j k : string) (v : V) :
  spread a {[ j := v ]} !! k = if decide (j = k) then Some v else a !! k.
Proof.
  rewrite lookup_spread, lookup_singleton. destruct (decide (j = k)); reflexivity.
Qed.

Lemma lookup_cleanParams (params : gmap string jsval) (k : string) :
  scoresApi.cleanParams params !! k =
  match params !! k with
  | Some v => if is_set v then Some v else None
  | None => None
  end.
Proof.
  unfold scoresApi.cleanParams.
  destruct (params !! k) as [v|] eqn:Hk.
  - destruct (is_set v) eqn:Hv.
    + apply map_lookup_filter_Some. split; [exact Hk | exact Hv].
    + apply map_lookup_filter_None. right. intros v' Hk'. simpl.
      rewrite Hk in Hk'. injection Hk' as <-. rewrite Hv. discriminate.
  - apply map_lookup_filter_None. left. exact Hk.
Qed.

(** ** The score-query store *)

(** C1. [setFilters] with any partial filter object leaves
    [pagination.page] at 0, keeps [pagination.size] (and every other
    key of the cursor), and keeps every filter field the argument does
    not mention; a field it mentions takes the argument's value. *)
Theorem C1_setFilters_resets_page
    (newFilters : gmap string jsval) (st : useScoresStore.state) :
  let st' := useScoresStore.setFilters newFilters st in
  useScoresStore.pagination st' !! "page" = Some (VNum 0)
  ∧ useScoresStore.pagination st' !! "size" = useScoresStore.pagination st !! "size"
  ∧ ∀ k : string,
      useScoresStore.filters st' !! k =
      match newFilters !! k with
      | Some v => Some v
      | None => useScoresStore.filters st !! k
      end.
Proof.
  simpl. repeat split.
  - rewrite lookup_spread_singleton. reflexivity.
  - rewrite lookup_spread_singleton. reflexivity.
  - intros k. apply lookup_spread.
Qed.

(** C10. [setPage p] changes [pagination.page] to [p] and nothing else:
    the filter object is the one it was, and every other key of the
    cursor, [size] among them, reads as before. *)
Theorem C10_setPage_frame (p : jsval) (st : useScoresStore.state) :
  let st' := useScoresStore.setPage p st in
  useScoresStore.filters st' = useScoresStore.filters st
  ∧ useScoresStore.pagination st' !! "page" = Some p
  ∧ useScoresStore.pagination st' !! "size" = useScoresStore.pagination st !! "size"
  ∧ ∀ k : string,
      useScoresStore.pagination st' !! k =
      if decide ("page" = k) then Some p else useScoresStore.pagination st !! k.
Proof.
  simpl. repeat split.
  - rewrite lookup_spread_singleton. reflexivity.
  - rewrite lookup_spread_singleton. reflexivity.
  - intros k. apply lookup_spread_singleton.
Qed.

(** ** The score list request *)

Lemma getScores_run {S} (backend : Request → Promise (AxiosResponse PageResponse))
    (params : gmap string jsval) (s : S) :
  scoresApi.getScores backend params s =
  let req := GET "/scores" (scoresApi.cleanParams params) in
  (Returned (then_ resp_data (backend req)), s, [Sent req]).
Proof. reflexivity. Qed.

(** C2. [getScores] sends one request, to [/scores], and its query has
    no field whose value was [''], [null] or [undefined], and has every
    other field of [params] with the value it had there. *)
Theorem C2_getScores_strips_empty_fields {S}
    (backend : Request → Promise (AxiosResponse PageResponse))
    (params : gmap string jsval) (s : S) :
  ∃ query : gmap string jsval,
    requests (trace_of (scoresApi.getScores backend params s)) = [GET "/scores" query]
    ∧ ∀ (k : string) (v : jsval), params !! k = Some v →
        ((v = VStr "" ∨ v = VNull ∨ v = VUndefined) → query !! k = None)
        ∧ (¬ (v = VStr "" ∨ v = VNull ∨ v = VUndefined) → query !! k = Some v).
Proof.
  exists (scoresApi.cleanParams params). split; [reflexivity |].
  intros k v Hk. rewrite lookup_cleanParams, Hk.
  split; intros Hv.
  - apply is_set_false in Hv. rewrite Hv. reflexivity.
  - destruct (is_set v) eqn:E; [reflexivity |].
    apply is_set_false in E. contradiction.
Qed.

(** The query never gains a field. *)
Lemma cleanParams_absent (params : gmap string jsval) (k : string) :
  params !! k = None → scoresApi.cleanParams params !! k = None.
Proof. intros Hk. rewrite lookup_cleanParams, Hk. reflexivity. Qed.

(** The earlier revision sends the fields as they are, empty ones too. *)
Lemma getScores_unfiltered_run {S}
    (backend : Request → Promise (AxiosResponse PageResponse))
    (params : gmap string jsval) (s : S) :
  requests (trace_of (scoresApi.getScores_unfiltered backend params s))
  = [GET "/scores" params].
Proof. reflexivity. Qed.

(** ** The route guard *)

(** C4. While the auth state is loading the guard renders the waiting
    block, which is neither the protected content nor a redirect; once
    it is not loading, no user gives a redirect to [/login] and a user
    gives the protected content. *)
Theorem C4_ProtectedRoute_cases {C : Type} (children : C)
    (anyUser : option useAuthStore.User) (u : useAuthStore.User) (err : jsval) :
  let loading := {| useAuthStore.user := anyUser; useAuthStore.isLoading := true;
                    useAuthStore.error := err |} in
  let anonymous := {| useAuthStore.user := None; useAuthStore.isLoading := false;
                      useAuthStore.error := err |} in
  let authenticated := {| useAuthStore.user := Some u; useAuthStore.isLoading := false;
                          useAuthStore.error := err |} in
  (Guard.ProtectedRoute loading children = Guard.LoadingScreen
   ∧ Guard.ProtectedRoute loading children ≠ Guard.Children children
   ∧ ∀ to replace, Guard.ProtectedRoute loading children ≠ Guard.Navigate to replace)
  ∧ Guard.ProtectedRoute anonymous children = Guard.Navigate "/login" true
  ∧ Guard.ProtectedRoute authenticated children = Guard.Children children.
Proof.
  cbv zeta. repeat split; try reflexivity.
  - discriminate.
  - intros to replace. discriminate.
Qed.

(** The example of api/scores.js: of [{ level: 12, playStyle: '',
    clearType: '' }] only [level] is sent. *)
Lemma C2_getScores_doc_example :
  ∃ query : gmap string jsval,
    requests (trace_of (scoresApi.getScores Samples.silent_backend Samples.doc_example_params ()))
    = [GET "/scores" query]
    ∧ query !! "level" = Some (VNum 12)
    ∧ query !! "playStyle" = None
    ∧ query !! "clearType" = None.
Proof.
  destruct (C2_getScores_strips_empty_fields Samples.silent_backend
              Samples.doc_example_params ())
    as [query [Hsent Hquery]].
  exists query. split; [exact Hsent |]. repeat split.
  - apply (Hquery "level" (VNum 12)); [reflexivity |].
    intros [H | [H | H]]; discriminate H.
  - apply (Hquery "playStyle" (VStr "")); [reflexivity | left; reflexivity].
  - apply (Hquery "clearType" (VStr "")); [reflexivity | left; reflexivity].
Defined.

(** ** The score query hook *)

(** What one run of [fetchScores] leaves, by the way the request settles. *)
Lemma fetchScores_run (backend : Request → Promise (AxiosResponse PageResponse))
    (store : useScoresStore.state) (h : useScores.hook) :
  useScores.fetchScores backend store h =
  (Returned (),
   match outcome (backend (useScores.request_of store)) with
   | inl response =>
       {| useScores.data := Some (resp_data response);
          useScores.isLoading := false;
          useScores.error := VNull |}
   | inr err =>
       {| useScores.data := useScores.data h;
          useScores.isLoading := false;
          useScores.error := or_else (err_message err) (VStr useScores.fallback) |}
   end,
   [Sent (useScores.request_of store)]).
Proof.
  unfold useScores.fetchScores, useScores.request_of.
  cbv [try_catch_finally mbind Act_bind bind await scoresApi.getScores apiClient_get
       emit mret Act_ret ret useScores.setIsLoading useScores.setError
       useScores.setData modify then_ app].
  destruct (backend _) as [t [response | err]]; reflexivity.
Qed.

(** C5 (amended). After [fetchScores] settles, [isLoading] is false
    whatever the outcome.  When the request is rejected with a backend
    payload whose [message] is a non-empty string "X", the hook's error
    is "X"; when the rejection has no payload, or its message is falsy
    (absent, [null], the empty string), the error is the generic
    message. *)
Theorem C5_fetchScores_error_state
    (backend : Request → Promise (AxiosResponse PageResponse))
    (store : useScoresStore.state) (h : useScores.hook) :
  let settled := state_of (useScores.fetchScores backend store h) in
  useScores.isLoading settled = false
  ∧ ∀ err : JsError,
      outcome (backend (useScores.request_of store)) = inr err →
      (∀ X : string, err_message err = VStr X → X ≠ "" →
         useScores.error settled = VStr X)
      ∧ (truthy (err_message err) = false →
         useScores.error settled = VStr useScores.fallback).
Proof.
  rewrite fetchScores_run. unfold state_of. cbn [fst snd].
  split.
  - destruct (outcome _); reflexivity.
  - intros err ->. cbn [useScores.error]. unfold or_else. split.
    + intros X -> HX. simpl. destruct X; [contradiction | reflexivity].
    + intros ->. reflexivity.
Qed.

(** The property test of the spec: the rejection
    [{response:{data:{message:"X"}}}] ends in [{error:"X", isLoading:false}]. *)
Lemma C5_fetchScores_message_X :
  let settled :=
    state_of (useScores.fetchScores (Samples.rejecting_backend (VStr "X"))
                useScoresStore.initial useScores.initial) in
  useScores.isLoading settled = false ∧ useScores.error settled = VStr "X".
Proof.
  pose proof (C5_fetchScores_error_state (Samples.rejecting_backend (VStr "X"))
                useScoresStore.initial useScores.initial) as [Hloading Herror].
  split; [exact Hloading |].
  apply (Herror (Samples.backend_error (VStr "X"))); [reflexivity | reflexivity |].
  discriminate.
Defined.

(** C5 as first stated fails when the backend's message is the empty
    string: the payload is there, and the error shown is the generic
    one, not [""]. *)
Lemma C5_empty_message_gets_fallback :
  let err := Samples.backend_error (VStr "") in
  let settled :=
    state_of (useScores.fetchScores (Samples.rejecting_backend (VStr ""))
                useScoresStore.initial useScores.initial) in
  err_message err = VStr ""
  ∧ useScores.error settled = VStr useScores.fallback
  ∧ useScores.error settled ≠ VStr "".
Proof.
  cbv zeta. rewrite fetchScores_run. cbn. repeat split. discriminate.
Qed.

(** ** Promise.all *)

Lemma first_rejection_None {A} (ps : list (Promise A)) :
  first_rejection ps = None ↔ Forall (λ p, rejected p = None) ps.
Proof.
  induction ps as [| p ps IH]; simpl.
  - split; [constructor | reflexivity].
  - destruct (rejected p) as [[t e]|] eqn:Hp.
    + split.
      * destruct (first_rejection ps) as [[t' e']|]; [| discriminate].
        destruct (t <=? t')%nat; discriminate.
      * intros H. inversion H; subst. congruence.
    + rewrite IH. split.
      * intros H. constructor; assumption.
      * intros H. inversion H; assumption.
Qed.

(** The rejection [Promise.all] reports is one of the promises' own,
    and no other rejection came before it. *)
Lemma first_rejection_Some {A} (ps : list (Promise A)) (t : nat) (e : JsError) :
  first_rejection ps = Some (t, e) →
  (∃ p, p ∈ ps ∧ rejected p = Some (t, e))
  ∧ ∀ p t' e', p ∈ ps → rejected p = Some (t', e') → (t ≤ t')%nat.
Proof.
  revert t e. induction ps as [| p ps IH]; simpl; intros t e H; [discriminate |].
  destruct (rejected p) as [[tp ep]|] eqn:Hp;
    destruct (first_rejection ps) as [[tq eq]|] eqn:Hq.
  - destruct (IH tq eq eq_refl) as [[q [Hin Hrej]] Hmin].
    destruct (tp <=? tq)%nat eqn:Hle; injection H as <- <-.
    + apply Nat.leb_le in Hle. split.
      * exists p. split; [left | exact Hp].
      * intros p' t' e' Hin' Hrej'. apply elem_of_cons in Hin' as [-> | Hin'].
        -- rewrite Hp in Hrej'. injection Hrej' as <- <-. lia.
        -- specialize (Hmin p' t' e' Hin' Hrej'). lia.
    + apply Nat.leb_gt in Hle. split.
      * exists q. split; [right; exact Hin | exact Hrej].
      * intros p' t' e' Hin' Hrej'. apply elem_of_cons in Hin' as [-> | Hin'].
        -- rewrite Hp in Hrej'. injection Hrej' as <- <-. lia.
        -- exact (Hmin p' t' e' Hin' Hrej').
  - injection H as <- <-. split.
    + exists p. split; [left | exact Hp].
    + intros p' t' e' Hin' Hrej'. apply elem_of_cons in Hin' as [-> | Hin'].
      * rewrite Hp in Hrej'. injection Hrej' as <- <-. lia.
      * apply first_rejection_None in Hq.
        rewrite Forall_forall in Hq. rewrite (Hq p' Hin') in Hrej'. discriminate.
  - injection H as <- <-.
    destruct (IH tq eq eq_refl) as [[q [Hin Hrej]] Hmin]. split.
    + exists q. split; [right; exact Hin | exact Hrej].
    + intros p' t' e' Hin' Hrej'. apply elem_of_cons in Hin' as [-> | Hin'].
      * congruence.
      * exact (Hmin p' t' e' Hin' Hrej').
  - discriminate.
Qed.

Lemma rejected_Some {A} (p : Promise A) (t : nat) (e : JsError) :
  rejected p = Some (t, e) ↔ settledAt p = t ∧ outcome p = inr e.
Proof.
  unfold rejected. destruct (outcome p); split.
  - discriminate.
  - intros [_ H]. discriminate.
  - intros H. injection H as <- <-. split; reflexivity.
  - intros [<- H]. injection H as <-. reflexivity.
Qed.

Lemma rejected_None {A} (p : Promise A) :
  rejected p = None ↔ ∃ a, outcome p = inl a.
Proof.
  unfold rejected. destruct (outcome p) as [a | e]; split.
  - intros _. exists a. reflexivity.
  - reflexivity.
  - discriminate.
  - intros [a H]. discriminate.
Qed.

(** One rejection among the promises rejects the whole. *)
Lemma Promise_all_rejects {A} (ps : list (Promise A)) :
  Exists (λ p, ∃ e, outcome p = inr e) ps →
  ∃ e, outcome (Promise_all ps) = inr e
       ∧ ∃ p, p ∈ ps ∧ outcome p = inr e
              ∧ ∀ q e', q ∈ ps → outcome q = inr e' → (settledAt p ≤ settledAt q)%nat.
Proof.
  intros Hex. unfold Promise_all.
  destruct (first_rejection ps) as [[t e]|] eqn:Hfirst.
  - exists e. split; [reflexivity |].
    destruct (first_rejection_Some ps t e Hfirst) as [[p [Hin Hrej]] Hmin].
    apply rejected_Some in Hrej as [Ht He].
    exists p. repeat split; [exact Hin | exact He |].
    intros q e' Hq Hqe. rewrite Ht.
    apply (Hmin q (settledAt q) e' Hq). apply rejected_Some. split; [reflexivity | exact Hqe].
  - exfalso. apply first_rejection_None in Hfirst.
    apply Exists_exists in Hex as [p [Hin [e He]]].
    rewrite Forall_forall in Hfirst. specialize (Hfirst p Hin).
    apply rejected_None in Hfirst as [a Ha]. congruence.
Qed.

(** With every promise fulfilled the whole is fulfilled with their
    values, in their order. *)
Lemma Promise_all_fulfils {A} (ps : list (Promise A)) (vs : list A) :
  Forall2 (λ p v, outcome p = inl v) ps vs →
  outcome (Promise_all ps) = inl vs.
Proof.
  intros H. unfold Promise_all.
  assert (first_rejection ps = None) as ->.
  { apply first_rejection_None. induction H as [| p v ps vs Hp _ IH]; constructor.
    - apply rejected_None. exists v. exact Hp.
    - exact IH. }
  simpl. f_equal. induction H as [| p v ps vs Hp _ IH]; simpl; [reflexivity |].
  rewrite Hp, IH. reflexivity.
Qed.

(** ** The dashboard hook *)

(** The count queries carry no empty field, so they leave as written. *)
Lemma cleanParams_dashboard :
  map (λ q, match q with
            | GET url params => GET url (scoresApi.cleanParams params)
            | other => other
            end) useDashboard.queries
  = useDashboard.queries.
Proof. vm_compute. reflexivity. Qed.

(** [const { isAuthenticated } = useAuthStore()] is the action itself,
    a function, whoever is or is not logged in. *)
Lemma isAuthenticated_member (auth : useAuthStore.state) :
  useAuthStore.member auth "isAuthenticated" = VFunction "isAuthenticated".
Proof. reflexivity. Qed.

Lemma fetchDashboardData_run
    (backend : Request → Promise (AxiosResponse PageResponse))
    (auth : useAuthStore.state) (h : useDashboard.hook) :
  useDashboard.fetchDashboardData backend auth h =
  (Returned (),
   match outcome (Promise_all (useDashboard.promises backend)) with
   | inl [totalRes; fcRes; exHardRes; hardRes; clearRes; recentRes] =>
       {| useDashboard.stats :=
            {| useDashboard.total := totalElements totalRes;
               useDashboard.fullCombo := totalElements fcRes;
               useDashboard.exHard := totalElements exHardRes;
               useDashboard.hard := totalElements hardRes;
               useDashboard.clear := totalElements clearRes |};
          useDashboard.recentScores := content recentRes;
          useDashboard.isLoading := false;
          useDashboard.error := VNull |}
   | inl _ =>
       {| useDashboard.stats := useDashboard.stats h;
          useDashboard.recentScores := useDashboard.recentScores h;
          useDashboard.isLoading := false;
          useDashboard.error := VStr useDashboard.fallback |}
   | inr err =>
       {| useDashboard.stats := useDashboard.stats h;
          useDashboard.recentScores := useDashboard.recentScores h;
          useDashboard.isLoading := false;
          useDashboard.error := or_else (err_message err) (VStr useDashboard.fallback) |}
   end,
   map Sent useDashboard.queries).
Proof.
  unfold useDashboard.fetchDashboardData. rewrite isAuthenticated_member.
  cbn [truthy negb].
  cbv [try_catch_finally mbind Act_bind bind await scoresApi.getScores apiClient_get
       emit mret Act_ret ret useDashboard.setIsLoading useDashboard.setError
       useDashboard.setStats useDashboard.setRecentScores modify throw app].
  match goal with
  | |- context [Promise_all ?ps] =>
      replace ps with (useDashboard.promises backend) by (vm_compute; reflexivity)
  end.
  replace (map Sent useDashboard.queries)
    with (map Sent (map (λ q, match q with
                              | GET url params => GET url (scoresApi.cleanParams params)
                              | other => other
                              end) useDashboard.queries))
    by (rewrite cleanParams_dashboard; reflexivity).
  destruct (outcome (Promise_all (useDashboard.promises backend)))
    as [[| r1 [| r2 [| r3 [| r4 [| r5 [| r6 [| r7 rs]]]]]]] | err];
    reflexivity.
Qed.

Lemma outcome_then_inr {A B} (f : A → B) (p : Promise A) (e : JsError) :
  outcome (then_ f p) = inr e ↔ outcome p = inr e.
Proof.
  unfold then_. cbn [outcome]. destruct (outcome p); split; congruence.
Qed.

Lemma dashboard_requests
    (backend : Request → Promise (AxiosResponse PageResponse))
    (auth : useAuthStore.state) (h : useDashboard.hook) :
  requests (trace_of (useDashboard.fetchDashboardData backend auth h))
  = useDashboard.queries.
Proof. rewrite fetchDashboardData_run. reflexivity. Qed.

(** With a session and six answers, the statistics are the five
    totals and the recent list is the content of the sixth answer. *)
Lemma dashboard_success
    (backend : Request → Promise (AxiosResponse PageResponse))
    (auth : useAuthStore.state) (h : useDashboard.hook)
    (totalRes fcRes exHardRes hardRes clearRes recentRes : AxiosResponse PageResponse) :
  Forall2 (λ q res, outcome (backend q) = inl res) useDashboard.queries
    [totalRes; fcRes; exHardRes; hardRes; clearRes; recentRes] →
  state_of (useDashboard.fetchDashboardData backend auth h) =
  {| useDashboard.stats :=
       {| useDashboard.total := totalElements (resp_data totalRes);
          useDashboard.fullCombo := totalElements (resp_data fcRes);
          useDashboard.exHard := totalElements (resp_data exHardRes);
          useDashboard.hard := totalElements (resp_data hardRes);
          useDashboard.clear := totalElements (resp_data clearRes) |};
     useDashboard.recentScores := content (resp_data recentRes);
     useDashboard.isLoading := false;
     useDashboard.error := VNull |}.
Proof.
  intros Hall. rewrite fetchDashboardData_run. unfold state_of. cbn [fst snd].
  rewrite (Promise_all_fulfils (useDashboard.promises backend)
             (map resp_data [totalRes; fcRes; exHardRes; hardRes; clearRes; recentRes])).
  - reflexivity.
  - unfold useDashboard.promises. apply Forall2_fmap.
    eapply Forall2_impl; [exact Hall |].
    intros q res Hq. cbn. rewrite Hq. reflexivity.
Qed.

(** C3, at the input where it fails.  The store member the hook tests
    is the function [isAuthenticated], not its result, so the test
    [!isAuthenticated] is false with nobody logged in too: the six
    queries go out all the same. *)
Theorem C3_fetchDashboardData_without_session
    (backend : Request → Promise (AxiosResponse PageResponse))
    (h : useDashboard.hook) :
  let auth := {| useAuthStore.user := None; useAuthStore.isLoading := false;
                 useAuthStore.error := VNull |} in
  let run := useDashboard.fetchDashboardData backend auth h in
  useAuthStore.isAuthenticated auth = false
  ∧ requests (trace_of run) = useDashboard.queries
  ∧ length (requests (trace_of run)) = 6%nat.
Proof.
  cbv zeta. rewrite dashboard_requests. repeat split.
Qed.

(** Logged out, against a backend that answers 401, the hook ends with
    an error instead of the quiet zero-valued state. *)
Example dashboard_logged_out_401 :
  let auth := {| useAuthStore.user := None; useAuthStore.isLoading := false;
                 useAuthStore.error := VNull |} in
  let run := useDashboard.fetchDashboardData Samples.unauthorized_backend auth
               useDashboard.initial in
  length (requests (trace_of run)) = 6%nat
  ∧ useDashboard.error (state_of run) = VStr useDashboard.fallback.
Proof.
  cbv zeta. rewrite fetchDashboardData_run. split; reflexivity.
Qed.

(** C9. When one of the six requests is rejected, the run ends with the
    statistics and the recent list it started with, not loading, and
    with one error message: the backend message of the rejection that
    arrived first, or the generic message when that one has none. *)
Theorem C9_dashboard_one_failure_fails_all
    (backend : Request → Promise (AxiosResponse PageResponse))
    (auth : useAuthStore.state) (h : useDashboard.hook) :
  Exists (λ q, ∃ e, outcome (backend q) = inr e) useDashboard.queries →
  let run := useDashboard.fetchDashboardData backend auth h in
  let settled := state_of run in
  requests (trace_of run) = useDashboard.queries
  ∧ useDashboard.stats settled = useDashboard.stats h
  ∧ useDashboard.recentScores settled = useDashboard.recentScores h
  ∧ useDashboard.isLoading settled = false
  ∧ truthy (useDashboard.error settled) = true
  ∧ ∃ (q : Request) (err : JsError),
      q ∈ useDashboard.queries
      ∧ outcome (backend q) = inr err
      ∧ (∀ q' err', q' ∈ useDashboard.queries → outcome (backend q') = inr err' →
           (settledAt (backend q) ≤ settledAt (backend q'))%nat)
      ∧ useDashboard.error settled
        = or_else (err_message err) (VStr useDashboard.fallback).
Proof.
  intros Hfail. cbv zeta. split; [apply dashboard_requests |].
  rewrite fetchDashboardData_run. unfold state_of. cbn [fst snd].
  destruct (Promise_all_rejects (useDashboard.promises backend)) as [e [He [p [Hp [Hpe Hmin]]]]].
  { unfold useDashboard.promises. apply Exists_fmap.
    eapply Exists_impl; [exact Hfail |].
    intros q [err Hq]. exists err. apply outcome_then_inr. exact Hq. }
  rewrite He. cbn [useDashboard.stats useDashboard.recentScores useDashboard.isLoading
                   useDashboard.error].
  repeat split.
  - unfold or_else. destruct (truthy (err_message e)) eqn:Ht; [exact Ht | reflexivity].
  - unfold useDashboard.promises in Hp, Hmin.
    apply list_elem_of_fmap in Hp as [q [-> Hq]].
    exists q, e. repeat split.
    + exact Hq.
    + apply outcome_then_inr in Hpe. exact Hpe.
    + intros q' err' Hq' Hqe'.
      apply (Hmin (then_ resp_data (backend q')) err').
      * apply list_elem_of_fmap. exists q'. split; [reflexivity | exact Hq'].
      * apply outcome_then_inr. exact Hqe'.
Qed.

(** With only the HARD_CLEAR count failing, nothing of the five answers
    that did arrive is shown. *)
Lemma C9_dashboard_hard_clear_fails :
  let run := useDashboard.fetchDashboardData Samples.hard_clear_failing_backend
               useAuthStore.initial useDashboard.initial in
  useDashboard.stats (state_of run) = useDashboard.stats useDashboard.initial
  ∧ useDashboard.recentScores (state_of run) = []
  ∧ useDashboard.isLoading (state_of run) = false
  ∧ truthy (useDashboard.error (state_of run)) = true.
Proof.
  pose proof (C9_dashboard_one_failure_fails_all Samples.hard_clear_failing_backend
                useAuthStore.initial useDashboard.initial) as H.
  cbv zeta in H |- *.
  destruct H as (_ & Hstats & Hrecent & Hloading & Herror & _).
  - apply Exists_exists. exists (useDashboard.count_query "HARD_CLEAR").
    split; [| eexists; vm_compute; reflexivity].
    right; right; right; left; reflexivity.
  - repeat split; assumption.
Defined.

(** ** The CSV upload page *)

(** Unfolds the statements of a handler down to state, result and trace. *)
Ltac run_act :=
  cbv [try_catch try_catch_finally mbind Act_bind bind await emit mret Act_ret ret
       modify get throw app state_of trace_of result_of fst snd].

Lemma validateFile_run (f : File) (p : CsvUpload.page) :
  CsvUpload.validateFile (Some f) p =
  if negb (endsWith (file_name f) ".csv") then
    (Returned false, p, [ToastError (VStr CsvUpload.NOT_CSV)])
  else if 10 * 1024 * 1024 <? file_size f then
    (Returned false, p, [ToastError (VStr CsvUpload.TOO_LARGE)])
  else (Returned true, p, []).
Proof.
  unfold CsvUpload.validateFile.
  destruct (negb (endsWith (file_name f) ".csv")); [reflexivity |].
  destruct (10 * 1024 * 1024 <? file_size f); reflexivity.
Qed.

Lemma validateFile_acceptable (f : File) (p : CsvUpload.page) :
  result_of (CsvUpload.validateFile (Some f) p) = Returned (CsvUpload.acceptable f).
Proof.
  rewrite validateFile_run. unfold CsvUpload.acceptable.
  destruct (endsWith (file_name f) ".csv"); cbn [negb andb]; [| reflexivity].
  rewrite Z.ltb_antisym.
  destruct (file_size f <=? 10 * 1024 * 1024); reflexivity.
Qed.

(** A file that fails a check: one toast, nothing sent, nothing changed. *)
Lemma handleFileSelect_rejects (f : File) (p : CsvUpload.page) :
  CsvUpload.acceptable f = false →
  ∃ msg : string,
    msg ∈ [CsvUpload.NOT_CSV; CsvUpload.TOO_LARGE]
    ∧ CsvUpload.handleFileSelect (Some f) p = (Returned (), p, [ToastError (VStr msg)]).
Proof.
  unfold CsvUpload.acceptable, CsvUpload.handleFileSelect. run_act.
  rewrite validateFile_run. intros Hbad.
  destruct (endsWith (file_name f) ".csv"); cbn [negb andb] in *.
  - rewrite Z.ltb_antisym, Hbad. cbn [negb].
    exists CsvUpload.TOO_LARGE. split; [set_solver | reflexivity].
  - exists CsvUpload.NOT_CSV. split; [set_solver | reflexivity].
Qed.

(** A file that passes becomes the chosen file, silently. *)
Lemma handleFileSelect_accepts (f : File) (p : CsvUpload.page) :
  CsvUpload.acceptable f = true →
  CsvUpload.handleFileSelect (Some f) p =
  (Returned (),
   {| CsvUpload.file := Some f;
      CsvUpload.playStyle := CsvUpload.playStyle p;
      CsvUpload.isDragging := CsvUpload.isDragging p;
      CsvUpload.uploadState := CsvUpload.idle;
      CsvUpload.progress := CsvUpload.progress p;
      CsvUpload.result := None |},
   []).
Proof.
  unfold CsvUpload.acceptable, CsvUpload.handleFileSelect. run_act.
  rewrite validateFile_run. intros Hok.
  apply andb_prop in Hok as [Hname Hsize].
  rewrite Hname, Z.ltb_antisym, Hsize. reflexivity.
Qed.

Lemma handleFileSelect_none (p : CsvUpload.page) :
  CsvUpload.handleFileSelect None p = (Returned (), p, []).
Proof. reflexivity. Qed.

Lemma percentages_cons (ev : ProgressEvent) (events : list ProgressEvent) :
  importApi.percentages (ev :: events)
  = importApi.percentages [ev] ++ importApi.percentages events.
Proof.
  unfold importApi.percentages. cbn [omap list_omap].
  destruct (total ev) as [t |]; [| reflexivity].
  destruct (truthy (VNum t)); reflexivity.
Qed.

(** One progress event handed to a callback that only sets state. *)
Lemma onUploadProgress_run {S} (set : Z → S → S) (ev : ProgressEvent) (s : S) :
  importApi.onUploadProgress (Some (λ n q, (Returned (), set n q, []))) ev s =
  (Returned (), foldl (λ q n, set n q) s (importApi.percentages [ev]), []).
Proof.
  unfold importApi.onUploadProgress, importApi.percentages. cbn [omap list_omap].
  destruct (total ev) as [t |]; [| reflexivity].
  destruct (truthy (VNum t)); reflexivity.
Qed.

(** The progress events of one upload, handed to the callback one by one. *)
Lemma progress_loop_run {S} (set : Z → S → S) (events : list ProgressEvent) (s : S) :
  for_each events
    (importApi.onUploadProgress (Some (λ n q, (Returned (), set n q, [])))) s =
  (Returned (), foldl (λ q n, set n q) s (importApi.percentages events), []).
Proof.
  revert s. induction events as [| ev events IH]; intros s; [reflexivity |].
  rewrite percentages_cons, foldl_app. cbn [for_each].
  cbv [mbind Act_bind bind]. rewrite onUploadProgress_run, IH. reflexivity.
Qed.

(** [uploadCsv] with a callback that only sets state: one request, the
    percentages applied in order, then the outcome of the request. *)
Lemma uploadCsv_run {S}
    (backend : Request → list ProgressEvent * Promise (AxiosResponse ImportResult))
    (file : File) (style : string) (set : Z → S → S) (s : S) :
  importApi.uploadCsv backend file style (Some (λ n q, (Returned (), set n q, []))) s =
  let req := importApi.request_sent importApi.with_progress file style in
  (match outcome (backend req).2 with
   | inl response => Returned (resp_data response)
   | inr err => Thrown err
   end,
   foldl (λ q n, set n q) s (importApi.percentages (backend req).1),
   [Sent req]).
Proof.
  unfold importApi.uploadCsv, apiClient_post_form, importApi.request_sent.
  cbn [default]. cbv [mbind Act_bind bind emit mret Act_ret ret app].
  destruct (backend _) as [events pending]. cbn [fst snd].
  rewrite progress_loop_run. unfold await.
  destruct (outcome pending); reflexivity.
Qed.

(** The [uploadCsv] of the named file: one multipart request, the state
    left alone, then the outcome of the request. *)
Lemma uploadCsv_named_run {S}
    (backend : Request → list ProgressEvent * Promise (AxiosResponse ImportResult))
    (file : File) (style : string) (s : S) :
  importApi.uploadCsv_silent backend file style s =
  let req := importApi.request_sent importApi.named file style in
  (match outcome (backend req).2 with
   | inl response => Returned (resp_data response)
   | inr err => Thrown err
   end, s, [Sent req]).
Proof.
  unfold importApi.uploadCsv_silent, apiClient_post_form, importApi.request_sent.
  cbn [default]. cbv [mbind Act_bind bind emit mret Act_ret ret app await].
  destruct (backend _) as [events [t [response | err]]]; reflexivity.
Qed.

(** The call of the page over either revision. *)
Lemma uploadCsv_rev_run {S} (rev : importApi.Revision)
    (backend : Request → list ProgressEvent * Promise (AxiosResponse ImportResult))
    (file : File) (style : string) (set : Z → S → S) (s : S) :
  importApi.uploadCsv_rev rev backend file style
    (Some (λ n q, (Returned (), set n q, []))) s =
  let req := importApi.request_sent rev file style in
  (match outcome (backend req).2 with
   | inl response => Returned (resp_data response)
   | inr err => Thrown err
   end,
   foldl (λ q n, set n q) s (importApi.reported rev (backend req).1),
   [Sent req]).
Proof.
  destruct rev; cbn [importApi.uploadCsv_rev importApi.reported].
  - rewrite uploadCsv_named_run. reflexivity.
  - apply uploadCsv_run.
Qed.

(** Under [multipart/form-data] the request is the form with the file;
    under the content type of the instance it is a JSON body in which
    the file is the empty object, the same for every file. *)
Lemma request_sent_by_revision (file : File) (style : string) :
  importApi.request_sent importApi.named file style
  = POST_form "/import/iidx/score" [("file", FFile file); ("playStyle", FText style)]
  ∧ importApi.request_sent importApi.with_progress file style
    = POST "/import/iidx/score" {[ "file" := VObject []; "playStyle" := VStr style ]}.
Proof.
  split; reflexivity.
Qed.

Lemma progress_loop_keeps (ns : list Z) (p : CsvUpload.page) :
  CsvUpload.file (foldl (λ q n, CsvUpload.with_progress n q) p ns) = CsvUpload.file p
  ∧ CsvUpload.playStyle (foldl (λ q n, CsvUpload.with_progress n q) p ns)
    = CsvUpload.playStyle p.
Proof.
  revert p. induction ns as [| n ns IH]; intros p; [split; reflexivity |].
  cbn [foldl]. destruct (IH (CsvUpload.with_progress n p)) as [Hf Hs].
  rewrite Hf, Hs. split; reflexivity.
Qed.

(** One click on the upload button with a file chosen: one request,
    with the play style chosen at that moment. *)
Lemma handleUpload_requests (api : importApi.Revision)
    (backend : Request → list ProgressEvent * Promise (AxiosResponse ImportResult))
    (p : CsvUpload.page) (f : File) :
  CsvUpload.file p = Some f →
  requests (trace_of (CsvUpload.handleUpload api backend p))
  = [importApi.request_sent api f (CsvUpload.playStyle p)].
Proof.
  intros Hf. unfold CsvUpload.handleUpload.
  cbv [try_catch try_catch_finally mbind Act_bind bind get]. rewrite Hf.
  cbv [mbind Act_bind bind CsvUpload.setUploadState CsvUpload.setProgress modify].
  rewrite (uploadCsv_rev_run _ _ _ _ CsvUpload.with_progress). cbv zeta.
  destruct (outcome (backend _).2); reflexivity.
Qed.

Lemma handleUpload_no_file (api : importApi.Revision)
    (backend : Request → list ProgressEvent * Promise (AxiosResponse ImportResult))
    (p : CsvUpload.page) :
  CsvUpload.file p = None →
  CsvUpload.handleUpload api backend p = (Returned (), p, []).
Proof.
  intros Hf. unfold CsvUpload.handleUpload. run_act. rewrite Hf. reflexivity.
Qed.

Lemma handleUpload_keeps_file (api : importApi.Revision)
    (backend : Request → list ProgressEvent * Promise (AxiosResponse ImportResult))
    (p : CsvUpload.page) :
  CsvUpload.file (state_of (CsvUpload.handleUpload api backend p)) = CsvUpload.file p.
Proof.
  destruct (CsvUpload.file p) as [f |] eqn:Hf.
  - unfold CsvUpload.handleUpload.
    cbv [try_catch try_catch_finally mbind Act_bind bind get]. rewrite Hf.
    cbv [mbind Act_bind bind CsvUpload.setUploadState CsvUpload.setProgress modify].
    rewrite (uploadCsv_rev_run _ _ _ _ CsvUpload.with_progress). cbv zeta.
    destruct (outcome (backend _).2); cbn;
      match goal with
      | |- context [foldl ?g ?q ?ns] =>
          destruct (progress_loop_keeps ns q) as [Hkeep _]
      end; rewrite Hkeep; exact Hf.
  - rewrite handleUpload_no_file by exact Hf. exact Hf.
Qed.

Lemma handleUpload_returns (api : importApi.Revision)
    (backend : Request → list ProgressEvent * Promise (AxiosResponse ImportResult))
    (p : CsvUpload.page) :
  result_of (CsvUpload.handleUpload api backend p) = Returned ().
Proof.
  destruct (CsvUpload.file p) as [f |] eqn:Hf.
  - unfold CsvUpload.handleUpload.
    cbv [try_catch try_catch_finally mbind Act_bind bind get]. rewrite Hf.
    cbv [mbind Act_bind bind CsvUpload.setUploadState CsvUpload.setProgress modify].
    rewrite (uploadCsv_rev_run _ _ _ _ CsvUpload.with_progress). cbv zeta.
    destruct (outcome (backend _).2); reflexivity.
  - rewrite handleUpload_no_file by exact Hf. reflexivity.
Qed.

Lemma run_eta {S A} (x : Result A * S * list Event) :
  x = (result_of x, state_of x, trace_of x).
Proof. destruct x as [[r s] t]. reflexivity. Qed.

Lemma requests_app (t1 t2 : list Event) :
  requests (t1 ++ t2) = requests t1 ++ requests t2.
Proof. unfold requests. apply omap_app. Qed.

(** Each action on the page returns, keeps the chosen file a validated
    one, and sends nothing but uploads of a validated file. *)
Lemma perform_ok (api : importApi.Revision)
    (backend : Request → list ProgressEvent * Promise (AxiosResponse ImportResult))
    (a : CsvUpload.Action) (p : CsvUpload.page) :
  CsvUpload.file_ok p →
  result_of (CsvUpload.perform api backend a p) = Returned ()
  ∧ CsvUpload.file_ok (state_of (CsvUpload.perform api backend a p))
  ∧ Forall (CsvUpload.sent_ok api) (requests (trace_of (CsvUpload.perform api backend a p))).
Proof.
  intros Hok.
  assert (Hselect : ∀ (sel : option File) (q : CsvUpload.page),
             CsvUpload.file_ok q →
             result_of (CsvUpload.handleFileSelect sel q) = Returned ()
             ∧ CsvUpload.file_ok (state_of (CsvUpload.handleFileSelect sel q))
             ∧ Forall (CsvUpload.sent_ok api)
                 (requests (trace_of (CsvUpload.handleFileSelect sel q)))).
  { intros [f |] q Hq.
    - destruct (CsvUpload.acceptable f) eqn:Hacc.
      + rewrite (handleFileSelect_accepts f q Hacc).
        repeat split; [exact Hacc | constructor].
      + destruct (handleFileSelect_rejects f q Hacc) as [msg [_ ->]].
        repeat split; [exact Hq | constructor].
    - rewrite handleFileSelect_none. repeat split; [exact Hq | constructor]. }
  destruct a as [f | f | | | style | |]; cbn [CsvUpload.perform].
  - apply Hselect. exact Hok.
  - unfold CsvUpload.handleDrop, CsvUpload.setIsDragging.
    cbv [mbind Act_bind bind modify].
    match goal with
    | |- context [CsvUpload.handleFileSelect f ?q] =>
        destruct (Hselect f q) as (Hr & Hs & Ht); [exact Hok |];
        rewrite (run_eta (CsvUpload.handleFileSelect f q)), Hr
    end.
    repeat split; [exact Hs | exact Ht].
  - repeat split; [exact Hok | constructor].
  - repeat split; [exact Hok | constructor].
  - repeat split; [exact Hok | constructor].
  - repeat split; constructor.
  - split; [apply handleUpload_returns |]. split.
    + unfold CsvUpload.file_ok. rewrite handleUpload_keeps_file. exact Hok.
    + destruct (CsvUpload.file p) as [f |] eqn:Hf.
      * rewrite (handleUpload_requests api backend p f Hf).
        constructor; [| constructor].
        exists f, (CsvUpload.playStyle p). split; [reflexivity |].
        unfold CsvUpload.file_ok in Hok. rewrite Hf in Hok. exact Hok.
      * rewrite (handleUpload_no_file api backend p Hf). constructor.
Qed.

(** Whatever the user does on the page, every request that leaves is
    the upload of a file that passed both checks. *)
Lemma session_sends_validated_files (api : importApi.Revision)
    (backend : Request → list ProgressEvent * Promise (AxiosResponse ImportResult))
    (actions : list CsvUpload.Action) (p : CsvUpload.page) :
  CsvUpload.file_ok p →
  result_of (CsvUpload.session api backend actions p) = Returned ()
  ∧ CsvUpload.file_ok (state_of (CsvUpload.session api backend actions p))
  ∧ Forall (CsvUpload.sent_ok api) (requests (trace_of (CsvUpload.session api backend actions p))).
Proof.
  revert p. induction actions as [| a actions IH]; intros p Hok.
  - repeat split; [exact Hok | constructor].
  - unfold CsvUpload.session in *. cbn [for_each]. cbv [mbind Act_bind bind].
    destruct (perform_ok api backend a p Hok) as (Hr & Hs & Ht).
    rewrite (run_eta (CsvUpload.perform api backend a p)), Hr.
    destruct (IH _ Hs) as (Hr' & Hs' & Ht').
    rewrite (run_eta (for_each actions (CsvUpload.perform api backend) _)), Hr'.
    cbn [result_of state_of trace_of fst snd].
    repeat split; [exact Hs' |].
    rewrite requests_app. apply Forall_app. split; [exact Ht | exact Ht'].
Qed.




(** ** Upload progress *)

Lemma round_div_mono (a a' b : Z) :
  0 < b → a ≤ a' → round_div a b ≤ round_div a' b.
Proof.
  intros Hb Ha. unfold round_div. apply Z.div_le_mono; lia.
Qed.

Lemma round_div_nonneg (a b : Z) : 0 < b → 0 ≤ a → 0 ≤ round_div a b.
Proof.
  intros Hb Ha. unfold round_div. apply Z.div_pos; lia.
Qed.

Lemma percentages_elem (events : list ProgressEvent) (n : Z) :
  n ∈ importApi.percentages events →
  ∃ ev t, ev ∈ events ∧ total ev = Some t ∧ n = importApi.percent (loaded ev) t.
Proof.
  unfold importApi.percentages. intros Hn.
  apply list_elem_of_omap in Hn as [ev [Hev Hsome]].
  destruct (total ev) as [t |] eqn:Ht; [| discriminate].
  destruct (truthy (VNum t)); [| discriminate].
  injection Hsome as <-. exists ev, t. repeat split; assumption.
Qed.

Lemma foldl_note (ns seen : list Z) :
  foldl (λ q n, q ++ [n]) seen ns = seen ++ ns.
Proof.
  revert seen. induction ns as [| n ns IH]; intros seen; cbn [foldl].
  - rewrite app_nil_r. reflexivity.
  - rewrite IH, <- app_assoc. reflexivity.
Qed.

(** Under the transport's contract the percentages never go back. *)
Lemma percentages_sorted (size : Z) (events : list ProgressEvent) :
  importApi.upload_progress size events →
  StronglySorted Z.le (importApi.percentages events)
  ∧ Forall (λ n, 0 ≤ n) (importApi.percentages events).
Proof.
  intros (Hsize & Hsorted & Hall).
  apply Sorted_StronglySorted in Hsorted; [| intros x y z; apply Z.le_trans].
  induction events as [| ev events IH].
  - split; constructor.
  - cbn [map] in Hsorted. apply StronglySorted_inv in Hsorted as [Hrest Hhead].
    inversion Hall as [| ? ? [Hpos Htotal] Hall']; subst.
    destruct (IH Hrest Hall') as [IHsorted IHpos].
    rewrite percentages_cons. unfold importApi.percentages at 1 3. cbn [omap list_omap].
    destruct Htotal as [-> | ->]; [| split; assumption].
    replace (truthy (VNum size)) with true
      by (cbn; symmetry; apply negb_true_iff, Z.eqb_neq; lia).
    cbn [app]. split.
    + constructor; [exact IHsorted |].
      apply Forall_forall. intros n Hn.
      apply percentages_elem in Hn as (ev' & t & Hev' & Ht & ->).
      rewrite Forall_forall in Hall'.
      destruct (Hall' ev' Hev') as [_ [Hsz | Hundef]]; [| congruence].
      rewrite Hsz in Ht. injection Ht as <-.
      unfold importApi.percent. apply round_div_mono; [exact Hsize |].
      rewrite Forall_forall in Hhead.
      specialize (Hhead (loaded ev') (list_elem_of_fmap_2 loaded _ _ Hev')). lia.
    + constructor; [| exact IHpos].
      unfold importApi.percent. apply round_div_nonneg; lia.
Qed.

(** C8. [uploadCsv] hands its callback one percentage for each progress
    event that has a total, [Math.round(loaded * 100 / total)], in the
    order of the events; over one upload, whose events count the bytes
    sent so far of a fixed total, those percentages never decrease, and
    none is below the 0 the page starts from. *)
Theorem C8_upload_progress_monotone
    (backend : Request → list ProgressEvent * Promise (AxiosResponse ImportResult))
    (file : File) (playStyle : string) (size : Z) :
  let events :=
    (backend (importApi.request_sent importApi.with_progress file playStyle)).1 in
  importApi.upload_progress size events →
  let delivered :=
    state_of (importApi.uploadCsv backend file playStyle (Some importApi.note) []) in
  delivered = importApi.percentages events
  ∧ StronglySorted Z.le delivered
  ∧ Forall (λ n, 0 ≤ n) delivered.
Proof.
  intros events Hcontract. cbv zeta.
  unfold importApi.note, modify.
  rewrite (uploadCsv_run backend file playStyle (λ n seen, seen ++ [n])).
  unfold state_of. cbn [fst snd]. rewrite foldl_note. cbn [app].
  fold events.
  split; [reflexivity |]. apply (percentages_sorted size). exact Hcontract.
Qed.

(** Three events of an upload of 1200 bytes: 25, 75, 100. *)
Lemma C8_upload_progress_example :
  let delivered :=
    state_of (importApi.uploadCsv Samples.import_backend Samples.data_csv "SP"
                (Some importApi.note) []) in
  delivered = [25; 75; 100] ∧ StronglySorted Z.le delivered.
Proof.
  destruct (C8_upload_progress_monotone Samples.import_backend Samples.data_csv "SP" 1200)
    as (Hdelivered & Hsorted & _).
  - split; [lia |]. split.
    + cbn. repeat constructor; lia.
    + repeat constructor; cbn; lia.
  - split; [exact Hdelivered | exact Hsorted].
Defined.

(** ** The signup page *)

(** The error object [validate] builds, field by field. *)
Lemma validate_lookup (f : Signup.Form) :
  Signup.validate f !! "username" =
    (if String.eqb (trim (Signup.username f)) "" then Some Signup.USERNAME_REQUIRED
     else if (String.length (Signup.username f) <? 3)%nat then Some Signup.USERNAME_SHORT
     else None)
  ∧ Signup.validate f !! "email" =
    (if includes (Signup.email f) "@"%char then None else Some Signup.EMAIL_INVALID)
  ∧ Signup.validate f !! "password" =
    (if (String.length (Signup.password f) <? 8)%nat then Some Signup.PASSWORD_SHORT
     else None)
  ∧ Signup.validate f !! "passwordConfirm" =
    (if String.eqb (Signup.password f) (Signup.passwordConfirm f) then None
     else Some Signup.PASSWORD_MISMATCH).
Proof.
  unfold Signup.validate, Signup.set_if.
  destruct (String.eqb (trim (Signup.username f)) "");
    destruct (String.length (Signup.username f) <? 3)%nat;
    destruct (includes (Signup.email f) "@"%char);
    destruct (String.length (Signup.password f) <? 8)%nat;
    destruct (String.eqb (Signup.password f) (Signup.passwordConfirm f));
    cbn [negb]; repeat split; reflexivity.
Qed.

Lemma validate_empty (f : Signup.Form) :
  Signup.all_valid f = true → Signup.validate f = ∅.
Proof.
  unfold Signup.all_valid, Signup.validate, Signup.set_if. intros H.
  repeat (apply andb_prop in H as [H ?]).
  apply negb_true_iff in H.
  rewrite H.
  replace (String.length (Signup.username f) <? 3)%nat with false
    by (symmetry; apply Nat.ltb_ge, Nat.leb_le; assumption).
  replace (String.length (Signup.password f) <? 8)%nat with false
    by (symmetry; apply Nat.ltb_ge, Nat.leb_le; assumption).
  repeat match goal with Hb : _ = true |- _ => rewrite Hb; clear Hb end.
  reflexivity.
Qed.

(** A name shorter than three characters is blank or short: either
    way [validate] reports the field. *)
Lemma has_error_username (f : Signup.Form) :
  (String.length (Signup.username f) < 3)%nat →
  Signup.has_error (Signup.validate f) "username" = true.
Proof.
  intros Hshort. unfold Signup.has_error.
  destruct (validate_lookup f) as (-> & _).
  destruct (String.eqb (trim (Signup.username f)) ""); [reflexivity |].
  apply Nat.ltb_lt in Hshort. rewrite Hshort. reflexivity.
Qed.

(** A submission that [validate] finds a fault with stops there: the
    error object is shown and nothing else happens. *)
Lemma handleSubmit_blocked (signup : option (gmap string jsval → Act () ()))
    (p : Signup.page) (k : string) :
  Signup.has_error (Signup.validate (Signup.form p)) k = true →
  Signup.handleSubmit signup p =
  (Returned (),
   {| Signup.form := Signup.form p;
      Signup.errors := Signup.validate (Signup.form p);
      Signup.isSubmitting := Signup.isSubmitting p |},
   []).
Proof.
  intros Hk. unfold Signup.handleSubmit. cbv [mbind Act_bind bind get].
  assert ((0 <? size (Signup.validate (Signup.form p)))%nat = true) as ->.
  { apply Nat.ltb_lt.
    destruct (size (Signup.validate (Signup.form p))) eqn:Hsize; [| lia].
    apply map_size_empty_iff in Hsize. unfold Signup.has_error in Hk.
    rewrite Hsize, lookup_empty in Hk. discriminate. }
  reflexivity.
Qed.

(** A submission that passes goes on to the signup call and leaves the
    error object alone. *)
Lemma handleSubmit_valid (signup : option (gmap string jsval → Act () ()))
    (p : Signup.page) :
  Signup.all_valid (Signup.form p) = true →
  let submitting := {| Signup.form := Signup.form p; Signup.errors := Signup.errors p;
                       Signup.isSubmitting := true |} in
  let call := Signup.authApi_signup signup (Signup.payload_of (Signup.form p)) submitting in
  Signup.handleSubmit signup p =
  (Returned (),
   {| Signup.form := Signup.form p; Signup.errors := Signup.errors p;
      Signup.isSubmitting := false |},
   trace_of call ++
   match result_of call with
   | Returned _ => [ToastSuccess Signup.SIGNUP_DONE; Navigated "/login"]
   | Thrown err => [ToastError (or_else (err_message err) (VStr Signup.SIGNUP_FAILED))]
   end).
Proof.
  intros Hvalid. cbv zeta. unfold Signup.handleSubmit. cbv [mbind Act_bind bind get].
  rewrite (validate_empty _ Hvalid). rewrite map_size_empty. cbn [Nat.ltb Nat.leb].
  unfold Signup.payload_of, Signup.authApi_signup.
  destruct signup as [f |].
  - unfold stateless.
    destruct (f _ ()) as [[[[] | err] []] t];
      cbv [try_catch_finally mbind Act_bind bind emit Signup.setIsSubmitting modify
           trace_of result_of fst snd];
      cbn [app]; rewrite ?app_nil_r; reflexivity.
  - reflexivity.
Qed.

(** C7 (amended). Each of the four faults alone (a name shorter than 3
    characters, an email without [@], a password shorter than 8
    characters, a confirmation that differs) stops the submission with
    nothing sent, shown or navigated, and leaves the matching field
    error set.  A submission with every field valid (the name not blank
    and at least 3 characters, the email with an [@], the password at
    least 8 characters and confirmed) finds no fault, leaves the error
    object of the page as it was, and sends what its one call of
    [authApi.signup] sends. *)
Theorem C7_signup_validation (signup : option (gmap string jsval → Act () ()))
    (p : Signup.page) :
  let f := Signup.form p in
  let run := Signup.handleSubmit signup p in
  let shown := Signup.errors (state_of run) in
  ((String.length (Signup.username f) < 3)%nat →
     Signup.has_error shown "username" = true ∧ trace_of run = [])
  ∧ (includes (Signup.email f) "@"%char = false →
     Signup.has_error shown "email" = true ∧ trace_of run = [])
  ∧ ((String.length (Signup.password f) < 8)%nat →
     Signup.has_error shown "password" = true ∧ trace_of run = [])
  ∧ (Signup.password f ≠ Signup.passwordConfirm f →
     Signup.has_error shown "passwordConfirm" = true ∧ trace_of run = [])
  ∧ (Signup.all_valid f = true →
     Signup.validate f = ∅
     ∧ shown = Signup.errors p
     ∧ requests (trace_of run)
       = requests (trace_of (Signup.authApi_signup signup (Signup.payload_of f)
                               {| Signup.form := f; Signup.errors := Signup.errors p;
                                  Signup.isSubmitting := true |}))).
Proof.
  cbv zeta.
  assert (Hblock : ∀ k, Signup.has_error (Signup.validate (Signup.form p)) k = true →
            Signup.has_error (Signup.errors (state_of (Signup.handleSubmit signup p))) k = true
            ∧ trace_of (Signup.handleSubmit signup p) = []).
  { intros k Hk. rewrite (handleSubmit_blocked signup p k Hk). split; [exact Hk | reflexivity]. }
  destruct (validate_lookup (Signup.form p)) as (Hu & He & Hp & Hc).
  split; [| split; [| split; [| split]]].
  - intros H. apply Hblock, has_error_username. exact H.
  - intros H. apply Hblock. unfold Signup.has_error. rewrite He, H. reflexivity.
  - intros H. apply Hblock. unfold Signup.has_error. rewrite Hp.
    apply Nat.ltb_lt in H. rewrite H. reflexivity.
  - intros H. apply Hblock. unfold Signup.has_error. rewrite Hc.
    apply String.eqb_neq in H. rewrite H. reflexivity.
  - intros H. split; [apply validate_empty; exact H |].
    rewrite handleSubmit_valid by exact H. cbn [state_of trace_of fst snd Signup.errors].
    split; [reflexivity |].
    rewrite requests_app.
    destruct (result_of _); cbn [requests omap list_omap]; apply app_nil_r.
Qed.

(** A form with all four faults shows all four errors and sends
    nothing; a valid one sends one request, the signup call's. *)
Lemma C7_signup_validation_examples :
  let blocked := Signup.handleSubmit Samples.signup_member
                   (Samples.page_with Samples.faulty_form) in
  let passed := Signup.handleSubmit Samples.signup_member
                  (Samples.page_with Samples.valid_form) in
  (Signup.has_error (Signup.errors (state_of blocked)) "username" = true
   ∧ Signup.has_error (Signup.errors (state_of blocked)) "email" = true
   ∧ Signup.has_error (Signup.errors (state_of blocked)) "password" = true
   ∧ Signup.has_error (Signup.errors (state_of blocked)) "passwordConfirm" = true
   ∧ trace_of blocked = [])
  ∧ requests (trace_of passed)
    = [POST "/auth/signup" (Signup.payload_of Samples.valid_form)].
Proof.
  cbv zeta. split.
  - destruct (C7_signup_validation Samples.signup_member
                (Samples.page_with Samples.faulty_form)) as (Hu & He & Hp & Hc & _).
    cbv zeta in Hu, He, Hp, Hc.
    destruct Hu as [Hu Htrace]; [cbn; lia |].
    destruct He as [He _]; [reflexivity |].
    destruct Hp as [Hp _]; [cbn; lia |].
    destruct Hc as [Hc _]; [discriminate |].
    repeat split; assumption.
  - destruct (C7_signup_validation Samples.signup_member
                (Samples.page_with Samples.valid_form)) as (_ & _ & _ & _ & Hv).
    cbv zeta in Hv. destruct Hv as (_ & _ & ->); reflexivity.
Defined.

(** C7 as first stated fails on "clears the errors": the confirmation
    is mistyped, the submission is refused, the password field is then
    corrected to match; the form is now valid, the next submission goes
    through to the signup call, and the mismatch error is still set. *)
Lemma C7_valid_submission_keeps_errors :
  let before :=
    state_of (Signup.session Samples.signup_member Samples.mistyped_then_fixed
                Signup.initial) in
  let run := Signup.handleSubmit Samples.signup_member before in
  Signup.all_valid (Signup.form before) = true
  ∧ length (requests (trace_of run)) = 1%nat
  ∧ Signup.errors (state_of run) !! "passwordConfirm" = Some Signup.PASSWORD_MISMATCH
  ∧ Signup.has_error (Signup.errors (state_of run)) "passwordConfirm" = true
  ∧ Signup.errors (state_of run) ≠ ∅.
Proof.
  cbv zeta.
  assert (Hshown : Signup.errors
            (state_of (Signup.handleSubmit Samples.signup_member
               (state_of (Signup.session Samples.signup_member Samples.mistyped_then_fixed
                            Signup.initial))))
            !! "passwordConfirm" = Some Signup.PASSWORD_MISMATCH)
    by (vm_compute; reflexivity).
  split; [| split; [| split; [| split]]].
  - vm_compute. reflexivity.
  - vm_compute. reflexivity.
  - exact Hshown.
  - unfold Signup.has_error. rewrite Hshown. reflexivity.
  - intros Hempty.
    apply (f_equal (λ errs : gmap string string, errs !! "passwordConfirm")) in Hempty.
    cbv beta in Hempty. rewrite Hshown in Hempty. discriminate Hempty.
Qed.

(** With the [authApi] object of api/auth.js, which has no
    [signup] member, the call throws before anything is sent and the
    page shows the generic failure. *)
Example signup_member_missing :
  let run := Signup.handleSubmit None (Samples.page_with Samples.valid_form) in
  requests (trace_of run) = []
  ∧ trace_of run = [ToastError (VStr Signup.SIGNUP_FAILED)]
  ∧ Signup.isSubmitting (state_of run) = false.
Proof.
  cbv zeta. rewrite handleSubmit_valid by reflexivity. repeat split.
Qed.

(** ** The signup call of the spec, and the upload of the named file *)

(** With a [signup] member as the spec has it, a valid submission
    sends exactly one request: the form's name, email and password,
    posted to the signup endpoint. *)
Lemma handleSubmit_with_signup (backend : Request → Promise (AxiosResponse jsval))
    (endpoint : string) (p : Signup.page) :
  Signup.all_valid (Signup.form p) = true →
  requests (trace_of (Signup.handleSubmit
                        (Some (authApi.signup_by_spec backend endpoint)) p))
  = [POST endpoint (Signup.payload_of (Signup.form p))].
Proof.
  intros Hvalid. rewrite handleSubmit_valid by exact Hvalid. cbv zeta.
  unfold Signup.authApi_signup, stateless, authApi.signup_by_spec, apiClient_post.
  cbv [mbind Act_bind bind emit mret Act_ret ret await trace_of result_of fst snd].
  destruct (backend _) as [t [response | err]]; reflexivity.
Qed.

(** The [uploadCsv] of the named file sends the form with the file and
    reports no progress. *)
Lemma uploadCsv_silent_run {S}
    (backend : Request → list ProgressEvent * Promise (AxiosResponse ImportResult))
    (file : File) (playStyle : string) (s : S) :
  trace_of (importApi.uploadCsv_silent backend file playStyle s)
  = [Sent (CsvUpload.upload_request file playStyle)]
  ∧ state_of (importApi.uploadCsv_silent backend file playStyle s) = s.
Proof.
  rewrite uploadCsv_named_run. split; reflexivity.
Qed.

(* ===================================================================== *)
(** * Further properties                                                  *)
(* ===================================================================== *)

(** ** The score-query store under its actions *)

Lemma store_step_invariant (st : useScoresStore.state) (a : ScoresStoreRun.Action) :
  useScoresStore.pagination st !! "size" = Some (VNum 20) →
  (∀ k, is_Some (useScoresStore.pagination st !! k) ↔ k = "page" ∨ k = "size") →
  (∀ k, k ∈ ["playStyle"; "level"; "chartType"; "clearType"] →
        is_Some (useScoresStore.filters st !! k)) →
  let st' := ScoresStoreRun.step st a in
  useScoresStore.pagination st' !! "size" = Some (VNum 20)
  ∧ (∀ k, is_Some (useScoresStore.pagination st' !! k) ↔ k = "page" ∨ k = "size")
  ∧ (∀ k, k ∈ ["playStyle"; "level"; "chartType"; "clearType"] →
          is_Some (useScoresStore.filters st' !! k)).
Proof.
  intros Hsize Hkeys Hfilters. destruct a as [newFilters | page |]; cbn.
  - split; [| split].
    + rewrite lookup_spread_singleton. exact Hsize.
    + intros k. rewrite lookup_spread_singleton.
      destruct (decide ("page" = k)) as [<- | Hne].
      * split; [intros _; left; reflexivity | intros _; eexists; reflexivity].
      * apply Hkeys.
    + intros k Hk. rewrite lookup_spread.
      destruct (newFilters !! k); [eexists; reflexivity | apply Hfilters, Hk].
  - split; [| split].
    + rewrite lookup_spread_singleton. exact Hsize.
    + intros k. rewrite lookup_spread_singleton.
      destruct (decide ("page" = k)) as [<- | Hne].
      * split; [intros _; left; reflexivity | intros _; eexists; reflexivity].
      * apply Hkeys.
    + exact Hfilters.
  - split; [reflexivity | split].
    + intros k. split.
      * intros [v Hv].
        destruct (decide (k = "page")) as [-> | Hp]; [left; reflexivity |].
        destruct (decide (k = "size")) as [-> | Hs]; [right; reflexivity |].
        rewrite lookup_insert_ne, lookup_singleton_ne in Hv by congruence. discriminate.
      * intros [-> | ->]; eexists; reflexivity.
    + intros k Hk.
      repeat (apply elem_of_cons in Hk as [-> | Hk]; [eexists; reflexivity |]).
      apply elem_of_nil in Hk. contradiction.
Qed.

(** X1. Whatever sequence of [setFilters], [setPage] and [resetFilters]
    the store goes through from its initial state, the page size stays
    20, the cursor has the keys [page] and [size] and no other, and the
    four filter fields stay present. *)
Theorem store_shape_invariant (actions : list ScoresStoreRun.Action) :
  let st := ScoresStoreRun.run actions useScoresStore.initial in
  useScoresStore.pagination st !! "size" = Some (VNum 20)
  ∧ (∀ k, is_Some (useScoresStore.pagination st !! k) ↔ k = "page" ∨ k = "size")
  ∧ (∀ k, k ∈ ["playStyle"; "level"; "chartType"; "clearType"] →
          is_Some (useScoresStore.filters st !! k)).
Proof.
  unfold ScoresStoreRun.run.
  assert (Hgen : ∀ st,
    (useScoresStore.pagination st !! "size" = Some (VNum 20)
     ∧ (∀ k, is_Some (useScoresStore.pagination st !! k) ↔ k = "page" ∨ k = "size")
     ∧ (∀ k, k ∈ ["playStyle"; "level"; "chartType"; "clearType"] →
             is_Some (useScoresStore.filters st !! k))) →
    let st' := foldl ScoresStoreRun.step st actions in
    useScoresStore.pagination st' !! "size" = Some (VNum 20)
    ∧ (∀ k, is_Some (useScoresStore.pagination st' !! k) ↔ k = "page" ∨ k = "size")
    ∧ (∀ k, k ∈ ["playStyle"; "level"; "chartType"; "clearType"] →
            is_Some (useScoresStore.filters st' !! k))).
  { induction actions as [| a actions IH]; intros st Hst; [exact Hst |].
    cbn [foldl]. apply IH. destruct Hst as (H1 & H2 & H3).
    apply store_step_invariant; assumption. }
  apply Hgen.
  split; [reflexivity | split].
  - intros k. split.
    + intros [v Hv].
      destruct (decide (k = "page")) as [-> | Hp]; [left; reflexivity |].
      destruct (decide (k = "size")) as [-> | Hs]; [right; reflexivity |].
      unfold useScoresStore.initial in Hv. cbn in Hv.
      rewrite lookup_insert_ne, lookup_singleton_ne in Hv by congruence. discriminate.
    + intros [-> | ->]; eexists; reflexivity.
  - intros k Hk.
    repeat (apply elem_of_cons in Hk as [-> | Hk]; [eexists; reflexivity |]).
    apply elem_of_nil in Hk. contradiction.
Qed.

Lemma store_state_eq (s1 s2 : useScoresStore.state) :
  useScoresStore.filters s1 = useScoresStore.filters s2 →
  useScoresStore.pagination s1 = useScoresStore.pagination s2 →
  s1 = s2.
Proof. destruct s1, s2. cbn. intros -> ->. reflexivity. Qed.

(** X2. Two filter changes in a row are one filter change with the
    two arguments spread together, the later over the earlier; in
    particular the same change twice is that change once. *)
Theorem setFilters_compose (a b : gmap string jsval) (st : useScoresStore.state) :
  useScoresStore.setFilters b (useScoresStore.setFilters a st)
  = useScoresStore.setFilters (spread a b) st
  ∧ useScoresStore.setFilters a (useScoresStore.setFilters a st)
    = useScoresStore.setFilters a st.
Proof.
  split; apply store_state_eq; cbn; unfold spread.
  - apply (assoc_L (∪)).
  - rewrite (assoc_L (∪)), (idemp_L (∪)). reflexivity.
  - rewrite (assoc_L (∪)), (idemp_L (∪)). reflexivity.
  - rewrite (assoc_L (∪)), (idemp_L (∪)). reflexivity.
Qed.

(** X3. A page change does not survive a filter change, of two page
    changes the later one counts, and [resetFilters] brings the store
    back to its initial state whatever happened before. *)
Theorem store_page_and_reset (nf : gmap string jsval) (p q : jsval)
    (actions : list ScoresStoreRun.Action) (st : useScoresStore.state) :
  useScoresStore.setFilters nf (useScoresStore.setPage p st)
  = useScoresStore.setFilters nf st
  ∧ useScoresStore.setPage q (useScoresStore.setPage p st) = useScoresStore.setPage q st
  ∧ ScoresStoreRun.run (actions ++ [ScoresStoreRun.ResetFilters]) st
    = useScoresStore.initial.
Proof.
  split; [| split].
  - apply store_state_eq; cbn; [reflexivity |].
    apply map_eq. intros k. rewrite !lookup_spread_singleton.
    destruct (decide ("page" = k)); reflexivity.
  - apply store_state_eq; cbn; [reflexivity |].
    apply map_eq. intros k. rewrite !lookup_spread_singleton.
    destruct (decide ("page" = k)); reflexivity.
  - unfold ScoresStoreRun.run. rewrite foldl_app. reflexivity.
Qed.

(** ** The filter bar *)

Lemma differs_from_empty_spec (v : jsval) :
  ScoreFilter.differs_from_empty v = true ↔ v ≠ VStr "".
Proof.
  destruct v as [| |b|n|s|l|l|f]; cbn; try (split; [discriminate | reflexivity]).
  destruct s; cbn; split; try discriminate; try congruence; reflexivity.
Qed.

Lemma hasActiveFilter_spec (filters : gmap string jsval) :
  ScoreFilter.hasActiveFilter filters = true
  ↔ ∃ k v, filters !! k = Some v ∧ v ≠ VStr "".
Proof.
  unfold ScoreFilter.hasActiveFilter. rewrite existsb_exists. split.
  - intros [v [Hin Hv]]. apply list_elem_of_In in Hin.
    apply list_elem_of_fmap in Hin as [[k v'] [-> Hkv]].
    apply elem_of_map_to_list in Hkv.
    exists k, v'. split; [exact Hkv | apply differs_from_empty_spec, Hv].
  - intros (k & v & Hk & Hv). exists v. split.
    + apply list_elem_of_In, list_elem_of_fmap. exists (k, v). split; [reflexivity |].
      apply elem_of_map_to_list. exact Hk.
    + apply differs_from_empty_spec, Hv.
Qed.

(** X4. The reset button of the filter bar is there exactly when some
    filter field differs from the empty string; so it is there whenever
    a filter field reaches the query of the score request, it appears
    when a dropdown is set to a value, and it is gone after a reset. *)
Theorem resetButton_shown (st : useScoresStore.state) (field value : string) :
  (ScoreFilter.resetButton st = true
   ↔ ∃ k v, useScoresStore.filters st !! k = Some v ∧ v ≠ VStr "")
  ∧ (∀ k, is_Some (scoresApi.cleanParams (useScoresStore.filters st) !! k) →
          ScoreFilter.resetButton st = true)
  ∧ (value ≠ "" → ScoreFilter.resetButton (ScoreFilter.choose field value st) = true)
  ∧ ScoreFilter.resetButton (useScoresStore.resetFilters st) = false.
Proof.
  split; [apply hasActiveFilter_spec | split; [| split]].
  - intros k [v Hv]. apply hasActiveFilter_spec.
    rewrite lookup_cleanParams in Hv.
    destruct (useScoresStore.filters st !! k) as [w |] eqn:Hk; [| discriminate].
    destruct (is_set w) eqn:Hw; [| discriminate].
    exists k, w. split; [exact Hk |]. intros ->. discriminate.
  - intros Hvalue. apply hasActiveFilter_spec.
    exists field, (VStr value). split.
    + unfold ScoreFilter.choose. cbn. rewrite lookup_spread, lookup_singleton_eq.
      reflexivity.
    + congruence.
  - vm_compute. reflexivity.
Qed.

(** Choosing SP in the play style dropdown brings the reset button
    up, and it is up on the store filtered by level. *)
Lemma resetButton_after_choice :
  ScoreFilter.resetButton (ScoreFilter.choose "playStyle" "SP" useScoresStore.initial) = true
  ∧ ScoreFilter.resetButton Samples.browsed_store = true.
Proof.
  split.
  - destruct (resetButton_shown useScoresStore.initial "playStyle" "SP") as (_ & _ & H & _).
    apply H. discriminate.
  - destruct (resetButton_shown Samples.browsed_store "" "") as (_ & H & _).
    apply (H "level"). exists (VStr "12"). vm_compute. reflexivity.
Defined.

(** ** The query of the score request *)

(** X5. Stripping the query is idempotent and only ever removes fields;
    a field set to the number 0 or to [false], page 0 for one, is
    kept. *)
Theorem cleanParams_keeps_zero (params : gmap string jsval) (k : string) (n : Z) (b : bool) :
  scoresApi.cleanParams (scoresApi.cleanParams params) = scoresApi.cleanParams params
  ∧ scoresApi.cleanParams params ⊆ params
  ∧ scoresApi.cleanParams (<[ k := VNum n ]> params) !! k = Some (VNum n)
  ∧ scoresApi.cleanParams (<[ k := VBool b ]> params) !! k = Some (VBool b).
Proof.
  split; [| split; [| split]].
  - apply map_eq. intros j. rewrite !lookup_cleanParams.
    destruct (params !! j) as [v |]; [| reflexivity].
    destruct (is_set v) eqn:Hv; [rewrite Hv |]; reflexivity.
  - apply map_filter_subseteq.
  - rewrite lookup_cleanParams, lookup_insert_eq. reflexivity.
  - rewrite lookup_cleanParams, lookup_insert_eq. reflexivity.
Qed.

Lemma request_of_lookup (store : useScoresStore.state) (k : string) :
  ∃ query, useScores.request_of store = GET "/scores" query
    ∧ query !! k =
      (let raw :=
         if decide (k = "page") then Some (prop (useScoresStore.pagination store) "page")
         else if decide (k = "size") then Some (prop (useScoresStore.pagination store) "size")
         else useScoresStore.filters store !! k in
       match raw with
       | Some v => if is_set v then Some v else None
       | None => None
       end).
Proof.
  eexists. split; [reflexivity |].
  rewrite lookup_cleanParams, lookup_spread.
  destruct (decide (k = "page")) as [-> | Hp]; [reflexivity |].
  rewrite lookup_insert_ne by congruence.
  destruct (decide (k = "size")) as [-> | Hs]; [reflexivity |].
  rewrite lookup_singleton_ne by congruence. reflexivity.
Qed.

(** X6. The fetch that follows a filter change asks for page 0,
    whatever page was shown before and whatever the argument of
    [setFilters] held, a [page] key included; it carries each other
    field of the argument that is set and leaves out each that is
    empty. *)
Theorem fetch_after_setFilters
    (backend : Request → Promise (AxiosResponse PageResponse))
    (newFilters : gmap string jsval) (st : useScoresStore.state) (h : useScores.hook) :
  ∃ query : gmap string jsval,
    requests (trace_of (useScores.fetchScores backend
                          (useScoresStore.setFilters newFilters st) h))
    = [GET "/scores" query]
    ∧ query !! "page" = Some (VNum 0)
    ∧ ∀ k v, k ≠ "page" → k ≠ "size" → newFilters !! k = Some v →
             query !! k = if is_set v then Some v else None.
Proof.
  rewrite fetchScores_run. cbn [trace_of snd requests omap list_omap].
  destruct (request_of_lookup (useScoresStore.setFilters newFilters st) "page")
    as [query [Hreq Hpage]].
  exists query. split; [rewrite Hreq; reflexivity | split].
  - rewrite Hpage. cbn. unfold prop. rewrite lookup_spread_singleton. reflexivity.
  - intros k v Hp Hs Hk.
    destruct (request_of_lookup (useScoresStore.setFilters newFilters st) k)
      as [query' [Hreq' Hlook]].
    rewrite Hreq in Hreq'. injection Hreq' as <-.
    rewrite Hlook. cbv zeta.
    destruct (decide (k = "page")); [contradiction |].
    destruct (decide (k = "size")); [contradiction |].
    cbn. rewrite lookup_spread, Hk. reflexivity.
Qed.

(** From page 3 of the level-12 scores, choosing HARD_CLEAR asks for
    page 0 with the new filter. *)
Lemma fetch_after_setFilters_example :
  ∃ query : gmap string jsval,
    requests (trace_of (useScores.fetchScores Samples.silent_backend
                          (useScoresStore.setFilters {[ "clearType" := VStr "HARD_CLEAR" ]}
                             Samples.browsed_store) useScores.initial))
    = [GET "/scores" query]
    ∧ query !! "page" = Some (VNum 0)
    ∧ query !! "clearType" = Some (VStr "HARD_CLEAR").
Proof.
  destruct (fetch_after_setFilters Samples.silent_backend
              {[ "clearType" := VStr "HARD_CLEAR" ]} Samples.browsed_store
              useScores.initial) as [query (Hsent & Hpage & Hrest)].
  exists query. split; [exact Hsent | split; [exact Hpage |]].
  apply (Hrest "clearType" (VStr "HARD_CLEAR")); [discriminate | discriminate | reflexivity].
Defined.

(** ** The score page *)

Lemma or_else_fallback_truthy (v fallback : jsval) :
  truthy fallback = true → truthy (or_else v fallback) = true.
Proof.
  intros Hfallback. unfold or_else. destruct (truthy v) eqn:Hv; [exact Hv | exact Hfallback].
Qed.

Lemma begin_run (backend : Request → Promise (AxiosResponse PageResponse))
    (store : useScoresStore.state) (h : useScores.hook) :
  ScoresTimeline.begin backend store h =
  (Returned (then_ resp_data (backend (useScores.request_of store))),
   {| useScores.data := useScores.data h;
      useScores.isLoading := true;
      useScores.error := VNull |},
   [Sent (useScores.request_of store)]).
Proof. reflexivity. Qed.

Lemma resume_run (pending : Promise PageResponse) (h : useScores.hook) :
  ScoresTimeline.resume pending h =
  (Returned (),
   match outcome pending with
   | inl result =>
       {| useScores.data := Some result;
          useScores.isLoading := false;
          useScores.error := useScores.error h |}
   | inr err =>
       {| useScores.data := useScores.data h;
          useScores.isLoading := false;
          useScores.error := or_else (err_message err) (VStr useScores.fallback) |}
   end,
   []).
Proof.
  unfold ScoresTimeline.resume.
  cbv [try_catch_finally mbind Act_bind bind await mret Act_ret ret throw
       useScores.setIsLoading useScores.setError useScores.setData modify app].
  destruct (outcome pending); reflexivity.
Qed.

(** [fetchScores] is its first half followed by its second. *)
Lemma fetchScores_split (backend : Request → Promise (AxiosResponse PageResponse))
    (store : useScoresStore.state) (h : useScores.hook) :
  useScores.fetchScores backend store h
  = (pending ← ScoresTimeline.begin backend store; ScoresTimeline.resume pending) h.
Proof.
  rewrite fetchScores_run. cbv [mbind Act_bind bind]. rewrite begin_run, resume_run.
  unfold then_. cbn [outcome fst snd app].
  destruct (outcome (backend (useScores.request_of store))); reflexivity.
Qed.

Lemma called_app (ticks ticks' : list ScoresTimeline.Tick) :
  ScoresTimeline.called (ticks ++ ticks')
  = ScoresTimeline.called ticks ++ ScoresTimeline.called ticks'.
Proof. unfold ScoresTimeline.called. apply omap_app. Qed.

(** Along a timeline the requests sent are those of the calls, and each
    call still suspended waits for the response to its own request. *)
Lemma timeline_invariant (backend : Request → Promise (AxiosResponse PageResponse))
    (ticks : list ScoresTimeline.Tick) (h : useScores.hook) :
  let w := ScoresTimeline.run backend ticks (ScoresTimeline.start h) in
  ScoresTimeline.sent w = ScoresTimeline.called ticks
  ∧ Forall2 (λ request slot,
               slot = None ∨ slot = Some (then_ resp_data (backend request)))
      (ScoresTimeline.called ticks) (ScoresTimeline.suspended w).
Proof.
  cbv zeta. induction ticks as [| t ticks IH] using rev_ind.
  - split; [reflexivity | constructor].
  - destruct IH as [Hsent Hslots].
    unfold ScoresTimeline.run in *. rewrite foldl_app, called_app.
    cbn [foldl]. set (w := foldl (ScoresTimeline.step backend) (ScoresTimeline.start h) ticks) in *.
    destruct t as [store | n]; cbn [ScoresTimeline.step].
    + rewrite begin_run.
      cbn [state_of result_of trace_of fst snd ScoresTimeline.sent ScoresTimeline.suspended].
      split.
      * rewrite Hsent. reflexivity.
      * apply Forall2_app; [exact Hslots |].
        constructor; [right; reflexivity | constructor].
    + change (ScoresTimeline.called [ScoresTimeline.Settle n]) with (@nil Request).
      rewrite app_nil_r.
      destruct (ScoresTimeline.suspended w !! n) as [[pending |] |] eqn:Hn;
        [| split; assumption | split; assumption].
      cbn [ScoresTimeline.sent ScoresTimeline.suspended].
      split; [exact Hsent |].
      destruct (Forall2_lookup_r _ _ _ _ _ Hslots Hn) as (request & Hrequest & _).
      rewrite <- (list_insert_id (ScoresTimeline.called ticks) n request Hrequest).
      apply Forall2_insert; [exact Hslots | left; reflexivity].
Qed.

(** Responses that arrive do not take an error off the screen. *)
Lemma settles_keep_error (backend : Request → Promise (AxiosResponse PageResponse))
    (later : list ScoresTimeline.Tick) (w : ScoresTimeline.world) :
  Forall ScoresTimeline.is_settle later →
  useScores.isLoading (ScoresTimeline.hook w) = false
  ∧ truthy (useScores.error (ScoresTimeline.hook w)) = true →
  let w' := foldl (ScoresTimeline.step backend) w later in
  useScores.isLoading (ScoresTimeline.hook w') = false
  ∧ truthy (useScores.error (ScoresTimeline.hook w')) = true.
Proof.
  cbv zeta. intros Hlater. revert w.
  induction Hlater as [| t later Ht _ IH]; intros w Hw; [exact Hw |].
  cbn [foldl]. apply IH.
  destruct t as [store | n]; [destruct Ht |]. cbn [ScoresTimeline.step].
  destruct (ScoresTimeline.suspended w !! n) as [[pending |] |]; [| exact Hw | exact Hw].
  cbn [ScoresTimeline.hook]. rewrite resume_run.
  destruct Hw as [Hloading Herror].
  destruct (outcome pending) as [result | err]; cbn; split; try reflexivity.
  - exact Herror.
  - apply or_else_fallback_truthy. reflexivity.
Qed.

(** X7. The score page under fetches that overlap.  A fetch that runs
    alone ends as [fetchScores] run in one piece does: the table with
    the content of the response, and the pager when there is more than
    one page, or the error block with the hook's message over the page
    loaded before.  Every call sends its request, whatever is still in
    flight, and brings the spinner back.  Of the calls in flight the
    one whose response arrives last fills the table, the newest or not;
    and the message of a rejection stays on the screen until the next
    call, also when a newer call is fulfilled after it. *)
Theorem scores_page_overlapping_fetches
    (backend : Request → Promise (AxiosResponse PageResponse)) :
  (∀ (store : useScoresStore.state) (h : useScores.hook),
     let alone := ScoresTimeline.hook
                    (ScoresTimeline.run backend
                       [ScoresTimeline.Call store; ScoresTimeline.Settle 0]
                       (ScoresTimeline.start h)) in
     alone = state_of (useScores.fetchScores backend store h)
     ∧ match outcome (backend (useScores.request_of store)) with
       | inl response =>
           let page := resp_data response in
           Scores.render (Scores.view alone)
           = Scores.Table (content page)
               (if 1 <? totalPages page then Scores.pager (number page) (totalPages page)
                else [])
       | inr err =>
           Scores.render (Scores.view alone)
           = Scores.ErrorBlock (or_else (err_message err) (VStr useScores.fallback))
           ∧ useScores.data alone = useScores.data h
       end)
  ∧ (∀ (ticks : list ScoresTimeline.Tick) (h : useScores.hook),
       let w := ScoresTimeline.run backend ticks (ScoresTimeline.start h) in
       ScoresTimeline.sent w = ScoresTimeline.called ticks
       ∧ ∀ n pending,
           ScoresTimeline.suspended w !! n = Some (Some pending) →
           ∃ request, ScoresTimeline.called ticks !! n = Some request
                      ∧ pending = then_ resp_data (backend request))
  ∧ (∀ (ticks : list ScoresTimeline.Tick) (w : ScoresTimeline.world)
       (store : useScoresStore.state),
       Scores.render
         (Scores.view (ScoresTimeline.hook
                         (ScoresTimeline.run backend (ticks ++ [ScoresTimeline.Call store]) w)))
       = Scores.Spinner)
  ∧ (∀ (ticks : list ScoresTimeline.Tick) (w : ScoresTimeline.world) (n : nat)
       (pending : Promise PageResponse),
       ScoresTimeline.suspended (ScoresTimeline.run backend ticks w) !! n
       = Some (Some pending) →
       let before := ScoresTimeline.hook (ScoresTimeline.run backend ticks w) in
       let after := ScoresTimeline.hook
                      (ScoresTimeline.run backend (ticks ++ [ScoresTimeline.Settle n]) w) in
       useScores.isLoading after = false
       ∧ match outcome pending with
         | inl result =>
             useScores.data after = Some result
             ∧ useScores.error after = useScores.error before
         | inr err =>
             useScores.data after = useScores.data before
             ∧ useScores.error after
               = or_else (err_message err) (VStr useScores.fallback)
         end)
  ∧ (∀ (ticks later : list ScoresTimeline.Tick) (w : ScoresTimeline.world) (n : nat)
       (pending : Promise PageResponse) (err : JsError),
       ScoresTimeline.suspended (ScoresTimeline.run backend ticks w) !! n
       = Some (Some pending) →
       outcome pending = inr err →
       Forall ScoresTimeline.is_settle later →
       ∃ msg, truthy msg = true
              ∧ Scores.render
                  (Scores.view
                     (ScoresTimeline.hook
                        (ScoresTimeline.run backend
                           (ticks ++ ScoresTimeline.Settle n :: later) w)))
                = Scores.ErrorBlock msg).
Proof.
  split; [| split; [| split; [| split]]].
  - intros store h. cbv zeta.
    assert (Halone : ScoresTimeline.hook
                       (ScoresTimeline.run backend
                          [ScoresTimeline.Call store; ScoresTimeline.Settle 0]
                          (ScoresTimeline.start h))
                     = state_of (useScores.fetchScores backend store h)).
    { unfold ScoresTimeline.run, ScoresTimeline.start. cbn [foldl ScoresTimeline.step].
      cbn [ScoresTimeline.hook ScoresTimeline.suspended ScoresTimeline.sent].
      rewrite begin_run. cbn [state_of result_of trace_of fst snd app lookup list_lookup].
      cbn [ScoresTimeline.hook]. rewrite resume_run, fetchScores_run.
      unfold then_, state_of. cbn [outcome fst snd].
      destruct (outcome (backend (useScores.request_of store))); reflexivity. }
    rewrite Halone. split; [reflexivity |].
    rewrite fetchScores_run. unfold state_of. cbn [fst snd].
    destruct (outcome (backend (useScores.request_of store))) as [response | err].
    + reflexivity.
    + unfold Scores.render, Scores.view.
      cbn [Scores.isLoading Scores.error useScores.isLoading useScores.error].
      rewrite or_else_fallback_truthy by reflexivity. split; reflexivity.
  - intros ticks h. cbv zeta.
    destruct (timeline_invariant backend ticks h) as [Hsent Hslots].
    split; [exact Hsent |].
    intros n pending Hn.
    destruct (Forall2_lookup_r _ _ _ _ _ Hslots Hn) as (request & Hrequest & Hslot).
    exists request. split; [exact Hrequest |].
    destruct Hslot as [Hnone | Hsome]; congruence.
  - intros ticks w store.
    unfold ScoresTimeline.run. rewrite foldl_app. cbn [foldl ScoresTimeline.step].
    cbn [ScoresTimeline.hook]. rewrite begin_run. reflexivity.
  - intros ticks w n pending Hn. cbv zeta.
    unfold ScoresTimeline.run in *. rewrite foldl_app. cbn [foldl ScoresTimeline.step].
    rewrite Hn. cbn [ScoresTimeline.hook]. rewrite resume_run.
    destruct (outcome pending); split; [reflexivity | split; reflexivity
                                       | reflexivity | split; reflexivity].
  - intros ticks later w n pending err Hn Hout Hlater.
    replace (ticks ++ ScoresTimeline.Settle n :: later)
      with ((ticks ++ [ScoresTimeline.Settle n]) ++ later)
      by (rewrite <- app_assoc; reflexivity).
    unfold ScoresTimeline.run in *. rewrite foldl_app.
    destruct (settles_keep_error backend later
                (foldl (ScoresTimeline.step backend) w (ticks ++ [ScoresTimeline.Settle n])))
      as [Hloading Herror].
    + exact Hlater.
    + rewrite foldl_app. cbn [foldl ScoresTimeline.step]. rewrite Hn.
      cbn [ScoresTimeline.hook]. rewrite resume_run, Hout.
      split; [reflexivity |]. apply or_else_fallback_truthy. reflexivity.
    + eexists. split; [exact Herror |].
      unfold Scores.render, Scores.view.
      cbn [Scores.isLoading Scores.error]. rewrite Hloading, Herror. reflexivity.
Qed.

(** The user goes to the second page, which is down, and straight back
    to the first: two requests are out; the failure arrives, then the
    first page, and the screen shows the failure over the first page. *)
Lemma scores_page_there_and_back :
  let w := ScoresTimeline.run Samples.second_page_down
             (Samples.there_and_back
              ++ [ScoresTimeline.Settle 0; ScoresTimeline.Settle 1])
             (ScoresTimeline.start useScores.initial) in
  length (ScoresTimeline.sent w) = 2%nat
  ∧ useScores.data (ScoresTimeline.hook w)
    = Some (resp_data (Samples.page_of 40 [VObject [("id", VNum 1)]]))
  ∧ useScores.error (ScoresTimeline.hook w) = VStr "page 2 is down"
  ∧ ∃ msg, Scores.render (Scores.view (ScoresTimeline.hook w)) = Scores.ErrorBlock msg.
Proof.
  cbv zeta.
  destruct (scores_page_overlapping_fetches Samples.second_page_down)
    as (_ & Hsent & _ & Hsettle & Hsticks).
  destruct (Hsettle Samples.there_and_back
              (ScoresTimeline.start useScores.initial) 0%nat
              (then_ resp_data
                 (Samples.second_page_down
                    (useScores.request_of
                       (useScoresStore.setPage (VNum 1) useScoresStore.initial)))))
    as (_ & Hfirst); [vm_compute; reflexivity |].
  destruct (Hsettle (Samples.there_and_back ++ [ScoresTimeline.Settle 0])
              (ScoresTimeline.start useScores.initial) 1%nat
              (then_ resp_data
                 (Samples.second_page_down
                    (useScores.request_of
                       (useScoresStore.setPage (VNum 0) useScoresStore.initial)))))
    as (_ & Hsecond); [vm_compute; reflexivity |].
  rewrite <- app_assoc in Hsecond. cbn [app] in Hsecond.
  change (outcome _) with (@inr PageResponse JsError
                             (Samples.backend_error (VStr "page 2 is down"))) in Hfirst.
  change (outcome _) with (@inl PageResponse JsError
                             (resp_data (Samples.page_of 40 [VObject [("id", VNum 1)]])))
    in Hsecond.
  destruct Hfirst as [_ Herror]. destruct Hsecond as [Hdata Hkept].
  split; [| split; [| split]].
  - destruct (Hsent (Samples.there_and_back
                     ++ [ScoresTimeline.Settle 0; ScoresTimeline.Settle 1])
                useScores.initial) as [-> _].
    reflexivity.
  - exact Hdata.
  - rewrite Hkept, Herror. reflexivity.
  - destruct (Hsticks Samples.there_and_back [ScoresTimeline.Settle 1]
                (ScoresTimeline.start useScores.initial) 0%nat
                (then_ resp_data
                   (Samples.second_page_down
                      (useScores.request_of
                         (useScoresStore.setPage (VNum 1) useScoresStore.initial))))
                (Samples.backend_error (VStr "page 2 is down")))
      as (msg & _ & Hshown).
    + vm_compute. reflexivity.
    + vm_compute. reflexivity.
    + repeat constructor.
    + exists msg. exact Hshown.
Defined.




(** ** Session restore, login and logout *)

Lemma restoreSession_run
    (backend : Request → Promise (AxiosResponse useAuthStore.User))
    (st : useAuthStore.state) :
  App.restoreSession backend st =
  (Returned (),
   match outcome (backend (GET "/users/me" ∅)) with
   | inl response =>
       {| useAuthStore.user := Some (resp_data response);
          useAuthStore.isLoading := false;
          useAuthStore.error := VNull |}
   | inr _ =>
       {| useAuthStore.user := useAuthStore.user st;
          useAuthStore.isLoading := false;
          useAuthStore.error := useAuthStore.error st |}
   end,
   [Sent (GET "/users/me" ∅)]).
Proof.
  unfold App.restoreSession, authClient.getCurrentUser, apiClient_get.
  cbv [try_catch_finally mbind Act_bind bind await emit mret Act_ret ret modify throw].
  destruct (backend _) as [t [response | err]]; reflexivity.
Qed.

(** X9. The session probe at startup sends one request, to [/users/me],
    and leaves the store not loading whatever the answer.  A user in
    the answer is stored, and the guard then shows the protected
    content; a failure is silent: no toast, no stored error, the user
    as it was, and with no user the guard redirects to [/login].  The
    guard never shows the waiting block after the probe. *)
Theorem restoreSession_settles {C : Type} (children : C)
    (backend : Request → Promise (AxiosResponse useAuthStore.User))
    (st : useAuthStore.state) :
  let run := App.restoreSession backend st in
  let after := state_of run in
  trace_of run = [Sent (GET "/users/me" ∅)]
  ∧ useAuthStore.isLoading after = false
  ∧ Guard.ProtectedRoute after children ≠ Guard.LoadingScreen
  ∧ match outcome (backend (GET "/users/me" ∅)) with
    | inl response =>
        useAuthStore.user after = Some (resp_data response)
        ∧ useAuthStore.error after = VNull
        ∧ Guard.ProtectedRoute after children = Guard.Children children
    | inr _ =>
        useAuthStore.user after = useAuthStore.user st
        ∧ useAuthStore.error after = useAuthStore.error st
        ∧ (useAuthStore.user st = None →
           Guard.ProtectedRoute after children = Guard.Navigate "/login" true)
    end.
Proof.
  cbv zeta. rewrite restoreSession_run. unfold state_of, trace_of. cbn [fst snd].
  destruct (outcome (backend (GET "/users/me" ∅))) as [response | err].
  - repeat split. discriminate.
  - split; [reflexivity | split; [reflexivity | split]].
    + unfold Guard.ProtectedRoute. cbn.
      destruct (useAuthStore.user st); discriminate.
    + split; [reflexivity | split; [reflexivity |]].
      intros Hnone. unfold Guard.ProtectedRoute. cbn. rewrite Hnone. reflexivity.
Qed.

(** At startup, with the probe rejected, the guard goes from waiting
    to the login redirect. *)
Lemma restoreSession_anonymous :
  Guard.ProtectedRoute useAuthStore.initial () = Guard.LoadingScreen
  ∧ Guard.ProtectedRoute
      (state_of (App.restoreSession
                   (λ _, {| settledAt := 1; outcome := inr TypeError |})
                   useAuthStore.initial)) ()
    = Guard.Navigate "/login" true.
Proof.
  split; [reflexivity |].
  destruct (restoreSession_settles ()
              (λ _, {| settledAt := 1; outcome := inr TypeError |})
              useAuthStore.initial) as (_ & _ & _ & H).
  cbn in H. destruct H as (_ & _ & H). apply H. reflexivity.
Defined.

Lemma login_run (backend : Request → Promise (AxiosResponse useAuthStore.User))
    (w : Login.world) :
  let req := POST "/auth/login"
               {[ "username" := VStr (Login.username (Login.local w));
                  "password" := VStr (Login.password (Login.local w)) ]} in
  let idle := {| Login.username := Login.username (Login.local w);
                 Login.password := Login.password (Login.local w);
                 Login.isSubmitting := false |} in
  Login.handleSubmit backend w =
  (Returned (),
   match outcome (backend req) with
   | inl response =>
       {| Login.local := idle;
          Login.auth := useAuthStore.setUser (Some (resp_data response)) (Login.auth w) |}
   | inr _ => {| Login.local := idle; Login.auth := Login.auth w |}
   end,
   Sent req ::
   match outcome (backend req) with
   | inl _ => [ToastSuccess Login.LOGIN_DONE; Navigated "/"]
   | inr err => [ToastError (or_else (err_message err) (VStr Login.LOGIN_FAILED))]
   end).
Proof.
  cbv zeta. unfold Login.handleSubmit, authClient.login, apiClient_post.
  cbv [try_catch_finally mbind Act_bind bind await emit mret Act_ret ret modify throw get
       Login.setIsSubmitting Login.setUser].
  destruct (backend _) as [t [response | err]]; reflexivity.
Qed.

(** X10. A login sends one request, the name and password typed, and
    ends not submitting with the typed values kept.  When the backend
    accepts, the user of the answer is in the store with the error
    cleared, the page goes to [/], and a guard that is not loading lets
    it through; when it refuses, the store is untouched, one toast
    shows the backend's message or the generic one, and nothing
    navigates. *)
Theorem login_outcome {C : Type} (children : C)
    (backend : Request → Promise (AxiosResponse useAuthStore.User)) (w : Login.world) :
  let req := POST "/auth/login"
               {[ "username" := VStr (Login.username (Login.local w));
                  "password" := VStr (Login.password (Login.local w)) ]} in
  let run := Login.handleSubmit backend w in
  let after := state_of run in
  requests (trace_of run) = [req]
  ∧ Login.isSubmitting (Login.local after) = false
  ∧ Login.username (Login.local after) = Login.username (Login.local w)
  ∧ Login.password (Login.local after) = Login.password (Login.local w)
  ∧ match outcome (backend req) with
    | inl response =>
        useAuthStore.user (Login.auth after) = Some (resp_data response)
        ∧ useAuthStore.error (Login.auth after) = VNull
        ∧ trace_of run = [Sent req; ToastSuccess Login.LOGIN_DONE; Navigated "/"]
        ∧ (useAuthStore.isLoading (Login.auth w) = false →
           Guard.ProtectedRoute (Login.auth after) children = Guard.Children children)
    | inr err =>
        Login.auth after = Login.auth w
        ∧ trace_of run
          = [Sent req; ToastError (or_else (err_message err) (VStr Login.LOGIN_FAILED))]
    end.
Proof.
  cbv zeta. rewrite login_run. unfold state_of, trace_of. cbn [fst snd].
  destruct (outcome (backend _)) as [response | err].
  - repeat split. intros Hloading. unfold Guard.ProtectedRoute. cbn.
    rewrite Hloading. reflexivity.
  - repeat split.
Qed.

(** Logging in as [dj] with the session probe settled opens the guard. *)
Lemma login_as_dj :
  let w := {| Login.local := {| Login.username := "dj"; Login.password := "secret";
                                Login.isSubmitting := false |};
              Login.auth := Samples.anonymous_store |} in
  Guard.ProtectedRoute (Login.auth w) () = Guard.Navigate "/login" true
  ∧ Guard.ProtectedRoute
      (Login.auth (state_of (Login.handleSubmit Samples.user_backend w))) ()
    = Guard.Children ().
Proof.
  cbv zeta. split; [reflexivity |].
  match goal with
  | |- context [Login.handleSubmit _ ?w] =>
      destruct (login_outcome () Samples.user_backend w) as (_ & _ & _ & _ & H)
  end.
  cbn in H. destruct H as (_ & _ & _ & H). apply H. reflexivity.
Defined.

Lemma logout_run (backend : Request → Promise (AxiosResponse jsval))
    (st : useAuthStore.state) :
  Header.handleLogout backend st =
  (Returned (), useAuthStore.logout st,
   Sent (POST "/auth/logout" ∅) ::
   match outcome (backend (POST "/auth/logout" ∅)) with
   | inl _ => [ToastSuccess Header.LOGGED_OUT; Navigated "/login"]
   | inr _ => [Navigated "/login"]
   end).
Proof.
  unfold Header.handleLogout, authApi.logout, apiClient_post.
  cbv [try_catch try_catch_finally mbind Act_bind bind await emit mret Act_ret ret
       modify throw].
  destruct (backend _) as [t [response | err]]; reflexivity.
Qed.

(** X11. Logging out clears the client's session whatever the backend
    answers: one request to [/auth/logout], then no user and no error
    in the store, the page at [/login], and the guard, once not
    loading, redirecting.  The success toast shows only when the
    backend accepted. *)
Theorem logout_always_clears {C : Type} (children : C)
    (backend : Request → Promise (AxiosResponse jsval)) (st : useAuthStore.state) :
  let run := Header.handleLogout backend st in
  let after := state_of run in
  requests (trace_of run) = [POST "/auth/logout" ∅]
  ∧ useAuthStore.user after = None
  ∧ useAuthStore.error after = VNull
  ∧ useAuthStore.isAuthenticated after = false
  ∧ last (trace_of run) = Some (Navigated "/login")
  ∧ (ToastSuccess Header.LOGGED_OUT ∈ trace_of run
     ↔ ∃ response, outcome (backend (POST "/auth/logout" ∅)) = inl response)
  ∧ (useAuthStore.isLoading st = false →
     Guard.ProtectedRoute after children = Guard.Navigate "/login" true).
Proof.
  cbv zeta. rewrite logout_run. unfold state_of, trace_of. cbn [fst snd].
  split; [| split; [reflexivity | split; [reflexivity | split; [reflexivity |]]]].
  - destruct (outcome _); reflexivity.
  - split; [| split].
    + destruct (outcome _); reflexivity.
    + destruct (outcome (backend (POST "/auth/logout" ∅))) as [response | err].
      * split; [intros _; exists response; reflexivity |].
        intros _. apply elem_of_cons. right. apply elem_of_cons. left. reflexivity.
      * split.
        -- intros Hin. repeat (apply elem_of_cons in Hin as [Hin | Hin]; [discriminate |]).
           apply elem_of_nil in Hin. contradiction.
        -- intros [response Hresp]. discriminate.
    + intros Hloading. unfold Guard.ProtectedRoute. cbn. rewrite Hloading. reflexivity.
Qed.

(** With the network down, [dj] is logged out on the client all the same. *)
Lemma logout_offline :
  let st := {| useAuthStore.user := Some Samples.dj; useAuthStore.isLoading := false;
               useAuthStore.error := VNull |} in
  Guard.ProtectedRoute st () = Guard.Children ()
  ∧ Guard.ProtectedRoute
      (state_of (Header.handleLogout (λ _, {| settledAt := 1; outcome := inr TypeError |})
                   st)) ()
    = Guard.Navigate "/login" true.
Proof.
  cbv zeta. split; [reflexivity |].
  match goal with
  | |- context [Header.handleLogout ?b ?st] =>
      destruct (logout_always_clears () b st) as (_ & _ & _ & _ & _ & _ & H)
  end.
  apply H. reflexivity.
Defined.

(** ** The navigation bar *)

Lemma prefix_append (p s : string) : String.prefix p (p +:+ s) = true.
Proof.
  induction p as [| a p IH]; simpl; [destruct s; reflexivity |].
  destruct (ascii_dec a a); [exact IH | contradiction].
Qed.

Lemma prefix_two (x y : ascii) (p s : string) :
  String.prefix (String x (String y p)) s = true →
  ∃ rest, s = String x (String y rest).
Proof.
  destruct s as [| a [| b rest]]; simpl; try discriminate.
  - destruct (ascii_dec x a); discriminate.
  - destruct (ascii_dec x a) as [-> |]; [| discriminate].
    destruct (ascii_dec y b) as [-> |]; [| discriminate].
    intros _. exists rest. reflexivity.
Qed.

(** X12. Whatever the path, at most one item of the navigation bar is
    highlighted; the dashboard item is, at [/] and nowhere else, and
    the score item is on every path that starts with [/scores]. *)
Theorem nav_at_most_one_active (pathname sub : string) :
  (length (List.filter (λ item, Header.isActive pathname item.1) Header.NAV_ITEMS) ≤ 1)%nat
  ∧ (Header.isActive pathname "/" = true ↔ pathname = "/")
  ∧ Header.isActive ("/scores" +:+ sub) "/scores" = true.
Proof.
  split; [| split].
  - unfold Header.NAV_ITEMS, Header.isActive. cbn [List.filter fst].
    change (String.eqb "/" "/") with true.
    change (String.eqb "/scores" "/") with false.
    change (String.eqb "/tier-table/12" "/") with false.
    change (String.eqb "/import/csv" "/") with false.
    cbv iota.
    destruct (String.eqb pathname "/") eqn:Hhome;
      destruct (String.prefix "/scores" pathname) eqn:Hscores;
      destruct (String.prefix "/tier-table/12" pathname) eqn:Htier;
      destruct (String.prefix "/import/csv" pathname) eqn:Himport;
      cbn [length]; try lia; exfalso;
      try apply String.eqb_eq in Hhome;
      try apply prefix_two in Hscores as [r1 H1];
      try apply prefix_two in Htier as [r2 H2];
      try apply prefix_two in Himport as [r3 H3];
      congruence.
  - unfold Header.isActive. change (String.eqb "/" "/") with true. cbv iota. split.
    + intros H. apply String.eqb_eq in H. exact H.
    + intros ->. reflexivity.
  - unfold Header.isActive.
    change (String.eqb "/scores" "/") with false. cbv iota.
    apply prefix_append.
Qed.

(** ** The CSRF header *)

Lemma string_app_nil_r (s : string) : s +:+ "" = s.
Proof.
  induction s as [| a s IH]; [reflexivity |].
  change (String a (s +:+ "") = String a s). rewrite IH. reflexivity.
Qed.

Lemma string_app_assoc (a b c : string) : (a +:+ b) +:+ c = a +:+ (b +:+ c).
Proof.
  induction a as [| x a IH]; [reflexivity |].
  change (String x ((a +:+ b) +:+ c) = String x (a +:+ (b +:+ c))). rewrite IH. reflexivity.
Qed.

Lemma prefix_nil (s : string) : String.prefix "" s = true.
Proof. destruct s; reflexivity. Qed.

Lemma prefix_cons (a b : ascii) (p s : string) :
  String.prefix (String a p) (String b s)
  = if ascii_dec a b then String.prefix p s else false.
Proof. reflexivity. Qed.

Lemma split_from_read (sep piece s : string) (c : ascii) :
  apiClient.split_from sep 0 piece (String c s)
  = if String.prefix sep (String c s)
    then piece :: apiClient.split_from sep (String.length sep - 1) "" s
    else apiClient.split_from sep 0 (piece +:+ String c "") s.
Proof. reflexivity. Qed.

Lemma split_from_skip (sep piece s : string) (c : ascii) (k : nat) :
  apiClient.split_from sep (S k) piece (String c s) = apiClient.split_from sep k piece s.
Proof. reflexivity. Qed.

Lemma string_app_cons (x : ascii) (a b : string) : String x a +:+ b = String x (a +:+ b).
Proof. reflexivity. Qed.

Lemma string_app_snoc (piece a : string) (x : ascii) :
  (piece +:+ String x "") +:+ a = piece +:+ String x a.
Proof. rewrite string_app_assoc. reflexivity. Qed.

(** A piece without a semicolon is read to its end. *)
Lemma split_rows_last (a piece : string) :
  includes a ";"%char = false →
  apiClient.split_from "; " 0 piece a = [piece +:+ a].
Proof.
  revert piece. induction a as [| x a IH]; intros piece Hno.
  - rewrite string_app_nil_r. reflexivity.
  - cbn [includes] in Hno. apply orb_false_iff in Hno as [Hx Ha].
    rewrite split_from_read, prefix_cons.
    destruct (ascii_dec ";" x) as [<- | Hne]; [discriminate |].
    rewrite (IH _ Ha), string_app_snoc. reflexivity.
Qed.

(** ... and up to the separator when one follows. *)
Lemma split_rows_cons (a piece rest : string) :
  includes a ";"%char = false →
  apiClient.split_from "; " 0 piece (a +:+ "; " +:+ rest)
  = (piece +:+ a) :: apiClient.split_from "; " 0 "" rest.
Proof.
  revert piece. induction a as [| x a IH]; intros piece Hno.
  - change ("" +:+ "; " +:+ rest) with (String ";" (String " " rest)).
    rewrite split_from_read, !prefix_cons, prefix_nil.
    destruct (ascii_dec ";" ";"); [| contradiction].
    destruct (ascii_dec " " " "); [| contradiction].
    change (String.length "; " - 1)%nat with 1%nat.
    rewrite split_from_skip, string_app_nil_r. reflexivity.
  - cbn [includes] in Hno. apply orb_false_iff in Hno as [Hx Ha].
    rewrite string_app_cons, split_from_read, prefix_cons.
    destruct (ascii_dec ";" x) as [<- | Hne]; [discriminate |].
    rewrite (IH _ Ha), string_app_snoc. reflexivity.
Qed.

(** Splitting [document.cookie] gives the rows of the jar back. *)
Lemma split_cookie_of (rows : list string) :
  rows ≠ [] →
  Forall (λ row, includes row ";"%char = false) rows →
  apiClient.split "; " (apiClient.cookie_of rows) = rows.
Proof.
  unfold apiClient.split.
  induction rows as [| row rows IH]; intros Hne Hall; [contradiction |].
  inversion Hall as [| ? ? Hrow Hrest]; subst.
  destruct rows as [| row' rows].
  - cbn [apiClient.cookie_of]. rewrite split_rows_last by exact Hrow. reflexivity.
  - change (apiClient.cookie_of (row :: row' :: rows))
      with (row +:+ "; " +:+ apiClient.cookie_of (row' :: rows)).
    rewrite split_rows_cons by exact Hrow.
    rewrite IH; [reflexivity | discriminate | exact Hrest].
Qed.

(** The first piece of a split at [=] is the text before the first [=]. *)
Lemma split_eq_head (v piece : string) :
  ∃ rest, apiClient.split_from "=" 0 piece v
          = (piece +:+ apiClient.before "="%char v) :: rest.
Proof.
  revert piece. induction v as [| x v IH]; intros piece.
  - exists []. cbn [apiClient.before]. rewrite string_app_nil_r. reflexivity.
  - rewrite split_from_read, prefix_cons, prefix_nil. cbn [apiClient.before].
    destruct (ascii_dec "=" x) as [<- | Hne].
    + change (Ascii.eqb "=" "=") with true. cbv iota. rewrite string_app_nil_r.
      eexists. reflexivity.
    + replace (Ascii.eqb x "=") with false
        by (symmetry; apply Ascii.eqb_neq; congruence).
      destruct (IH (piece +:+ String x "")) as [rest ->].
      rewrite string_app_snoc. exists rest. reflexivity.
Qed.

Lemma csrfToken_of_row (v : string) :
  apiClient.split "=" ("XSRF-TOKEN=" +:+ v) !! 1%nat = Some (apiClient.before "="%char v).
Proof.
  unfold apiClient.split.
  assert (H : ∀ name piece,
            includes name "="%char = false →
            apiClient.split_from "=" 0 piece (name +:+ String "=" v)
            = (piece +:+ name) :: apiClient.split_from "=" 0 "" v).
  { induction name as [| x name IH]; intros piece Hno.
    - change ("" +:+ String "=" v) with (String "=" v).
      rewrite split_from_read, prefix_cons, prefix_nil.
      destruct (ascii_dec "=" "="); [| contradiction].
      rewrite string_app_nil_r. reflexivity.
    - cbn [includes] in Hno. apply orb_false_iff in Hno as [Hx Hname].
      rewrite string_app_cons, split_from_read, prefix_cons.
      destruct (ascii_dec "=" x) as [<- | Hne]; [discriminate |].
      rewrite (IH _ Hname), string_app_snoc. reflexivity. }
  change ("XSRF-TOKEN=" +:+ v) with ("XSRF-TOKEN" +:+ String "=" v).
  rewrite (H "XSRF-TOKEN" "" eq_refl).
  destruct (split_eq_head v "") as [rest ->]. reflexivity.
Qed.

Lemma before_no_char (c : ascii) (v : string) :
  includes v c = false → apiClient.before c v = v.
Proof.
  induction v as [| x v IH]; simpl; [reflexivity |].
  intros H. apply orb_false_iff in H as [Hx Hv]. rewrite Hx, (IH Hv). reflexivity.
Qed.

(** X13. With the jar's first [XSRF-TOKEN] row carrying the value [v],
    the interceptor sets the [X-XSRF-TOKEN] header to the text of [v]
    before its first [=]: to [v] itself when [v] holds no [=], to a cut
    value when it does.  It touches no other header, nor the request,
    nor the credentials flag. *)
Theorem csrf_header_from_cookie (rows : list string) (v : string)
    (config : apiClient.Config) :
  Forall (λ row, includes row ";"%char = false) rows →
  List.find (String.prefix "XSRF-TOKEN=") rows = Some ("XSRF-TOKEN=" +:+ v) →
  apiClient.before "="%char v ≠ "" →
  let sent := apiClient.attachCsrf (apiClient.cookie_of rows) config in
  apiClient.headers sent !! "X-XSRF-TOKEN" = Some (apiClient.before "="%char v)
  ∧ (includes v "="%char = false → apiClient.headers sent !! "X-XSRF-TOKEN" = Some v)
  ∧ (∀ k, k ≠ "X-XSRF-TOKEN" →
          apiClient.headers sent !! k = apiClient.headers config !! k)
  ∧ apiClient.request sent = apiClient.request config
  ∧ apiClient.withCredentials sent = apiClient.withCredentials config.
Proof.
  intros Hrows Hfind Htoken. cbv zeta.
  unfold apiClient.attachCsrf, apiClient.csrfToken.
  rewrite split_cookie_of; [| intros ->; discriminate | exact Hrows].
  rewrite Hfind, csrfToken_of_row.
  assert (truthy (VStr (apiClient.before "="%char v)) = true) as ->.
  { cbn. destruct (apiClient.before "="%char v); [contradiction | reflexivity]. }
  cbn [apiClient.headers apiClient.request apiClient.withCredentials].
  split; [apply lookup_insert_eq | split; [| split; [| split; reflexivity]]].
  - intros Hno. rewrite lookup_insert_eq, (before_no_char _ _ Hno). reflexivity.
  - intros k Hk. apply lookup_insert_ne. congruence.
Qed.

(** The token of the sample jar goes out as it is. *)
Lemma csrf_header_example :
  apiClient.headers
    (apiClient.attachCsrf (apiClient.cookie_of Samples.jar)
       (apiClient.create (GET "/scores" ∅))) !! "X-XSRF-TOKEN"
  = Some "tok-42"
  ∧ apiClient.headers
      (apiClient.attachCsrf (apiClient.cookie_of Samples.jar)
         (apiClient.create (GET "/scores" ∅))) !! "Content-Type"
    = Some "application/json".
Proof.
  destruct (csrf_header_from_cookie Samples.jar "tok-42"
              (apiClient.create (GET "/scores" ∅))) as (_ & Hvalue & Hother & _).
  - repeat constructor.
  - reflexivity.
  - discriminate.
  - split; [apply Hvalue; reflexivity |].
    rewrite Hother by discriminate. reflexivity.
Defined.

(** X14. Without a row that starts with [XSRF-TOKEN=] in the jar (an
    empty jar included), and also when the first such row has nothing
    before its value's first [=], the interceptor hands the
    configuration on as it got it. *)
Theorem csrf_header_absent (rows : list string) (v : string) (config : apiClient.Config) :
  Forall (λ row, includes row ";"%char = false) rows →
  (List.find (String.prefix "XSRF-TOKEN=") rows = None →
   apiClient.attachCsrf (apiClient.cookie_of rows) config = config)
  ∧ (List.find (String.prefix "XSRF-TOKEN=") rows = Some ("XSRF-TOKEN=" +:+ v) →
     apiClient.before "="%char v = "" →
     apiClient.attachCsrf (apiClient.cookie_of rows) config = config).
Proof.
  intros Hrows. unfold apiClient.attachCsrf, apiClient.csrfToken. split.
  - intros Hfind. destruct rows as [| row rows]; [reflexivity |].
    rewrite split_cookie_of; [| discriminate | exact Hrows].
    rewrite Hfind. reflexivity.
  - intros Hfind Hempty.
    rewrite split_cookie_of; [| intros ->; discriminate | exact Hrows].
    rewrite Hfind, csrfToken_of_row, Hempty. reflexivity.
Qed.

(** With only a session cookie in the jar, or with a token row whose
    value is empty, no header is added. *)
Lemma csrf_header_absent_example :
  apiClient.attachCsrf (apiClient.cookie_of ["JSESSIONID=abc123"])
    (apiClient.create (GET "/scores" ∅))
  = apiClient.create (GET "/scores" ∅)
  ∧ apiClient.attachCsrf (apiClient.cookie_of ["XSRF-TOKEN="])
      (apiClient.create (GET "/scores" ∅))
    = apiClient.create (GET "/scores" ∅).
Proof.
  split.
  - destruct (csrf_header_absent ["JSESSIONID=abc123"] ""
                (apiClient.create (GET "/scores" ∅))) as [H _].
    + repeat constructor.
    + apply H. reflexivity.
  - destruct (csrf_header_absent ["XSRF-TOKEN="] ""
                (apiClient.create (GET "/scores" ∅))) as [_ H].
    + repeat constructor.
    + apply H; reflexivity.
Defined.

(** ** The outcome of an upload *)

Lemma progress_after_loop (ns : list Z) (p : CsvUpload.page) :
  CsvUpload.progress (foldl (λ q n, CsvUpload.with_progress n q) p ns)
  = default (CsvUpload.progress p) (last ns)
  ∧ CsvUpload.uploadState (foldl (λ q n, CsvUpload.with_progress n q) p ns)
    = CsvUpload.uploadState p
  ∧ CsvUpload.result (foldl (λ q n, CsvUpload.with_progress n q) p ns)
    = CsvUpload.result p
  ∧ CsvUpload.isDragging (foldl (λ q n, CsvUpload.with_progress n q) p ns)
    = CsvUpload.isDragging p.
Proof.
  induction ns as [| n ns IH] using rev_ind; [repeat split |].
  destruct IH as (_ & Hu & Hr & Hd).
  rewrite foldl_app, last_snoc. cbn. rewrite Hu, Hr, Hd. repeat split.
Qed.

Lemma handleUpload_run (api : importApi.Revision)
    (backend : Request → list ProgressEvent * Promise (AxiosResponse ImportResult))
    (p : CsvUpload.page) (f : File) :
  CsvUpload.file p = Some f →
  let req := importApi.request_sent api f (CsvUpload.playStyle p) in
  let shown := default 0 (last (importApi.reported api (backend req).1)) in
  CsvUpload.handleUpload api backend p =
  (Returned (),
   match outcome (backend req).2 with
   | inl response =>
       {| CsvUpload.file := Some f; CsvUpload.playStyle := CsvUpload.playStyle p;
          CsvUpload.isDragging := CsvUpload.isDragging p;
          CsvUpload.uploadState := CsvUpload.success;
          CsvUpload.progress := shown;
          CsvUpload.result := Some (resp_data response) |}
   | inr _ =>
       {| CsvUpload.file := Some f; CsvUpload.playStyle := CsvUpload.playStyle p;
          CsvUpload.isDragging := CsvUpload.isDragging p;
          CsvUpload.uploadState := CsvUpload.error;
          CsvUpload.progress := shown;
          CsvUpload.result := CsvUpload.result p |}
   end,
   Sent req ::
   match outcome (backend req).2 with
   | inl response =>
       [ToastSuccess (pretty (scoresImported (resp_data response)
                              + scoresUpdated (resp_data response))
                      +:+ "개 스코어 처리 완료!")]
   | inr err => [ToastError (or_else (err_message err) (VStr CsvUpload.UPLOAD_FAILED))]
   end).
Proof.
  intros Hf. cbv zeta. unfold CsvUpload.handleUpload.
  cbv [try_catch try_catch_finally mbind Act_bind bind get]. rewrite Hf.
  cbv [mbind Act_bind bind CsvUpload.setUploadState CsvUpload.setProgress modify].
  rewrite (uploadCsv_rev_run _ _ _ _ CsvUpload.with_progress). cbv zeta.
  set (req := importApi.request_sent api f (CsvUpload.playStyle p)).
  match goal with
  | |- context [foldl ?g ?q ?ns] =>
      destruct (progress_after_loop ns q) as (Hp & Hu & Hr & Hd);
      destruct (progress_loop_keeps ns q) as (Hfile & Hstyle);
      remember (foldl g q ns) as looped eqn:Hlooped
  end.
  cbn in Hp, Hu, Hr, Hd, Hfile, Hstyle. rewrite Hf in Hfile.
  destruct (outcome (backend req).2) as [response | err];
    cbv [emit CsvUpload.setResult CsvUpload.setUploadState modify mret Act_ret ret];
    cbn; rewrite ?Hp, ?Hr, ?Hd, ?Hfile, ?Hstyle; reflexivity.
Qed.

(** X15. What the page is left with when the request of an upload has
    settled and [handleUpload] has run to its end, over either revision
    of api/import.js.  A fulfilled request ends in success with the
    response as the result, its four counts on the cards as they came,
    the upload button gone and a toast counting imported plus updated
    scores; a rejected one ends in error with the earlier result
    untouched, the button live again for a manual retry, and a toast
    with the backend's message or the generic one.  Either way the one
    request of the revision went out, the file and the play style stay
    chosen, and the progress stands at the last percentage the revision
    reported: at 0 under the named file, which reports none. *)
Theorem upload_outcome (api : importApi.Revision)
    (backend : Request → list ProgressEvent * Promise (AxiosResponse ImportResult))
    (p : CsvUpload.page) (f : File) :
  CsvUpload.file p = Some f →
  let req := importApi.request_sent api f (CsvUpload.playStyle p) in
  let run := CsvUpload.handleUpload api backend p in
  let after := state_of run in
  CsvUpload.file after = Some f
  ∧ CsvUpload.playStyle after = CsvUpload.playStyle p
  ∧ CsvUpload.progress after
    = match api with
      | importApi.named => 0
      | importApi.with_progress =>
          default 0 (last (importApi.percentages (backend req).1))
      end
  ∧ match outcome (backend req).2 with
    | inl response =>
        let data := resp_data response in
        CsvUpload.uploadState after = CsvUpload.success
        ∧ CsvUploadView.resultCards after
          = Some (songsImported data, chartsImported data,
                  scoresImported data, scoresUpdated data)
        ∧ CsvUploadView.uploadButton after = None
        ∧ trace_of run
          = [Sent req;
             ToastSuccess (pretty (scoresImported data + scoresUpdated data)
                           +:+ "개 스코어 처리 완료!")]
    | inr err =>
        CsvUpload.uploadState after = CsvUpload.error
        ∧ CsvUpload.result after = CsvUpload.result p
        ∧ CsvUploadView.resultCards after = None
        ∧ CsvUploadView.uploadButton after = Some false
        ∧ trace_of run
          = [Sent req;
             ToastError (or_else (err_message err) (VStr CsvUpload.UPLOAD_FAILED))]
    end.
Proof.
  intros Hf. cbv zeta. rewrite (handleUpload_run api backend p f Hf).
  unfold state_of, trace_of. cbn [fst snd].
  split; [| split; [| split]].
  - destruct (outcome _); reflexivity.
  - destruct (outcome _); reflexivity.
  - destruct api; destruct (outcome _); reflexivity.
  - destruct (outcome _) as [response | err]; repeat split.
Qed.

(** The refused upload of [data.csv]: error state and the backend's
    words in the toast under either revision; the progress half-way
    under the revision that reports it, at 0 under the named file. *)
Lemma upload_outcome_refused :
  let p := state_of (CsvUpload.handleFileSelect (Some Samples.data_csv) CsvUpload.initial) in
  let run := CsvUpload.handleUpload importApi.with_progress Samples.refusing_import_backend p in
  let run' := CsvUpload.handleUpload importApi.named Samples.refusing_import_backend p in
  CsvUpload.uploadState (state_of run) = CsvUpload.error
  ∧ CsvUpload.progress (state_of run) = 50
  ∧ toast_errors (trace_of run) = [VStr "bad header"]
  ∧ CsvUpload.progress (state_of run') = 0.
Proof.
  cbv zeta.
  set (p := state_of (CsvUpload.handleFileSelect (Some Samples.data_csv) CsvUpload.initial)).
  destruct (upload_outcome importApi.with_progress Samples.refusing_import_backend p
              Samples.data_csv eq_refl) as (_ & _ & Hbar & Hcase).
  destruct (upload_outcome importApi.named Samples.refusing_import_backend p
              Samples.data_csv eq_refl) as (_ & _ & Hbar' & _).
  assert (Hout : outcome (Samples.refusing_import_backend
                            (importApi.request_sent importApi.with_progress
                               Samples.data_csv (CsvUpload.playStyle p))).2
                 = inr (Samples.backend_error (VStr "bad header"))) by reflexivity.
  rewrite Hout in Hcase. destruct Hcase as (Hstate & _ & _ & _ & Htrace).
  split; [exact Hstate | split; [exact Hbar | split; [| exact Hbar']]].
  rewrite Htrace. reflexivity.
Defined.

(** X16. On a page reached by any sequence of actions, a live upload
    button means a validated file is chosen, and a click on it sends
    exactly one request, with that file: the multipart form of
    api/import.js as named.  Picking a file that passes validation
    makes the button live and takes the result cards and the bar away,
    whatever state the page was in; removing the file disables the
    button. *)
Theorem upload_button_live
    (backend : Request → list ProgressEvent * Promise (AxiosResponse ImportResult))
    (actions : list CsvUpload.Action) (f : File) (q : CsvUpload.page) :
  (let p := state_of (CsvUpload.session importApi.named backend actions
                        CsvUpload.initial) in
   CsvUploadView.uploadButton p = Some false →
   ∃ chosen, CsvUpload.file p = Some chosen
     ∧ CsvUpload.acceptable chosen = true
     ∧ requests (trace_of (CsvUpload.handleUpload importApi.named backend p))
       = [POST_form "/import/iidx/score"
            [("file", FFile chosen); ("playStyle", FText (CsvUpload.playStyle p))]])
  ∧ (CsvUpload.acceptable f = true →
     let picked := state_of (CsvUpload.handleFileSelect (Some f) q) in
     CsvUploadView.uploadButton picked = Some false
     ∧ CsvUploadView.resultCards picked = None
     ∧ CsvUploadView.progressBar picked = None)
  ∧ CsvUploadView.uploadButton (state_of (CsvUpload.removeFile q)) = Some true.
Proof.
  split; [| split].
  - cbv zeta. intros Hbutton.
    destruct (session_sends_validated_files importApi.named backend actions
                CsvUpload.initial I) as (_ & Hok & _).
    set (p := state_of (CsvUpload.session importApi.named backend actions
                          CsvUpload.initial)) in *.
    unfold CsvUploadView.uploadButton in Hbutton. unfold CsvUpload.file_ok in Hok.
    destruct (CsvUpload.file p) as [chosen |] eqn:Hfile.
    + exists chosen. split; [reflexivity | split; [exact Hok |]].
      apply (handleUpload_requests importApi.named). exact Hfile.
    + destruct (CsvUpload.uploadState p); discriminate.
  - intros Hacc. cbv zeta. rewrite (handleFileSelect_accepts f q Hacc).
    repeat split.
  - reflexivity.
Qed.

(** With [data.csv] picked the button is live and a click sends it;
    after the upload succeeded the button is gone, and picking the file
    again brings it back. *)
Lemma upload_button_rearmed :
  let picked := state_of (CsvUpload.session importApi.named Samples.import_backend
                            [CsvUpload.Pick (Some Samples.data_csv)] CsvUpload.initial) in
  let done := state_of (CsvUpload.session importApi.named Samples.import_backend
                          [CsvUpload.Pick (Some Samples.data_csv); CsvUpload.Upload]
                          CsvUpload.initial) in
  (∃ chosen, CsvUpload.file picked = Some chosen
     ∧ requests (trace_of (CsvUpload.handleUpload importApi.named
                             Samples.import_backend picked))
       = [POST_form "/import/iidx/score"
            [("file", FFile chosen); ("playStyle", FText "SP")]])
  ∧ CsvUploadView.uploadButton done = None
  ∧ CsvUploadView.uploadButton
      (state_of (CsvUpload.handleFileSelect (Some Samples.data_csv) done)) = Some false.
Proof.
  cbv zeta. split; [| split; [vm_compute; reflexivity |]].
  - destruct (upload_button_live Samples.import_backend
                [CsvUpload.Pick (Some Samples.data_csv)] Samples.data_csv CsvUpload.initial)
      as (H & _ & _).
    destruct H as (chosen & Hfile & _ & Hsent); [reflexivity |].
    exists chosen. split; [exact Hfile | exact Hsent].
  - match goal with
    | |- context [CsvUpload.handleFileSelect _ ?q] =>
        destruct (upload_button_live Samples.import_backend [] Samples.data_csv q)
          as (_ & H & _)
    end.
    destruct H as (H & _); [reflexivity | exact H].
Defined.

(** X17. The two checks of [validateFile] in their order and at their
    bound: a [.csv] file of exactly 10 MiB passes and one byte more is
    turned away as too large; a file that fails both checks gets the
    extension message, and one toast only. *)
Theorem validateFile_bounds (name : string) (size : Z) (p : CsvUpload.page) :
  (endsWith name ".csv" = true →
   result_of (CsvUpload.validateFile
                (Some {| file_name := name; file_size := 10 * 1024 * 1024 |}) p)
   = Returned true
   ∧ CsvUpload.validateFile
       (Some {| file_name := name; file_size := 10 * 1024 * 1024 + 1 |}) p
     = (Returned false, p, [ToastError (VStr CsvUpload.TOO_LARGE)]))
  ∧ (endsWith name ".csv" = false →
     CsvUpload.validateFile (Some {| file_name := name; file_size := size |}) p
     = (Returned false, p, [ToastError (VStr CsvUpload.NOT_CSV)])).
Proof.
  split.
  - intros Hname. rewrite !validateFile_run. cbn [file_name file_size].
    rewrite Hname. split; reflexivity.
  - intros Hname. rewrite validateFile_run. cbn [file_name file_size].
    rewrite Hname. reflexivity.
Qed.

(** [scores.csv] at the bound passes; [scores.CSV] does not, whatever
    its size: the suffix test tells the cases apart. *)
Lemma validateFile_bounds_example :
  result_of (CsvUpload.validateFile
               (Some {| file_name := "scores.csv"; file_size := 10 * 1024 * 1024 |})
               CsvUpload.initial) = Returned true
  ∧ trace_of (CsvUpload.validateFile
                (Some {| file_name := "scores.CSV"; file_size := 20 * 1024 * 1024 |})
                CsvUpload.initial)
    = [ToastError (VStr CsvUpload.NOT_CSV)].
Proof.
  split.
  - destruct (validateFile_bounds "scores.csv" 0 CsvUpload.initial) as [H _].
    destruct H as [H _]; [reflexivity | exact H].
  - destruct (validateFile_bounds "scores.CSV" (20 * 1024 * 1024) CsvUpload.initial)
      as [_ H].
    rewrite H by reflexivity. reflexivity.
Defined.

(** ** Typing into the signup form, and what a submission ends in *)

(** X18. Typing into a field of the signup form sets that field and
    no other, takes that field's error off the screen and leaves the
    errors of the other fields as they were; it sends nothing and does
    not touch the submitting flag. *)
Theorem handleChange_frame (name : Signup.Field) (value : string) (p : Signup.page) :
  let run := Signup.handleChange name value p in
  let after := state_of run in
  trace_of run = []
  ∧ SignupView.read name (Signup.form after) = value
  ∧ Signup.has_error (Signup.errors after) (Signup.name_of name) = false
  ∧ Signup.isSubmitting after = Signup.isSubmitting p
  ∧ ∀ other, other ≠ name →
      SignupView.read other (Signup.form after) = SignupView.read other (Signup.form p)
      ∧ Signup.errors after !! Signup.name_of other
        = Signup.errors p !! Signup.name_of other.
Proof.
  cbv zeta. unfold Signup.handleChange.
  cbv [mbind Act_bind bind get Signup.setForm Signup.setErrors modify mret Act_ret ret
       state_of trace_of fst snd].
  destruct (Signup.has_error (Signup.errors p) (Signup.name_of name)) eqn:Herr; cbn.
  - split; [reflexivity | split; [destruct name; reflexivity | split; [| split]]].
    + unfold Signup.has_error. rewrite lookup_spread_singleton.
      destruct (decide (Signup.name_of name = Signup.name_of name)); [reflexivity |].
      contradiction.
    + reflexivity.
    + intros other Hother. split; [destruct name, other; try reflexivity; contradiction |].
      rewrite lookup_spread_singleton.
      destruct (decide (Signup.name_of name = Signup.name_of other)) as [Heq | Hne];
        [| reflexivity].
      destruct name, other; try discriminate; contradiction.
  - split; [reflexivity | split; [destruct name; reflexivity | split; [| split]]].
    + exact Herr.
    + reflexivity.
    + intros other Hother. split; [| reflexivity].
      destruct name, other; try reflexivity; contradiction.
Qed.

Lemma invalid_has_error (f : Signup.Form) :
  Signup.all_valid f = false → ∃ k, Signup.has_error (Signup.validate f) k = true.
Proof.
  unfold Signup.all_valid, Signup.has_error. intros Hinvalid.
  destruct (validate_lookup f) as (Hu & He & Hp & Hc).
  destruct (String.eqb (trim (Signup.username f)) "") eqn:Hblank.
  { exists "username". rewrite Hu. reflexivity. }
  destruct (String.length (Signup.username f) <? 3)%nat eqn:Hshort.
  { exists "username". rewrite Hu. reflexivity. }
  destruct (includes (Signup.email f) "@"%char) eqn:Hemail.
  2: { exists "email". rewrite He. reflexivity. }
  destruct (String.length (Signup.password f) <? 8)%nat eqn:Hpw.
  { exists "password". rewrite Hp. reflexivity. }
  destruct (String.eqb (Signup.password f) (Signup.passwordConfirm f)) eqn:Hsame.
  2: { exists "passwordConfirm". rewrite Hc. reflexivity. }
  exfalso. cbn [negb andb] in Hinvalid.
  apply Nat.ltb_ge in Hshort, Hpw.
  apply Nat.leb_le in Hshort, Hpw. rewrite Hshort, Hpw in Hinvalid. discriminate.
Qed.

(** X19. A submission the four checks do not all pass is refused for
    whatever [authApi.signup] is: nothing is sent or shown, the form
    and the submitting flag stay, and the error object becomes the
    non-empty result of [validate].  A name of white space only is
    reported as missing, however long it is. *)
Theorem handleSubmit_refuses_invalid (signup : option (gmap string jsval → Act () ()))
    (p : Signup.page) :
  Signup.all_valid (Signup.form p) = false →
  Signup.handleSubmit signup p =
  (Returned (),
   {| Signup.form := Signup.form p;
      Signup.errors := Signup.validate (Signup.form p);
      Signup.isSubmitting := Signup.isSubmitting p |},
   [])
  ∧ Signup.validate (Signup.form p) ≠ ∅
  ∧ (trim (Signup.username (Signup.form p)) = "" →
     Signup.validate (Signup.form p) !! "username" = Some Signup.USERNAME_REQUIRED).
Proof.
  intros Hinvalid. destruct (invalid_has_error _ Hinvalid) as [k Hk].
  split; [apply (handleSubmit_blocked signup p k Hk) | split].
  - intros Hempty. unfold Signup.has_error in Hk.
    rewrite Hempty, lookup_empty in Hk. discriminate.
  - intros Hblank. destruct (validate_lookup (Signup.form p)) as (-> & _).
    rewrite Hblank. reflexivity.
Qed.

(** Four spaces for a name: three characters or more, and refused as
    missing. *)
Lemma handleSubmit_blank_name :
  trace_of (Signup.handleSubmit Samples.signup_member
              (Samples.page_with Samples.blank_name_form)) = []
  ∧ Signup.validate Samples.blank_name_form !! "username"
    = Some Signup.USERNAME_REQUIRED.
Proof.
  destruct (handleSubmit_refuses_invalid Samples.signup_member
              (Samples.page_with Samples.blank_name_form)) as (Hrun & _ & Hmsg).
  - reflexivity.
  - split; [rewrite Hrun; reflexivity | apply Hmsg; reflexivity].
Defined.

(** X20. A valid submission ends not submitting with the form as
    typed.  When the signup call returns, its effects are followed by
    the success toast and the move to [/login]; when it throws, by one
    error toast with the backend's message or the generic one, and the
    page stays. *)
Theorem handleSubmit_valid_outcome (signup : option (gmap string jsval → Act () ()))
    (p : Signup.page) :
  Signup.all_valid (Signup.form p) = true →
  let call := Signup.authApi_signup signup (Signup.payload_of (Signup.form p))
                {| Signup.form := Signup.form p; Signup.errors := Signup.errors p;
                   Signup.isSubmitting := true |} in
  let run := Signup.handleSubmit signup p in
  Signup.form (state_of run) = Signup.form p
  ∧ Signup.isSubmitting (state_of run) = false
  ∧ match result_of call with
    | Returned _ =>
        trace_of run
        = trace_of call ++ [ToastSuccess Signup.SIGNUP_DONE; Navigated "/login"]
    | Thrown err =>
        trace_of run
        = trace_of call
          ++ [ToastError (or_else (err_message err) (VStr Signup.SIGNUP_FAILED))]
    end.
Proof.
  intros Hvalid. cbv zeta. rewrite (handleSubmit_valid signup p Hvalid).
  unfold state_of. cbn [fst snd Signup.form Signup.isSubmitting trace_of].
  split; [reflexivity | split; [reflexivity |]].
  destruct (result_of _); reflexivity.
Qed.

(** A valid form against a signup call that goes through: request,
    toast, move to the login page. *)
Lemma handleSubmit_valid_example :
  trace_of (Signup.handleSubmit Samples.signup_member
              (Samples.page_with Samples.valid_form))
  = [Sent (POST "/auth/signup" (Signup.payload_of Samples.valid_form));
     ToastSuccess Signup.SIGNUP_DONE; Navigated "/login"].
Proof.
  destruct (handleSubmit_valid_outcome Samples.signup_member
              (Samples.page_with Samples.valid_form) eq_refl) as (_ & _ & H).
  exact H.
Defined.

(** ** The percentage shown while uploading *)

(** X21. For an upload of fewer than 2^46 bytes, with the bytes sent
    between 0 and the total, the percentage handed to the progress
    callback lies between 0 and 100: it is 0 at the start and 100 at
    the end, and it reads 100 from the moment 99.5 percent of the bytes
    are out.  Below 2^46 the product [loaded * 100] is exact in the
    numbers of the code and the quotient, off a half by at least
    [1 / (2 * total)], rounds to the side the exact quotient is on. *)
Theorem percent_bounds (loaded total : Z) :
  0 < total < 2 ^ 46 → 0 ≤ loaded ≤ total →
  0 ≤ importApi.percent loaded total ≤ 100
  ∧ importApi.percent 0 total = 0
  ∧ importApi.percent total total = 100
  ∧ (importApi.percent loaded total = 100 ↔ 199 * total ≤ 200 * loaded).
Proof.
  intros [Htotal _] Hloaded. unfold importApi.percent, round_div.
  assert (Hdiv : ∀ a, 0 ≤ a →
            2 * total * ((2 * (a * 100) + total) / (2 * total)) ≤ 2 * (a * 100) + total
            ∧ 2 * (a * 100) + total
              < 2 * total * ((2 * (a * 100) + total) / (2 * total)) + 2 * total).
  { intros a Ha.
    pose proof (Z.div_mod (2 * (a * 100) + total) (2 * total)) as Hdm.
    pose proof (Z.mod_pos_bound (2 * (a * 100) + total) (2 * total)) as Hmod.
    lia. }
  split; [| split; [| split]].
  - destruct (Hdiv loaded) as [Hlo Hhi]; [lia |]. split; [apply Z.div_pos; lia | nia].
  - destruct (Hdiv 0) as [Hlo Hhi]; [lia |]. nia.
  - destruct (Hdiv total) as [Hlo Hhi]; [lia |]. nia.
  - destruct (Hdiv loaded) as [Hlo Hhi]; [lia |]. split; intros H; nia.
Qed.

(** Of 1200 bytes: 0 percent at 0, 50 at 600, and 100 already at 1194. *)
Lemma percent_bounds_example :
  importApi.percent 0 1200 = 0
  ∧ 0 ≤ importApi.percent 600 1200 ≤ 100
  ∧ importApi.percent 1194 1200 = 100.
Proof.
  destruct (percent_bounds 600 1200) as (Hrange & Hzero & _); [lia | lia |].
  destruct (percent_bounds 1194 1200) as (_ & _ & _ & Hfull); [lia | lia |].
  split; [exact Hzero | split; [exact Hrange | apply Hfull; lia]].
Defined.

(** ** The percentage in the numbers of the source *)

(** Rounding to the nearest integer is off by half a unit at most. *)
Lemma nearest_even_within_half (n d : Z) :
  0 < d → 2 * n - d ≤ 2 * d * Binary64.nearest_even n d ≤ 2 * n + d.
Proof.
  intros Hd. unfold Binary64.nearest_even.
  pose proof (Z.div_mod n d) as Hdm. pose proof (Z.mod_pos_bound n d Hd) as Hr.
  destruct (2 * (n mod d) <? d) eqn:Hlow; [apply Z.ltb_lt in Hlow; nia |].
  apply Z.ltb_ge in Hlow.
  destruct (d <? 2 * (n mod d)) eqn:Hhigh; [apply Z.ltb_lt in Hhigh; nia |].
  apply Z.ltb_ge in Hhigh.
  destruct (Z.even (n / d)); nia.
Qed.

(** A product below 2^53 is exact. *)
Lemma multiply_exact (x y : Z) : 0 ≤ x * y < 2 ^ 53 → Binary64.multiply x y = x * y.
Proof.
  intros [Hlo Hhi]. unfold Binary64.multiply.
  assert (Z.log2 (x * y) - 52 ≤ 0) as He.
  { destruct (Z.eq_dec (x * y) 0) as [-> | Hne]; [cbn; lia |].
    assert (Z.log2 (x * y) < 53); [| lia].
    apply Z.log2_lt_pow2; lia. }
  apply Z.leb_le in He. rewrite He. reflexivity.
Qed.

Lemma binade_bound (n d b : Z) :
  0 < n → 0 < d → 0 ≤ b → n < d * 2 ^ (b + 1) → Binary64.binade n d ≤ b.
Proof.
  intros Hn Hd Hb Hlt. unfold Binary64.binade.
  assert (Hk : Z.log2 n - Z.log2 d ≤ b + 1).
  { assert (Hmono : Z.log2 n ≤ Z.log2 (d * 2 ^ (b + 1))) by (apply Z.log2_le_mono; lia).
    rewrite Z.log2_mul_pow2 in Hmono by lia. lia. }
  destruct (Z.eq_dec (Z.log2 n - Z.log2 d) (b + 1)) as [Heq | Hne].
  - rewrite Heq.
    replace (0 <=? b + 1) with true by (symmetry; apply Z.leb_le; lia).
    replace (d * 2 ^ (b + 1) <=? n) with false by (symmetry; apply Z.leb_gt; lia).
    lia.
  - destruct (if 0 <=? _ then _ else _); lia.
Qed.

(** With 46 bits or more behind the binary point, a quotient by less
    than 2^46 rounds, after its own rounding, to the integer the exact
    quotient rounds to: it is off a half by [1 / (2 * total)] at least,
    more than the half unit its own rounding can move it. *)
Lemma round_scaled (a total s : Z) :
  0 ≤ a → 0 < total < 2 ^ 46 → 46 ≤ s →
  (2 * Binary64.nearest_even (a * 2 ^ s) total + 2 ^ s) / 2 ^ (1 + s) = round_div a total.
Proof.
  intros Ha [Htotal Hbound] Hs. unfold round_div.
  set (K := (2 * a + total) / (2 * total)).
  assert (HK : 2 * total * K ≤ 2 * a + total < 2 * total * K + 2 * total).
  { pose proof (Z.div_mod (2 * a + total) (2 * total)) as Hdm.
    pose proof (Z.mod_pos_bound (2 * a + total) (2 * total)) as Hmod.
    fold K in Hdm. lia. }
  pose proof (nearest_even_within_half (a * 2 ^ s) total Htotal) as Hm.
  set (m := Binary64.nearest_even (a * 2 ^ s) total) in *.
  assert (Hpow : 2 ^ s = 2 * 2 ^ (s - 1)).
  { rewrite <- Z.pow_succ_r by lia. f_equal. lia. }
  assert (Hbig : 2 ^ 46 ≤ 2 ^ s) by (apply Z.pow_le_mono_r; lia).
  set (P := 2 ^ (s - 1)) in *.
  assert (HP : 0 < P) by (apply Z.pow_pos_nonneg; lia).
  replace (2 ^ (1 + s)) with (2 * 2 ^ s) by (rewrite Z.pow_add_r by lia; reflexivity).
  rewrite Hpow in *.
  symmetry. apply Z.div_unique with (r := 2 * m + 2 * P - 2 * (2 * P) * K).
  - left. split.
    + assert (0 ≤ total * (m - (2 * K - 1) * P) + total - 1); nia.
    + assert (total * (2 * m - (2 * K + 1) * (2 * P)) < 0); nia.
  - lia.
Qed.

(** X23. For an upload of fewer than 2^46 bytes the percentage the
    source computes in binary64, [Math.round((loaded * 100) / total)],
    is the exactly rounded quotient: the product is exact, and the
    rounding of the quotient does not carry it across a half.  Without
    a bound on the total the two differ: there are byte counts at which
    the source reports 100 percent while the exact quotient is still
    below 99.5. *)
Theorem percent_in_binary64 :
  (∀ loaded total : Z,
     0 < total < 2 ^ 46 → 0 ≤ loaded ≤ total →
     Binary64.percent loaded total = importApi.percent loaded total)
  ∧ (∃ loaded total : Z,
       0 ≤ loaded ≤ total
       ∧ Binary64.percent loaded total = 100
       ∧ importApi.percent loaded total = 99).
Proof.
  split.
  - intros loaded total Htotal Hloaded. unfold Binary64.percent, importApi.percent.
    rewrite multiply_exact by (split; [lia |]; change (2 ^ 53) with (128 * 2 ^ 46); lia).
    unfold Binary64.divide. destruct (Z.eqb_spec (loaded * 100) 0) as [Hz | Hnz].
    + rewrite Hz. unfold round_div. cbn [Binary64.Math_round]. cbn.
      symmetry. apply Z.div_small. lia.
    + assert (Hb : Binary64.binade (loaded * 100) total ≤ 6).
      { apply binade_bound; [lia | lia | lia |]. change (2 ^ (6 + 1)) with 128. lia. }
      set (b := Binary64.binade (loaded * 100) total) in *.
      replace (0 <=? b - 52) with false by (symmetry; apply Z.leb_gt; lia).
      unfold Binary64.Math_round.
      replace (0 <=? b - 52) with false by (symmetry; apply Z.leb_gt; lia).
      replace (1 - (b - 52)) with (1 + - (b - 52)) by lia.
      apply round_scaled; lia.
  - exists 140033800913622, (2 ^ 47 + 71).
    split; [vm_compute; split; discriminate |]. split; vm_compute; reflexivity.
Qed.

(** Of 1200 bytes, 600 are 50 percent and 1194 are 100 in the numbers of
    the source as in the exact quotient. *)
Lemma percent_in_binary64_example :
  Binary64.percent 600 1200 = 50 ∧ Binary64.percent 1194 1200 = 100.
Proof.
  destruct percent_in_binary64 as [Hagree _].
  split.
  - rewrite (Hagree 600 1200) by lia. reflexivity.
  - rewrite (Hagree 1194 1200) by lia. reflexivity.
Defined.

(** ** The dashboard with every query answered *)

(** X22. With all six queries answered, the run sends the six queries
    and nothing else, and ends not loading and without an error, with
    the five totals on the cards in the order of the queries and the
    content of the sixth answer as the recent list.  Nothing of the
    state before, nor of the auth store, is left in the result: a
    refetch after a failure shows the same as a first fetch. *)
Theorem dashboard_all_fulfilled
    (backend : Request → Promise (AxiosResponse PageResponse))
    (auth : useAuthStore.state) (h : useDashboard.hook)
    (totalRes fcRes exHardRes hardRes clearRes recentRes : AxiosResponse PageResponse) :
  Forall2 (λ q res, outcome (backend q) = inl res) useDashboard.queries
    [totalRes; fcRes; exHardRes; hardRes; clearRes; recentRes] →
  let run := useDashboard.fetchDashboardData backend auth h in
  trace_of run = map Sent useDashboard.queries
  ∧ state_of run
    = {| useDashboard.stats :=
           {| useDashboard.total := totalElements (resp_data totalRes);
              useDashboard.fullCombo := totalElements (resp_data fcRes);
              useDashboard.exHard := totalElements (resp_data exHardRes);
              useDashboard.hard := totalElements (resp_data hardRes);
              useDashboard.clear := totalElements (resp_data clearRes) |};
         useDashboard.recentScores := content (resp_data recentRes);
         useDashboard.isLoading := false;
         useDashboard.error := VNull |}
  ∧ ∀ (auth' : useAuthStore.state) (h' : useDashboard.hook),
      state_of (useDashboard.fetchDashboardData backend auth' h') = state_of run.
Proof.
  intros Hall. cbv zeta. split; [| split].
  - rewrite fetchDashboardData_run. reflexivity.
  - apply (dashboard_success backend auth h _ _ _ _ _ _ Hall).
  - intros auth' h'.
    rewrite (dashboard_success backend auth' h' _ _ _ _ _ _ Hall).
    rewrite (dashboard_success backend auth h _ _ _ _ _ _ Hall).
    reflexivity.
Qed.

(** Forty scores in all and seven in each clear bucket on the cards,
    also when the fetch before had failed. *)
Lemma dashboard_all_fulfilled_example :
  let failed := state_of (useDashboard.fetchDashboardData
                            Samples.hard_clear_failing_backend
                            useAuthStore.initial useDashboard.initial) in
  state_of (useDashboard.fetchDashboardData Samples.counting_backend
              useAuthStore.initial failed)
  = {| useDashboard.stats :=
         {| useDashboard.total := 40; useDashboard.fullCombo := 7;
            useDashboard.exHard := 7; useDashboard.hard := 7; useDashboard.clear := 7 |};
       useDashboard.recentScores := [VObject [("id", VNum 1)]];
       useDashboard.isLoading := false;
       useDashboard.error := VNull |}.
Proof.
  cbv zeta.
  match goal with
  | |- state_of (useDashboard.fetchDashboardData ?backend ?auth ?h) = _ =>
      destruct (dashboard_all_fulfilled backend auth h
                  (Samples.page_of 40 [VObject [("id", VNum 1)]])
                  (Samples.page_of 7 []) (Samples.page_of 7 []) (Samples.page_of 7 [])
                  (Samples.page_of 7 [])
                  (Samples.page_of 40 [VObject [("id", VNum 1)]]))
        as (_ & Hstate & _)
  end.
  - repeat constructor.
  - rewrite Hstate. reflexivity.
Defined.

(** ** Instances of the store and form properties *)

(** After a filter change, a page change and another filter change the
    size is still 20 and the level filter is still there. *)
Lemma store_shape_example :
  let st := ScoresStoreRun.run
              [ ScoresStoreRun.SetFilters {[ "level" := VStr "12" ]};
                ScoresStoreRun.SetPage (VNum 3);
                ScoresStoreRun.SetFilters {[ "playStyle" := VStr "SP" ]} ]
              useScoresStore.initial in
  useScoresStore.pagination st !! "size" = Some (VNum 20)
  ∧ is_Some (useScoresStore.filters st !! "level").
Proof.
  cbv zeta.
  match goal with
  | |- context [ScoresStoreRun.run ?actions _] =>
      destruct (store_shape_invariant actions) as (Hsize & _ & Hfilters)
  end.
  split; [exact Hsize |]. apply Hfilters.
  apply elem_of_cons. right. apply elem_of_cons. left. reflexivity.
Defined.

(** Typing into the email field leaves the password and its error alone. *)
Lemma handleChange_example :
  let p := {| Signup.form := Samples.faulty_form;
              Signup.errors := Signup.validate Samples.faulty_form;
              Signup.isSubmitting := false |} in
  let after := state_of (Signup.handleChange Signup.Email "a@b" p) in
  Signup.password (Signup.form after) = "short"
  ∧ Signup.errors after !! "password" = Signup.errors p !! "password".
Proof.
  cbv zeta.
  match goal with
  | |- context [Signup.handleChange ?n ?v ?p] =>
      destruct (handleChange_frame n v p) as (_ & _ & _ & _ & Hothers)
  end.
  destruct (Hothers Signup.Password) as [Hform Herrors]; [discriminate |].
  split; [exact Hform | exact Herrors].
Defined.
